(** * RestCatalog: the table-metadata transaction engine, embedded in Rocq

    A shallow embedding of the Python sources
      - [app/services/storage_accessor.py]  (StorageAccessor),
      - [app/crud/crud_namespace.py], [app/crud/crud_table.py] (catalog store),
      - [app/services/metadata_manager.py]  (MetadataManager),
      - [app/api/v1/table_router.py]        (load and commit endpoints),
    followed by the properties of the specification that were checked
    against them.

    Conventions.
      - A Python [str] is a [string]; each [ascii] stands for one code point
        below 256.  Python integers are [Z].
      - [dict]s are [gmap]s, [Optional[T]] is [option T].
      - A coroutine that reads or writes the warehouse directory or the
        catalog database is a function from a [World] to an outcome and a
        new [World]; raising is the [Raise] outcome. *)

From Stdlib Require Import ZArith Lia Ascii DecimalString.
From stdpp Require Import base option list gmap strings sorting.

Local Open Scope string_scope.
Local Open Scope list_scope.
Local Open Scope Z_scope.

(** ** Python [str] operations used by the sources *)

Module PyStr.

Definition ord (c : ascii) : nat := Ascii.nat_of_ascii c.

(** [s.startswith(p)] *)
Definition startswith (s p : string) : bool := String.prefix p s.

(** [s.endswith(p)] for a one-character [p] *)
Fixpoint endswithChar (s : string) (c : ascii) : bool :=
  match s with
  | EmptyString => false
  | String d EmptyString => Ascii.eqb d c
  | String _ s' => endswithChar s' c
  end.

(** [needle in s] *)
Fixpoint contains (needle s : string) : bool :=
  String.prefix needle s ||
  match s with
  | EmptyString => false
  | String _ s' => contains needle s'
  end.

(** [s[n:]] *)
Fixpoint drop (n : nat) (s : string) : string :=
  match n, s with
  | O, _ => s
  | S n', String _ s' => drop n' s'
  | S _, EmptyString => EmptyString
  end.

(** [s.split(sep)] for a one-character separator: never the empty list. *)
Fixpoint split (sep : ascii) (s : string) : list string :=
  match s with
  | EmptyString => [EmptyString]
  | String c s' =>
      if Ascii.eqb c sep then EmptyString :: split sep s'
      else match split sep s' with
           | [] => [String c EmptyString]
           | h :: t => String c h :: t
           end
  end.

(** [sep.join(l)] *)
Fixpoint join (sep : string) (l : list string) : string :=
  match l with
  | [] => EmptyString
  | [x] => x
  | x :: l' => x +:+ sep +:+ join sep l'
  end.

(** [c * n] for a one-character string *)
Fixpoint replicateChar (n : nat) (c : ascii) : string :=
  match n with
  | O => EmptyString
  | S n' => String c (replicateChar n' c)
  end.

Definition isDecimalChar (c : ascii) : bool :=
  (48 <=? ord c)%nat && (ord c <=? 57)%nat.

(** Code points below 256 with Unicode property Numeric_Type=Digit or
    Decimal: the ten ASCII digits and the superscripts two, three, one. *)
Definition isDigitChar (c : ascii) : bool :=
  isDecimalChar c ||
  Nat.eqb (ord c) 178 || Nat.eqb (ord c) 179 || Nat.eqb (ord c) 185.

Fixpoint allChars (p : ascii -> bool) (s : string) : bool :=
  match s with
  | EmptyString => true
  | String c s' => p c && allChars p s'
  end.

(** [s.isdigit()]: non-empty and every character is a digit. *)
Definition isdigit (s : string) : bool :=
  match s with
  | EmptyString => false
  | _ => allChars isDigitChar s
  end.

(** Whitespace stripped by [int()] among the code points below 256. *)
Definition isSpaceChar (c : ascii) : bool :=
  let n := ord c in
  ((9 <=? n)%nat && (n <=? 13)%nat) || ((28 <=? n)%nat && (n <=? 32)%nat)
  || Nat.eqb n 133 || Nat.eqb n 160.

Fixpoint lstrip (s : string) : string :=
  match s with
  | String c s' => if isSpaceChar c then lstrip s' else s
  | EmptyString => EmptyString
  end.

Fixpoint rstrip (s : string) : string :=
  match s with
  | EmptyString => EmptyString
  | String c s' =>
      match rstrip s' with
      | EmptyString => if isSpaceChar c then EmptyString else String c EmptyString
      | rest => String c rest
      end
  end.

(** Digits of a decimal literal: non-empty groups of ASCII digits
    separated by single underscores.  [acc] is the value read so far and
    [afterDigit] tells whether the previous character was a digit. *)
Fixpoint intDigits (s : string) (acc : Z) (afterDigit : bool) : option Z :=
  match s with
  | EmptyString => if afterDigit then Some acc else None
  | String c s' =>
      if isDecimalChar c
      then intDigits s' (10 * acc + Z.of_nat (ord c - 48)) true
      else if Ascii.eqb c "_"%char && afterDigit
           then match s' with
                | EmptyString => None
                | String d _ =>
                    if isDecimalChar d then intDigits s' acc false else None
                end
           else None
  end.

(** The number of decimal digits of a literal. *)
Fixpoint countDigits (s : string) : nat :=
  match s with
  | EmptyString => O
  | String c s' => ((if isDecimalChar c then 1 else 0) + countDigits s')%nat
  end.

(** [sys.get_int_max_str_digits()], as CPython sets it. *)
Definition maxStrDigits : nat := 4300.

(** [int(s)]: [None] stands for [ValueError], which CPython also raises for
    a literal of more than [maxStrDigits] digits. *)
Definition int (s : string) : option Z :=
  match rstrip (lstrip s) with
  | EmptyString => None
  | String c s' as stripped =>
      if (maxStrDigits <? countDigits stripped)%nat then None
      else if Ascii.eqb c "-"%char then Z.opp <$> intDigits s' 0 false
      else if Ascii.eqb c "+"%char then intDigits s' 0 false
      else intDigits stripped 0 false
  end.

(** [str(n)] *)
Definition str (n : Z) : string := NilZero.string_of_int (Z.to_int n).

(** [f"{n:05d}"]: sign, then the digits zero-padded to five columns. *)
Definition format05d (n : Z) : string :=
  let digits := NilZero.string_of_uint (N.to_uint (Z.abs_N n)) in
  let sign := if n <? 0 then "-" else "" in
  let width := (5 - String.length sign)%nat in
  sign +:+ replicateChar (width - String.length digits) "0"%char +:+ digits.

End PyStr.

(** ** [os.path] on POSIX (CPython's [posixpath]) *)

Module PosixPath.

Definition isabs (p : string) : bool := PyStr.startswith p "/".

(** One round of the loop of [join(a, *p)]. *)
Definition join2 (path b : string) : string :=
  if PyStr.startswith b "/" then b
  else if bool_decide (path = "") || PyStr.endswithChar path "/"%char
       then path +:+ b
       else path +:+ "/" +:+ b.

Definition join (a : string) (ps : list string) : string :=
  fold_left join2 ps a.

(** The loop body of [normpath] over one component. *)
Definition normStep (initial_slashes : nat) (new_comps : list string)
    (comp : string) : list string :=
  if bool_decide (comp = "") || bool_decide (comp = ".") then new_comps
  else if negb (bool_decide (comp = ".."))
          || (Nat.eqb initial_slashes 0 && bool_decide (new_comps = []))
          || (negb (bool_decide (new_comps = []))
              && bool_decide (last new_comps = Some ".."))
       then new_comps ++ [comp]
       else removelast new_comps.

Definition normpath (path : string) : string :=
  if bool_decide (path = "") then "."
  else
    let initial_slashes :=
      if PyStr.startswith path "/"
      then if PyStr.startswith path "//" && negb (PyStr.startswith path "///")
           then 2%nat else 1%nat
      else 0%nat in
    let comps := fold_left (normStep initial_slashes) (PyStr.split "/" path) [] in
    let joined := PyStr.replicateChar initial_slashes "/" +:+ PyStr.join "/" comps in
    if bool_decide (joined = "") then "." else joined.

(** [abspath(path)], with the process's working directory made explicit. *)
Definition abspath (cwd path : string) : string :=
  normpath (if isabs path then path else join cwd [path]).

(** [basename(p)]: what follows the last slash. *)
Definition basename (p : string) : string :=
  default "" (last (PyStr.split "/" p)).


(** [s.rstrip("/")] *)
Fixpoint rstripSlash (s : string) : string :=
  match s with
  | EmptyString => EmptyString
  | String c s' =>
      match rstripSlash s' with
      | EmptyString =>
          if Ascii.eqb c "/"%char then EmptyString else String c EmptyString
      | rest => String c rest
      end
  end.

(** [dirname(p)]: what precedes the last slash, that slash included, then
    without its trailing slashes unless it is made of slashes only. *)
Definition dirname (p : string) : string :=
  let head :=
    match removelast (PyStr.split "/" p) with
    | [] => ""
    | front => PyStr.join "/" front +:+ "/"
    end in
  if negb (bool_decide (head = ""))
     && negb (PyStr.allChars (Ascii.eqb "/"%char) head)
  then rstripSlash head
  else head.

End PosixPath.

(** ** Exceptions ([app/core/exceptions.py])

    One constructor per exception class the embedded code raises.  The
    diagnostic message texts are not modelled; the identifiers the handlers
    and the claims look at are.  [IntegrityError] is SQLAlchemy's, and
    [PyError] stands for any other Python exception ([ValueError], a pydantic
    validation error, [FileNotFoundError], ...). *)

Module Exceptions.

Inductive Exn : Type :=
| BadRequestException
| ValidationException
| NotFoundException (resourceType identifier : string)
| NoSuchNamespaceException (namespace : list string)
| NoSuchTableException (tableIdentifier : list string)
| TableAlreadyExistsException (tableIdentifier : list string)
| CommitFailedException
| InternalServerErrorException
| IntegrityError
| PyError (className : string).

(** [isinstance(e, BaseIcebergException)] *)
Definition isBaseIcebergException (e : Exn) : bool :=
  match e with
  | IntegrityError | PyError _ => false
  | _ => true
  end.

(** [isinstance(e, CommitFailedException)] *)
Definition isCommitFailedException (e : Exn) : bool :=
  match e with
  | CommitFailedException => true
  | _ => false
  end.

(** The result of running code that may raise. *)
Inductive Outcome (A : Type) : Type :=
| Return (a : A)
| Raise (e : Exn).
Arguments Return {A} a.
Arguments Raise {A} e.

Definition bindO {A B : Type} (o : Outcome A) (k : A -> Outcome B) : Outcome B :=
  match o with
  | Return a => k a
  | Raise e => Raise e
  end.

End Exceptions.
Export Exceptions.

#[export] Instance Outcome_ret : MRet Outcome := @Return.
#[export] Instance Outcome_bind : MBind Outcome := fun A B k o => bindO o k.

(** ** Wire and metadata models ([app/models/iceberg_models.py]) *)

Module Models.

(** [IcebergType] is the union of the primitive type names and the three
    nested types; a [StructField] carries one. *)
Inductive IcebergType : Type :=
| PrimitiveType (name : string)
| StructType (fields : list StructField)
| ListType (elementId : Z) (element : IcebergType) (elementRequired : bool)
| MapType (keyId : Z) (key : IcebergType) (valueId : Z) (value : IcebergType)
    (valueRequired : bool)
with StructField : Type :=
| mkStructField (id : Z) (name : string) (type : IcebergType) (required : bool)
    (doc : option string).

Definition fieldId (f : StructField) : Z :=
  match f with mkStructField id _ _ _ _ => id end.
Definition fieldType (f : StructField) : IcebergType :=
  match f with mkStructField _ _ type _ _ => type end.

Record Schema : Type := mkSchema {
  schemaId : option Z;
  schemaFields : list StructField;
  identifierFieldIds : option (list Z)
}.

Definition set_schemaId (v : option Z) (s : Schema) : Schema :=
  {| schemaId := v; schemaFields := schemaFields s;
     identifierFieldIds := identifierFieldIds s |}.

Record PartitionField : Type := mkPartitionField {
  sourceId : Z;
  partitionFieldId : Z;
  partitionName : string;
  transform : string
}.

Record PartitionSpec : Type := mkPartitionSpec {
  specId : Z;
  specFields : list PartitionField
}.

Inductive Direction : Type := asc | desc.
Inductive NullOrder : Type := nulls_first | nulls_last.

Record SortField : Type := mkSortField {
  sortSourceId : Z;
  sortTransform : string;
  direction : Direction;
  nullOrder : NullOrder
}.

Record SortOrder : Type := mkSortOrder {
  orderId : Z;
  orderFields : list SortField
}.

Record Snapshot : Type := mkSnapshot {
  snapshotId : Z;
  parentId : option Z;
  timestampMs : Z;
  summary : option (gmap string string);
  manifestList : string;
  snapshotSchemaId : option Z
}.

Inductive RefType : Type := tag | branch.

Record SnapshotReference : Type := mkSnapshotReference {
  refSnapshotId : Z;
  refType : RefType;
  minSnapshotsToKeep : option Z;
  maxSnapshotAgeMs : option Z;
  maxRefAgeMs : option Z
}.

(** Entries of [snapshot-log] and [metadata-log] (dictionaries in the source). *)
Record SnapshotLogEntry : Type := mkSnapshotLogEntry {
  logTimestampMs : Z;
  logSnapshotId : Z
}.

Record MetadataLogEntry : Type := mkMetadataLogEntry {
  metadataTimestampMs : Z;
  metadataFile : string
}.

(** [TableMetadata].  The type of the elements of [schemas] is a parameter:
    [Schema] for a metadata value, an object reference where the identity of
    the schema objects matters (see [Manager.buildInitialTableMetadata]). *)
Record TableMetadataOf (S : Type) : Type := mkTableMetadata {
  formatVersion : Z;
  tableUuid : string;
  location : string;
  lastUpdatedMs : Z;
  lastColumnId : Z;
  schemas : list S;
  currentSchemaId : Z;
  partitionSpecs : list PartitionSpec;
  defaultSpecId : Z;
  lastPartitionId : Z;
  properties : option (gmap string string);
  currentSnapshotId : option Z;
  snapshots : option (list Snapshot);
  snapshotLog : option (list SnapshotLogEntry);
  metadataLog : option (list MetadataLogEntry);
  sortOrders : list SortOrder;
  defaultSortOrderId : Z;
  refs : option (gmap string SnapshotReference)
}.
Arguments mkTableMetadata {S}.
Arguments formatVersion {S}.
Arguments tableUuid {S}.
Arguments location {S}.
Arguments lastUpdatedMs {S}.
Arguments lastColumnId {S}.
Arguments schemas {S}.
Arguments currentSchemaId {S}.
Arguments partitionSpecs {S}.
Arguments defaultSpecId {S}.
Arguments lastPartitionId {S}.
Arguments properties {S}.
Arguments currentSnapshotId {S}.
Arguments snapshots {S}.
Arguments snapshotLog {S}.
Arguments metadataLog {S}.
Arguments sortOrders {S}.
Arguments defaultSortOrderId {S}.
Arguments refs {S}.

(** The metadata as a value, as [model_dump] and the metadata files have it. *)
Abbreviation TableMetadata := (TableMetadataOf Schema).

(** Attribute assignment [m.x = v], one function per attribute. *)
Section Setters.
Context {S : Type}.
Implicit Type m : TableMetadataOf S.

Definition set_formatVersion (v : Z) m : TableMetadataOf S :=
  {| formatVersion := v; tableUuid := tableUuid m; location := location m;
     lastUpdatedMs := lastUpdatedMs m; lastColumnId := lastColumnId m;
     schemas := schemas m; currentSchemaId := currentSchemaId m;
     partitionSpecs := partitionSpecs m; defaultSpecId := defaultSpecId m;
     lastPartitionId := lastPartitionId m; properties := properties m;
     currentSnapshotId := currentSnapshotId m; snapshots := snapshots m;
     snapshotLog := snapshotLog m; metadataLog := metadataLog m; sortOrders
     := sortOrders m; defaultSortOrderId := defaultSortOrderId m; refs :=
     refs m |}.

Definition set_tableUuid (v : string) m : TableMetadataOf S :=
  {| formatVersion := formatVersion m; tableUuid := v; location := location
     m; lastUpdatedMs := lastUpdatedMs m; lastColumnId := lastColumnId m;
     schemas := schemas m; currentSchemaId := currentSchemaId m;
     partitionSpecs := partitionSpecs m; defaultSpecId := defaultSpecId m;
     lastPartitionId := lastPartitionId m; properties := properties m;
     currentSnapshotId := currentSnapshotId m; snapshots := snapshots m;
     snapshotLog := snapshotLog m; metadataLog := metadataLog m; sortOrders
     := sortOrders m; defaultSortOrderId := defaultSortOrderId m; refs :=
     refs m |}.

Definition set_location (v : string) m : TableMetadataOf S :=
  {| formatVersion := formatVersion m; tableUuid := tableUuid m; location :=
     v; lastUpdatedMs := lastUpdatedMs m; lastColumnId := lastColumnId m;
     schemas := schemas m; currentSchemaId := currentSchemaId m;
     partitionSpecs := partitionSpecs m; defaultSpecId := defaultSpecId m;
     lastPartitionId := lastPartitionId m; properties := properties m;
     currentSnapshotId := currentSnapshotId m; snapshots := snapshots m;
     snapshotLog := snapshotLog m; metadataLog := metadataLog m; sortOrders
     := sortOrders m; defaultSortOrderId := defaultSortOrderId m; refs :=
     refs m |}.

Definition set_lastUpdatedMs (v : Z) m : TableMetadataOf S :=
  {| formatVersion := formatVersion m; tableUuid := tableUuid m; location :=
     location m; lastUpdatedMs := v; lastColumnId := lastColumnId m; schemas
     := schemas m; currentSchemaId := currentSchemaId m; partitionSpecs :=
     partitionSpecs m; defaultSpecId := defaultSpecId m; lastPartitionId :=
     lastPartitionId m; properties := properties m; currentSnapshotId :=
     currentSnapshotId m; snapshots := snapshots m; snapshotLog :=
     snapshotLog m; metadataLog := metadataLog m; sortOrders := sortOrders m;
     defaultSortOrderId := defaultSortOrderId m; refs := refs m |}.

Definition set_lastColumnId (v : Z) m : TableMetadataOf S :=
  {| formatVersion := formatVersion m; tableUuid := tableUuid m; location :=
     location m; lastUpdatedMs := lastUpdatedMs m; lastColumnId := v; schemas
     := schemas m; currentSchemaId := currentSchemaId m; partitionSpecs :=
     partitionSpecs m; defaultSpecId := defaultSpecId m; lastPartitionId :=
     lastPartitionId m; properties := properties m; currentSnapshotId :=
     currentSnapshotId m; snapshots := snapshots m; snapshotLog :=
     snapshotLog m; metadataLog := metadataLog m; sortOrders := sortOrders m;
     defaultSortOrderId := defaultSortOrderId m; refs := refs m |}.

Definition set_schemas (v : list S) m : TableMetadataOf S :=
  {| formatVersion := formatVersion m; tableUuid := tableUuid m; location :=
     location m; lastUpdatedMs := lastUpdatedMs m; lastColumnId :=
     lastColumnId m; schemas := v; currentSchemaId := currentSchemaId m;
     partitionSpecs := partitionSpecs m; defaultSpecId := defaultSpecId m;
     lastPartitionId := lastPartitionId m; properties := properties m;
     currentSnapshotId := currentSnapshotId m; snapshots := snapshots m;
     snapshotLog := snapshotLog m; metadataLog := metadataLog m; sortOrders
     := sortOrders m; defaultSortOrderId := defaultSortOrderId m; refs :=
     refs m |}.

Definition set_currentSchemaId (v : Z) m : TableMetadataOf S :=
  {| formatVersion := formatVersion m; tableUuid := tableUuid m; location :=
     location m; lastUpdatedMs := lastUpdatedMs m; lastColumnId :=
     lastColumnId m; schemas := schemas m; currentSchemaId := v;
     partitionSpecs := partitionSpecs m; defaultSpecId := defaultSpecId m;
     lastPartitionId := lastPartitionId m; properties := properties m;
     currentSnapshotId := currentSnapshotId m; snapshots := snapshots m;
     snapshotLog := snapshotLog m; metadataLog := metadataLog m; sortOrders
     := sortOrders m; defaultSortOrderId := defaultSortOrderId m; refs :=
     refs m |}.

Definition set_partitionSpecs (v : list PartitionSpec) m : TableMetadataOf S :=
  {| formatVersion := formatVersion m; tableUuid := tableUuid m; location :=
     location m; lastUpdatedMs := lastUpdatedMs m; lastColumnId :=
     lastColumnId m; schemas := schemas m; currentSchemaId := currentSchemaId
     m; partitionSpecs := v; defaultSpecId := defaultSpecId m;
     lastPartitionId := lastPartitionId m; properties := properties m;
     currentSnapshotId := currentSnapshotId m; snapshots := snapshots m;
     snapshotLog := snapshotLog m; metadataLog := metadataLog m; sortOrders
     := sortOrders m; defaultSortOrderId := defaultSortOrderId m; refs :=
     refs m |}.

Definition set_defaultSpecId (v : Z) m : TableMetadataOf S :=
  {| formatVersion := formatVersion m; tableUuid := tableUuid m; location :=
     location m; lastUpdatedMs := lastUpdatedMs m; lastColumnId :=
     lastColumnId m; schemas := schemas m; currentSchemaId := currentSchemaId
     m; partitionSpecs := partitionSpecs m; defaultSpecId := v;
     lastPartitionId := lastPartitionId m; properties := properties m;
     currentSnapshotId := currentSnapshotId m; snapshots := snapshots m;
     snapshotLog := snapshotLog m; metadataLog := metadataLog m; sortOrders
     := sortOrders m; defaultSortOrderId := defaultSortOrderId m; refs :=
     refs m |}.

Definition set_lastPartitionId (v : Z) m : TableMetadataOf S :=
  {| formatVersion := formatVersion m; tableUuid := tableUuid m; location :=
     location m; lastUpdatedMs := lastUpdatedMs m; lastColumnId :=
     lastColumnId m; schemas := schemas m; currentSchemaId := currentSchemaId
     m; partitionSpecs := partitionSpecs m; defaultSpecId := defaultSpecId m;
     lastPartitionId := v; properties := properties m; currentSnapshotId :=
     currentSnapshotId m; snapshots := snapshots m; snapshotLog :=
     snapshotLog m; metadataLog := metadataLog m; sortOrders := sortOrders m;
     defaultSortOrderId := defaultSortOrderId m; refs := refs m |}.

Definition set_properties (v : option (gmap string string)) m : TableMetadataOf S :=
  {| formatVersion := formatVersion m; tableUuid := tableUuid m; location :=
     location m; lastUpdatedMs := lastUpdatedMs m; lastColumnId :=
     lastColumnId m; schemas := schemas m; currentSchemaId := currentSchemaId
     m; partitionSpecs := partitionSpecs m; defaultSpecId := defaultSpecId m;
     lastPartitionId := lastPartitionId m; properties := v; currentSnapshotId
     := currentSnapshotId m; snapshots := snapshots m; snapshotLog :=
     snapshotLog m; metadataLog := metadataLog m; sortOrders := sortOrders m;
     defaultSortOrderId := defaultSortOrderId m; refs := refs m |}.

Definition set_currentSnapshotId (v : option Z) m : TableMetadataOf S :=
  {| formatVersion := formatVersion m; tableUuid := tableUuid m; location :=
     location m; lastUpdatedMs := lastUpdatedMs m; lastColumnId :=
     lastColumnId m; schemas := schemas m; currentSchemaId := currentSchemaId
     m; partitionSpecs := partitionSpecs m; defaultSpecId := defaultSpecId m;
     lastPartitionId := lastPartitionId m; properties := properties m;
     currentSnapshotId := v; snapshots := snapshots m; snapshotLog :=
     snapshotLog m; metadataLog := metadataLog m; sortOrders := sortOrders m;
     defaultSortOrderId := defaultSortOrderId m; refs := refs m |}.

Definition set_snapshots (v : option (list Snapshot)) m : TableMetadataOf S :=
  {| formatVersion := formatVersion m; tableUuid := tableUuid m; location :=
     location m; lastUpdatedMs := lastUpdatedMs m; lastColumnId :=
     lastColumnId m; schemas := schemas m; currentSchemaId := currentSchemaId
     m; partitionSpecs := partitionSpecs m; defaultSpecId := defaultSpecId m;
     lastPartitionId := lastPartitionId m; properties := properties m;
     currentSnapshotId := currentSnapshotId m; snapshots := v; snapshotLog :=
     snapshotLog m; metadataLog := metadataLog m; sortOrders := sortOrders m;
     defaultSortOrderId := defaultSortOrderId m; refs := refs m |}.

Definition set_snapshotLog (v : option (list SnapshotLogEntry)) m : TableMetadataOf S :=
  {| formatVersion := formatVersion m; tableUuid := tableUuid m; location :=
     location m; lastUpdatedMs := lastUpdatedMs m; lastColumnId :=
     lastColumnId m; schemas := schemas m; currentSchemaId := currentSchemaId
     m; partitionSpecs := partitionSpecs m; defaultSpecId := defaultSpecId m;
     lastPartitionId := lastPartitionId m; properties := properties m;
     currentSnapshotId := currentSnapshotId m; snapshots := snapshots m;
     snapshotLog := v; metadataLog := metadataLog m; sortOrders := sortOrders
     m; defaultSortOrderId := defaultSortOrderId m; refs := refs m |}.

Definition set_metadataLog (v : option (list MetadataLogEntry)) m : TableMetadataOf S :=
  {| formatVersion := formatVersion m; tableUuid := tableUuid m; location :=
     location m; lastUpdatedMs := lastUpdatedMs m; lastColumnId :=
     lastColumnId m; schemas := schemas m; currentSchemaId := currentSchemaId
     m; partitionSpecs := partitionSpecs m; defaultSpecId := defaultSpecId m;
     lastPartitionId := lastPartitionId m; properties := properties m;
     currentSnapshotId := currentSnapshotId m; snapshots := snapshots m;
     snapshotLog := snapshotLog m; metadataLog := v; sortOrders := sortOrders
     m; defaultSortOrderId := defaultSortOrderId m; refs := refs m |}.

Definition set_sortOrders (v : list SortOrder) m : TableMetadataOf S :=
  {| formatVersion := formatVersion m; tableUuid := tableUuid m; location :=
     location m; lastUpdatedMs := lastUpdatedMs m; lastColumnId :=
     lastColumnId m; schemas := schemas m; currentSchemaId := currentSchemaId
     m; partitionSpecs := partitionSpecs m; defaultSpecId := defaultSpecId m;
     lastPartitionId := lastPartitionId m; properties := properties m;
     currentSnapshotId := currentSnapshotId m; snapshots := snapshots m;
     snapshotLog := snapshotLog m; metadataLog := metadataLog m; sortOrders
     := v; defaultSortOrderId := defaultSortOrderId m; refs := refs m |}.

Definition set_defaultSortOrderId (v : Z) m : TableMetadataOf S :=
  {| formatVersion := formatVersion m; tableUuid := tableUuid m; location :=
     location m; lastUpdatedMs := lastUpdatedMs m; lastColumnId :=
     lastColumnId m; schemas := schemas m; currentSchemaId := currentSchemaId
     m; partitionSpecs := partitionSpecs m; defaultSpecId := defaultSpecId m;
     lastPartitionId := lastPartitionId m; properties := properties m;
     currentSnapshotId := currentSnapshotId m; snapshots := snapshots m;
     snapshotLog := snapshotLog m; metadataLog := metadataLog m; sortOrders
     := sortOrders m; defaultSortOrderId := v; refs := refs m |}.

Definition set_refs (v : option (gmap string SnapshotReference)) m : TableMetadataOf S :=
  {| formatVersion := formatVersion m; tableUuid := tableUuid m; location :=
     location m; lastUpdatedMs := lastUpdatedMs m; lastColumnId :=
     lastColumnId m; schemas := schemas m; currentSchemaId := currentSchemaId
     m; partitionSpecs := partitionSpecs m; defaultSpecId := defaultSpecId m;
     lastPartitionId := lastPartitionId m; properties := properties m;
     currentSnapshotId := currentSnapshotId m; snapshots := snapshots m;
     snapshotLog := snapshotLog m; metadataLog := metadataLog m; sortOrders
     := sortOrders m; defaultSortOrderId := defaultSortOrderId m; refs := v |}.

End Setters.

Record TableIdentifier : Type := mkTableIdentifier {
  namespace : list string;
  name : string
}.

(** [TableRequirement] *)
Inductive TableRequirement : Type :=
| AssertCreate
| AssertTableUUID (uuid : string)
| AssertDefaultSpecID (defaultSpecId : Z)
| AssertDefaultSortOrderID (defaultSortOrderId : Z)
| AssertCurrentSchemaID (currentSchemaId : Z)
| AssertLastAssignedFieldID (lastAssignedFieldId : Z)
| AssertRefSnapshotID (ref : string) (snapshotId : option Z).

(** The [type] attribute of a requirement. *)
Definition requirementType (r : TableRequirement) : string :=
  match r with
  | AssertCreate => "assert-create"
  | AssertTableUUID _ => "assert-table-uuid"
  | AssertDefaultSpecID _ => "assert-default-spec-id"
  | AssertDefaultSortOrderID _ => "assert-default-sort-order-id"
  | AssertCurrentSchemaID _ => "assert-current-schema-id"
  | AssertLastAssignedFieldID _ => "assert-last-assigned-field-id"
  | AssertRefSnapshotID _ _ => "assert-ref-snapshot-id"
  end.

(** [TableUpdate]: the fifteen members of the union. *)
Inductive TableUpdate : Type :=
| AssignUUIDUpdate (uuid : string)
| UpgradeFormatVersionUpdate (formatVersion : Z)
| AddSchemaUpdate (schemaModel : Schema) (lastAssignedFieldId : option Z)
| SetCurrentSchemaUpdate (schemaId : Z)
| AddPartitionSpecUpdate (spec : PartitionSpec)
| SetDefaultSpecUpdate (specId : Z)
| AddSortOrderUpdate (sortOrder : SortOrder)
| SetDefaultSortOrderUpdate (sortOrderId : Z)
| AddSnapshotUpdate (snapshot : Snapshot)
| RemoveSnapshotsUpdate (snapshotIds : list Z)
| SetSnapshotRefUpdate (refName : string) (type : RefType) (snapshotId : Z)
    (maxRefAgeMs maxSnapshotAgeMs minSnapshotsToKeep : option Z)
| RemoveSnapshotRefUpdate (refName : string)
| SetPropertiesUpdate (updates : gmap string string)
| RemovePropertiesUpdate (removals : list string)
| SetLocationUpdate (location : string).

(** The [action] attribute of an update. *)
Definition action (u : TableUpdate) : string :=
  match u with
  | AssignUUIDUpdate _ => "assign-uuid"
  | UpgradeFormatVersionUpdate _ => "upgrade-format-version"
  | AddSchemaUpdate _ _ => "add-schema"
  | SetCurrentSchemaUpdate _ => "set-current-schema"
  | AddPartitionSpecUpdate _ => "add-spec"
  | SetDefaultSpecUpdate _ => "set-default-spec"
  | AddSortOrderUpdate _ => "add-sort-order"
  | SetDefaultSortOrderUpdate _ => "set-default-sort-order"
  | AddSnapshotUpdate _ => "add-snapshot"
  | RemoveSnapshotsUpdate _ => "remove-snapshots"
  | SetSnapshotRefUpdate _ _ _ _ _ _ => "set-snapshot-ref"
  | RemoveSnapshotRefUpdate _ => "remove-snapshot-ref"
  | SetPropertiesUpdate _ => "set-properties"
  | RemovePropertiesUpdate _ => "remove-properties"
  | SetLocationUpdate _ => "set-location"
  end.

Record CommitTableRequest : Type := mkCommitTableRequest {
  identifier : option TableIdentifier;
  requirements : list TableRequirement;
  updates : list TableUpdate
}.

Record CommitTableResponse : Type := mkCommitTableResponse {
  commitMetadataLocation : string;
  commitMetadata : TableMetadata
}.

Record LoadTableResult : Type := mkLoadTableResult {
  loadMetadataLocation : option string;
  loadMetadata : TableMetadata;
  config : option (gmap string string)
}.


(** [CreateTableRequest], [RegisterTableRequest] and [RenameTableRequest] *)
Record CreateTableRequest : Type := mkCreateTableRequest {
  createName : string;
  createLocation : option string;
  createSchema : Schema;
  createPartitionSpec : option PartitionSpec;
  writeOrder : option SortOrder;
  stageCreate : option bool;
  createProperties : option (gmap string string)
}.

Record RegisterTableRequest : Type := mkRegisterTableRequest {
  registerName : option string;
  registerMetadataLocation : string
}.

Record RenameTableRequest : Type := mkRenameTableRequest {
  source : TableIdentifier;
  destination : TableIdentifier
}.

(** *** Constructor calls by field name

    No model sets [populate_by_name].  A field that is declared with an
    alias is taken under the alias only: a keyword argument that is the name
    of such a field is an extra argument and is ignored, and the field gets
    its default or, when it has none, the constructor raises pydantic's
    [ValidationError].  The sources call four constructors with keyword
    arguments that are field names. *)

(** [TableMetadata(formatVersion=..., tableUuid=..., location=...,
    lastUpdatedMs=..., lastColumnId=..., schemas=..., ...)]: [keywords] are
    the values given.  [lastColumnId] is declared with the alias
    [last-column-id] and without default, and nothing is given under the
    alias. *)
Definition constructTableMetadata {S : Type} (keywords : TableMetadataOf S)
  : Outcome (TableMetadataOf S) :=
  Raise (PyError "ValidationError").

(** [SetSnapshotRefUpdate(refName=..., snapshotId=..., type=...)
    .model_dump(by_alias=True, exclude={'action', 'refName'})], the entry that
    the [add-snapshot] arm means to put under the ref name: [refName] and
    [snapshotId] are declared with the aliases [ref-name] and [snapshot-id]
    and without default. *)
Definition constructSetSnapshotRefUpdate (refName : string) (snapshotId : Z)
    (type : RefType) : Outcome SnapshotReference :=
  Raise (PyError "ValidationError").

(** [CommitTableResponse(metadataLocation=..., metadata=...)]:
    [metadataLocation] is declared with the alias [metadata-location] and
    without default. *)
Definition constructCommitTableResponse (metadataLocation : string)
    (metadata : TableMetadata) : Outcome CommitTableResponse :=
  Raise (PyError "ValidationError").

(** [LoadTableResult(metadataLocation=..., metadata=..., config=...)]:
    [metadataLocation] is declared with the alias [metadata-location] and
    the default [None], which it keeps; the two other fields have no
    alias. *)
Definition constructLoadTableResult (metadataLocation : string)
    (metadata : TableMetadata) (config : option (gmap string string))
  : LoadTableResult :=
  {| loadMetadataLocation := None; loadMetadata := metadata;
     config := config |}.

End Models.
Export Models.

(** ** The world the service runs in

    The warehouse is a finite map from absolute, normalised file paths to
    file contents; only regular files are modelled, so the only I/O failures
    are a missing file, a file that is not JSON and the empty path.  The
    catalog is the two tables of [app/db/models_db.py].  A query is evaluated
    on the rows as they are stored at that moment; what a request that has
    already loaded a row gets back for it is said at [CRUDTable.Session]. *)

Module WorldModel.

(** What [json.loads] gives for a file: a document that the [TableMetadata]
    constructor accepts (kept as the metadata it parses to), or some other
    document. *)
Inductive JsonDoc : Type :=
| MetadataJson (m : TableMetadata)
| OtherJson.

Inductive FileContent : Type :=
| JsonFile (j : JsonDoc)
| NotJsonFile.

(** The [TableMetadata] constructor applied to the keys of a document. *)
Definition parseTableMetadata (j : JsonDoc) : Outcome TableMetadata :=
  match j with
  | MetadataJson m => Return m
  | OtherJson => Raise (PyError "ValidationError")
  end.

(** [NamespaceModel] and [TableModel] rows. *)
Record NamespaceModel : Type := mkNamespaceModel {
  nsId : Z;
  levels : list string;
  nsProperties : option (gmap string string)
}.

Record TableModel : Type := mkTableModel {
  tableId : Z;
  namespaceId : Z;
  tableName : string;
  metadataLocation : string;
  tableProperties : option (gmap string string)
}.

Definition set_metadataLocation (v : string) (t : TableModel) : TableModel :=
  {| tableId := tableId t; namespaceId := namespaceId t;
     tableName := tableName t; metadataLocation := v;
     tableProperties := tableProperties t |}.

Record World : Type := mkWorld {
  files : gmap string FileContent;
  namespaces : list NamespaceModel;
  tables : list TableModel
}.

Definition set_files (v : gmap string FileContent) (w : World) : World :=
  {| files := v; namespaces := namespaces w; tables := tables w |}.
Definition set_tables (v : list TableModel) (w : World) : World :=
  {| files := files w; namespaces := namespaces w; tables := v |}.

(** The process: the [ICEBERG_WAREHOUSE_PATH] setting and the working
    directory that relative paths are opened in. *)
Record Env : Type := mkEnv {
  icebergWarehousePath : string;
  cwd : string
}.

(** What the code draws from the clock and from [uuid.uuid4()] during one
    request. *)
Record Oracle : Type := mkOracle {
  currentTimeMs : Z;
  uuid4 : string;
  uuid4' : string
}.

(** A coroutine over the world. *)
Definition M (A : Type) : Type := World -> Outcome A * World.

Definition retM {A : Type} (a : A) : M A := fun w => (Return a, w).

Definition bindM {A B : Type} (c : M A) (k : A -> M B) : M B :=
  fun w =>
    match c w with
    | (Return a, w') => k a w'
    | (Raise e, w') => (Raise e, w')
    end.

Definition raise {A : Type} (e : Exn) : M A := fun w => (Raise e, w).

Definition liftO {A : Type} (o : Outcome A) : M A := fun w => (o, w).

(** [try: c  except Exception as e: h(e)] *)
Definition tryExcept {A : Type} (c : M A) (h : Exn -> M A) : M A :=
  fun w =>
    match c w with
    | (Return a, w') => (Return a, w')
    | (Raise e, w') => h e w'
    end.

(** Other requests running while this one is suspended at an [await]. *)
Definition yieldTo (others : World -> World) : M unit :=
  fun w => (Return tt, others w).

End WorldModel.
Export WorldModel.

Notation "x <~ c ; k" := (bindM c (fun x => k))
  (at level 20, c at level 100, k at level 200, only parsing).

(** ** Storage accessor ([app/services/storage_accessor.py]) *)

Module StorageAccessor.

Section WithEnv.
Variable env : Env.

Definition baseWarehousePath : string := icebergWarehousePath env.

(** [_resolvePath] *)
Definition _resolvePath (relativeOrAbsolutePath : string) : Outcome string :=
  if PyStr.contains "://" relativeOrAbsolutePath
     || PosixPath.isabs relativeOrAbsolutePath
  then
    if PyStr.startswith relativeOrAbsolutePath "file://"
    then Return (PyStr.drop (String.length "file://") relativeOrAbsolutePath)
    else Return relativeOrAbsolutePath
  else
    let fullPath :=
      PosixPath.abspath (cwd env)
        (PosixPath.join baseWarehousePath [relativeOrAbsolutePath]) in
    if negb (PyStr.startswith fullPath
               (PosixPath.abspath (cwd env) baseWarehousePath))
    then Raise ValidationException
    else Return fullPath.

(** The file a path handed to the operating system names: [None] for the
    empty path, which names nothing. *)
Definition osFile (path : string) : option string :=
  if bool_decide (path = "") then None
  else Some (PosixPath.abspath (cwd env) path).

(** [aiofiles.os.path.exists], of a path that names a regular file or
    nothing; a path that names a directory is outside the model. *)
Definition osExists (path : string) : M bool :=
  fun w =>
    (Return (match osFile path with
             | Some f => bool_decide (is_Some (files w !! f))
             | None => false
             end), w).

(** [aiofiles.os.remove], of a path that names a regular file or nothing. *)
Definition osRemove (path : string) : M unit :=
  fun w =>
    match osFile path with
    | Some f =>
        match files w !! f with
        | Some _ => (Return tt, set_files (delete f (files w)) w)
        | None => (Raise (PyError "FileNotFoundError"), w)
        end
    | None => (Raise (PyError "FileNotFoundError"), w)
    end.

(** [readJsonFile] *)
Definition readJsonFile (path : string) : M JsonDoc :=
  resolvedPath <~ liftO (_resolvePath path);
  fun w =>
    match osFile resolvedPath ≫= (files w !!.) with
    | None => (Raise (NotFoundException "File" resolvedPath), w)
    | Some NotJsonFile => (Raise ValidationException, w)
    | Some (JsonFile j) => (Return j, w)
    end.

(** [writeJsonFile]: creating the parent directories always succeeds here. *)
Definition writeJsonFile (path : string) (data : JsonDoc) : M unit :=
  resolvedPath <~ liftO (_resolvePath path);
  fun w =>
    match osFile resolvedPath with
    | None => (Raise InternalServerErrorException, w)
    | Some f => (Return tt, set_files (<[f := JsonFile data]> (files w)) w)
    end.

(** [fileExists] *)
Definition fileExists (path : string) : M bool :=
  resolvedPath <~ liftO (_resolvePath path);
  tryExcept (osExists resolvedPath)
    (fun _ => raise InternalServerErrorException).

(** [deleteFile]: note that [fileExists] is handed the resolved path and
    resolves it once more. *)
Definition deleteFile (path : string) : M unit :=
  resolvedPath <~ liftO (_resolvePath path);
  tryExcept
    (present <~ fileExists resolvedPath;
     if present : bool then osRemove resolvedPath else retM tt)
    (fun _ => raise InternalServerErrorException).

End WithEnv.

End StorageAccessor.

(** ** Catalog store ([app/crud/crud_namespace.py], [app/crud/crud_table.py]) *)

Module CRUDNamespace.

(** [getNamespaceByLevels] *)
Definition getNamespaceByLevels (levels : list string)
  : M (option NamespaceModel) :=
  fun w =>
    (Return (List.find (fun n => bool_decide (WorldModel.levels n = levels))
                       (namespaces w)), w).

(** [ORDER BY levels]: arrays compare element by element, a proper prefix
    first; strings compare by code point. *)
Fixpoint levelsCompare (a b : list string) : comparison :=
  match a, b with
  | [], [] => Eq
  | [], _ :: _ => Lt
  | _ :: _, [] => Gt
  | x :: a', y :: b' =>
      match String.compare x y with
      | Eq => levelsCompare a' b'
      | c => c
      end
  end.

Fixpoint insertByLevels (n : NamespaceModel) (l : list NamespaceModel)
  : list NamespaceModel :=
  match l with
  | [] => [n]
  | m :: l' =>
      match levelsCompare (WorldModel.levels n) (WorldModel.levels m) with
      | Gt => m :: insertByLevels n l'
      | _ => n :: l
      end
  end.

Definition orderByLevels (l : list NamespaceModel) : list NamespaceModel :=
  fold_right insertByLevels [] l.

(** [listNamespaces]: the body of [if parent:] is [pass]. *)
Definition listNamespaces (parent : option (list string))
  : M (list NamespaceModel) :=
  fun w =>
    let stmt := namespaces w in
    let stmt :=
      match parent with
      | Some (_ :: _) => stmt
      | _ => stmt
      end in
    (Return (orderByLevels stmt), w).


(** The class defines no [namespaceExists], which [listTablesEndpoint]
    calls: looking the attribute up raises [AttributeError]. *)
Definition namespaceExists (levels : list string) : M bool :=
  raise (PyError "AttributeError").

End CRUDNamespace.

Module CRUDTable.

(** [getTableByIdentifier] *)
Definition getTableByIdentifier (identifier : TableIdentifier)
  : M (option TableModel) :=
  namespaceModel <~ CRUDNamespace.getNamespaceByLevels (namespace identifier);
  match namespaceModel with
  | None => retM None
  | Some namespaceModel =>
      fun w =>
        (Return (List.find
                   (fun t => (namespaceId t =? nsId namespaceModel)
                             && bool_decide (tableName t = name identifier))
                   (tables w)), w)
  end.

(** The two uniqueness constraints of [iceberg_tables]: does [row] clash
    with another stored row? *)
Definition violatesUnique (row : TableModel) (stored : list TableModel) : bool :=
  existsb
    (fun t =>
       negb (tableId t =? tableId row)
       && (bool_decide (metadataLocation t = metadataLocation row)
           || ((namespaceId t =? namespaceId row)
               && bool_decide (tableName t = tableName row))))
    stored.

(** [db.commit()] after an attribute of [row] was assigned: the row with the
    same primary key is rewritten, unless a constraint rejects it. *)
Definition commitUpdate (row : TableModel) : M unit :=
  fun w =>
    if violatesUnique row (tables w)
    then (Raise IntegrityError, w)
    else (Return tt,
          set_tables
            (map (fun t => if tableId t =? tableId row then row else t)
                 (tables w)) w).

(** [db.add(row); db.commit()]: the key comes from the table's sequence. *)
Definition commitInsert (row : TableModel) : M TableModel :=
  fun w =>
    let key := 1 + fold_right Z.max 0 (map tableId (tables w)) in
    let row :=
      {| tableId := key; namespaceId := namespaceId row;
         tableName := tableName row; metadataLocation := metadataLocation row;
         tableProperties := tableProperties row |} in
    if violatesUnique row (tables w)
    then (Raise IntegrityError, w)
    else (Return row, set_tables (tables w ++ [row]) w).

(** [db.refresh(row)] *)
Definition refresh (row : TableModel) : M TableModel :=
  fun w =>
    (Return (default row
               (List.find (fun t => tableId t =? tableId row) (tables w))), w).

(** [createTable] *)
Definition createTable (namespaceLevels : list string) (tableName : string)
    (initialMetadataLocation : string)
    (catalogProperties : option (gmap string string)) : M TableModel :=
  namespaceModel <~ CRUDNamespace.getNamespaceByLevels namespaceLevels;
  match namespaceModel with
  | None => raise (NoSuchNamespaceException namespaceLevels)
  | Some namespaceModel =>
      existing <~ getTableByIdentifier
                    (mkTableIdentifier namespaceLevels tableName);
      match existing with
      | Some _ =>
          raise (TableAlreadyExistsException (namespaceLevels ++ [tableName]))
      | None =>
          let dbTable :=
            {| tableId := 0; namespaceId := nsId namespaceModel;
               tableName := tableName;
               metadataLocation := initialMetadataLocation;
               tableProperties := catalogProperties |} in
          tryExcept
            (dbTable <~ commitInsert dbTable; refresh dbTable)
            (fun e =>
               match e with
               | IntegrityError =>
                   raise (TableAlreadyExistsException
                            (namespaceLevels ++ [tableName]))
               | _ => raise e
               end)
      end
  end.

(** [updateTableMetadataLocation], run in a session that holds no instance
    of the row; [updateTableMetadataLocationIn] below is the function in the
    session of a request that has loaded the row before. *)
Definition updateTableMetadataLocation (identifier : TableIdentifier)
    (newMetadataLocation : string)
    (oldMetadataLocationForCheck : option string) : M TableModel :=
  dbTable <~ getTableByIdentifier identifier;
  match dbTable with
  | None =>
      raise (NoSuchTableException (namespace identifier ++ [name identifier]))
  | Some dbTable =>
      if match oldMetadataLocationForCheck with
         | Some expected =>
             negb (bool_decide (expected = ""))
             && negb (bool_decide (metadataLocation dbTable = expected))
         | None => false
         end
      then raise CommitFailedException
      else
        let dbTable := set_metadataLocation newMetadataLocation dbTable in
        _ <~ commitUpdate dbTable;
        refresh dbTable
  end.


(** What the session of a request has loaded: its identity map, from primary
    key to instance.  A query is evaluated on the stored rows, but for a row
    whose key is in the map the session hands out the instance it holds, with
    the attributes it was loaded with, whatever the stored row has become.
    The definitions above are the functions run in a session that has loaded
    no table row; [commitTableEndpoint] is the one caller that looks a row up
    twice with other requests running in between. *)
Abbreviation Session := (gmap Z TableModel).

(** [getTableByIdentifier] in a session. *)
Definition getTableByIdentifierIn (session : Session)
    (identifier : TableIdentifier) : M (option TableModel) :=
  stored <~ getTableByIdentifier identifier;
  retM (match stored with
        | Some stored => Some (default stored (session !! tableId stored))
        | None => None
        end).

(** [dbTable.metadataLocation = v; db.commit()] on the instance [dbTable]:
    the flush writes the one attribute that was assigned, by primary key,
    and nothing when [v] is the value the instance already had. *)
Definition commitLocation (dbTable : TableModel) (newMetadataLocation : string)
  : M unit :=
  fun w =>
    if bool_decide (newMetadataLocation = metadataLocation dbTable)
    then (Return tt, w)
    else
      if existsb
           (fun t =>
              (tableId t =? tableId dbTable)
              && violatesUnique (set_metadataLocation newMetadataLocation t)
                   (tables w))
           (tables w)
      then (Raise IntegrityError, w)
      else (Return tt,
            set_tables
              (map (fun t => if tableId t =? tableId dbTable
                             then set_metadataLocation newMetadataLocation t
                             else t)
                   (tables w)) w).

(** [updateTableMetadataLocation] in a session: the comparison with the
    expected location reads the instance that the session hands out. *)
Definition updateTableMetadataLocationIn (session : Session)
    (identifier : TableIdentifier) (newMetadataLocation : string)
    (oldMetadataLocationForCheck : option string) : M TableModel :=
  dbTable <~ getTableByIdentifierIn session identifier;
  match dbTable with
  | None =>
      raise (NoSuchTableException (namespace identifier ++ [name identifier]))
  | Some dbTable =>
      if match oldMetadataLocationForCheck with
         | Some expected =>
             negb (bool_decide (expected = ""))
             && negb (bool_decide (metadataLocation dbTable = expected))
         | None => false
         end
      then raise CommitFailedException
      else
        _ <~ commitLocation dbTable newMetadataLocation;
        refresh (set_metadataLocation newMetadataLocation dbTable)
  end.

(** The class defines no [tableExists], which [tableExistsEndpoint] calls:
    looking the attribute up raises [AttributeError]. *)
Definition tableExists (identifier : TableIdentifier) : M bool :=
  raise (PyError "AttributeError").

(** [ORDER BY name]: strings compare by code point. *)
Fixpoint insertByName (t : TableModel) (l : list TableModel)
  : list TableModel :=
  match l with
  | [] => [t]
  | u :: l' =>
      match String.compare (tableName t) (tableName u) with
      | Gt => u :: insertByName t l'
      | _ => t :: l
      end
  end.

Definition orderByName (l : list TableModel) : list TableModel :=
  fold_right insertByName [] l.

(** [listTables] *)
Definition listTables (namespaceLevels : list string) : M (list TableModel) :=
  namespaceModel <~ CRUDNamespace.getNamespaceByLevels namespaceLevels;
  match namespaceModel with
  | None => raise (NoSuchNamespaceException namespaceLevels)
  | Some namespaceModel =>
      fun w =>
        (Return (orderByName
                   (List.filter
                      (fun t => namespaceId t =? nsId namespaceModel)
                      (tables w))), w)
  end.

(** [registerTable] *)
Definition registerTable (env : Env) (namespaceLevels : list string)
    (tableName : string) (metadataLocation : string)
    (catalogProperties : option (gmap string string)) : M TableModel :=
  namespaceModel <~ CRUDNamespace.getNamespaceByLevels namespaceLevels;
  match namespaceModel with
  | None => raise (NoSuchNamespaceException namespaceLevels)
  | Some namespaceModel =>
      existing <~ getTableByIdentifier
                    (mkTableIdentifier namespaceLevels tableName);
      match existing with
      | Some _ =>
          raise (TableAlreadyExistsException (namespaceLevels ++ [tableName]))
      | None =>
          present <~ StorageAccessor.fileExists env metadataLocation;
          if negb present then raise ValidationException
          else
            let dbTable :=
              {| tableId := 0; namespaceId := nsId namespaceModel;
                 tableName := tableName;
                 metadataLocation := metadataLocation;
                 tableProperties := catalogProperties |} in
            tryExcept
              (dbTable <~ commitInsert dbTable; refresh dbTable)
              (fun e =>
                 match e with
                 | IntegrityError =>
                     raise (TableAlreadyExistsException
                              (namespaceLevels ++ [tableName]))
                 | _ => raise e
                 end)
      end
  end.

(** [db.delete(dbTable); db.commit()]: the row with that primary key goes. *)
Definition commitDelete (row : TableModel) : M unit :=
  fun w =>
    (Return tt,
     set_tables
       (List.filter (fun t => negb (tableId t =? tableId row)) (tables w)) w).

(** [deleteTable]: a failed purge is only printed. *)
Definition deleteTable (env : Env) (identifier : TableIdentifier)
    (purge : bool) : M unit :=
  dbTable <~ getTableByIdentifier identifier;
  match dbTable with
  | None =>
      raise (NoSuchTableException (namespace identifier ++ [name identifier]))
  | Some dbTable =>
      _ <~ (if purge
            then tryExcept
                   (StorageAccessor.deleteFile env (metadataLocation dbTable))
                   (fun _ => retM tt)
            else retM tt);
      commitDelete dbTable
  end.

(** [renameTable] *)
Definition renameTable (source destination : TableIdentifier) : M unit :=
  sourceDbTable <~ getTableByIdentifier source;
  match sourceDbTable with
  | None => raise (NoSuchTableException (namespace source ++ [name source]))
  | Some sourceDbTable =>
      existing <~ getTableByIdentifier destination;
      match existing with
      | Some _ =>
          raise (TableAlreadyExistsException
                   (namespace destination ++ [name destination]))
      | None =>
          destNamespaceModel <~
            CRUDNamespace.getNamespaceByLevels (namespace destination);
          match destNamespaceModel with
          | None => raise (NoSuchNamespaceException (namespace destination))
          | Some destNamespaceModel =>
              let sourceDbTable :=
                {| tableId := tableId sourceDbTable;
                   namespaceId := nsId destNamespaceModel;
                   tableName := name destination;
                   metadataLocation := metadataLocation sourceDbTable;
                   tableProperties := tableProperties sourceDbTable |} in
              tryExcept
                (commitUpdate sourceDbTable)
                (fun e =>
                   match e with
                   | IntegrityError =>
                       raise (TableAlreadyExistsException
                                (namespace destination ++ [name destination]))
                   | _ => raise e
                   end)
          end
      end
  end.

End CRUDTable.

(** ** Metadata manager ([app/services/metadata_manager.py]) *)

Module MetadataManager.

(** [generateNewMetadataLocation], given the UUID it draws. *)
Definition generateNewMetadataLocation (uuid : string) (tableLocation : string)
    (oldMetadataLocation : option string) : string :=
  let version :=
    match oldMetadataLocation with
    | Some old =>
        if bool_decide (old = "") then 0
        else
          let filename := PosixPath.basename old in
          let versionStr := hd "" (PyStr.split "-" filename) in
          match PyStr.int versionStr with
          | Some v => v + 1
          | None => 0
          end
    | None => 0
    end in
  let metadataDir := PosixPath.join tableLocation ["metadata"] in
  let newFilename :=
    PyStr.format05d version +:+ "-" +:+ uuid +:+ ".metadata.json" in
  PosixPath.join metadataDir [newFilename].

(** One round of the loop of [getMaxIdRecursive] (the helper nested in
    [buildInitialTableMetadata]); only a struct type has a [fields]
    attribute. *)
Fixpoint getMaxIdStep (f : StructField) (currentMax : Z) {struct f} : Z :=
  match f with
  | mkStructField id _ type _ _ =>
      let currentMax := Z.max currentMax id in
      match type with
      | StructType ((_ :: _) as fields) =>
          Z.max currentMax
            (fold_left (fun acc g => getMaxIdStep g acc) fields 0)
      | _ => currentMax
      end
  end.

Definition getMaxIdRecursive (fields : list StructField) : Z :=
  fold_left (fun currentMax f => getMaxIdStep f currentMax) fields 0.

(** One round of the loop of [getMaxFieldIdFromSchema] (the helper nested in
    [applyUpdatesToMetadata]), which recurses on the struct type itself. *)
Fixpoint getMaxFieldIdStep (f : StructField) (maxId : Z) {struct f} : Z :=
  match f with
  | mkStructField id _ type _ _ =>
      let maxId := Z.max maxId id in
      match type with
      | StructType ((_ :: _) as fields) =>
          Z.max maxId
            (fold_left (fun acc g => getMaxFieldIdStep g acc) fields 0)
      | _ => maxId
      end
  end.

Definition getMaxFieldIdFromFields (fields : list StructField) : Z :=
  fold_left (fun maxId f => getMaxFieldIdStep f maxId) fields 0.

Definition getMaxFieldIdFromSchema (schema : Schema) : Z :=
  getMaxFieldIdFromFields (schemaFields schema).

(** [max(...)] over a non-empty sequence. *)
Definition pyMax (l : list Z) : Z :=
  match l with
  | [] => 0
  | x :: l' => fold_left Z.max l' x
  end.

(** The schema objects a request holds, by reference. *)
Abbreviation Heap := (gmap positive Schema).

(** [buildInitialTableMetadata].  The [schema] argument is a reference to the
    caller's object in [heap]; the result is how the call ends (with the
    metadata, whose [schemas] are references, and the new location, or with
    an exception) and the heap after the call.  [None] only for a reference
    that denotes no object. *)
Definition buildInitialTableMetadata (o : Oracle) (tableName : string)
    (schema : positive) (partitionSpec : option PartitionSpec)
    (sortOrder : option SortOrder)
    (properties : option (gmap string string)) (tableLocation : string)
    (heap : Heap)
  : option (Outcome (TableMetadataOf positive * string) * Heap) :=
  match heap !! schema with
  | None => None
  | Some schemaObj =>
      let maxId :=
        match schemaFields schemaObj with
        | [] => 0
        | fields => getMaxIdRecursive fields
        end in
      let '(schemaObj, heap) :=
        match schemaId schemaObj with
        | None =>
            let schemaObj := set_schemaId (Some 0) schemaObj in
            (schemaObj, <[schema := schemaObj]> heap)
        | Some _ => (schemaObj, heap)
        end in
      let tableUuid := uuid4 o in
      let currentTimeMs := currentTimeMs o in
      let actualPartitionSpecFields :=
        match partitionSpec with
        | Some spec => specFields spec
        | None => []
        end in
      let lastPartitionId :=
        match actualPartitionSpecFields with
        | [] => 0
        | fields => pyMax (map partitionFieldId fields)
        end in
      Some
        (initialMetadata ←
           constructTableMetadata
             {| formatVersion := 1;
                tableUuid := tableUuid;
                location := tableLocation;
                lastUpdatedMs := currentTimeMs;
                lastColumnId := maxId;
                schemas := [schema];
                currentSchemaId := default 0 (schemaId schemaObj);
                partitionSpecs := option_list partitionSpec;
                defaultSpecId := from_option specId 0 partitionSpec;
                lastPartitionId := lastPartitionId;
                properties := Some (default ∅ properties);
                sortOrders := option_list sortOrder;
                defaultSortOrderId := from_option orderId 0 sortOrder;
                currentSnapshotId := None;
                snapshots := Some [];
                snapshotLog := Some [];
                metadataLog := Some [];
                refs := Some ∅ |};
         let metadataJsonFileLocation :=
           generateNewMetadataLocation (uuid4' o) tableLocation None in
         let initialMetadata :=
           set_metadataLog
             (Some [mkMetadataLogEntry currentTimeMs metadataJsonFileLocation])
             initialMetadata in
         Return (initialMetadata, metadataJsonFileLocation),
         heap)
  end.

(** The metadata value a metadata with schema references stands for:
    [schemas] read through the heap. *)
Definition derefMetadata (heap : Heap) (m : TableMetadataOf positive)
  : option TableMetadata :=
  schemaObjs ← mapM (heap !!.) (schemas m);
  Some {| formatVersion := formatVersion m; tableUuid := tableUuid m;
          location := location m; lastUpdatedMs := lastUpdatedMs m;
          lastColumnId := lastColumnId m; schemas := schemaObjs;
          currentSchemaId := currentSchemaId m;
          partitionSpecs := partitionSpecs m;
          defaultSpecId := defaultSpecId m;
          lastPartitionId := lastPartitionId m; properties := properties m;
          currentSnapshotId := currentSnapshotId m; snapshots := snapshots m;
          snapshotLog := snapshotLog m; metadataLog := metadataLog m;
          sortOrders := sortOrders m;
          defaultSortOrderId := defaultSortOrderId m; refs := refs m |}.

(** The body of the loop of [applyUpdatesToMetadata]: one update applied to
    the copy.  The last arm is the source's [else]. *)
Definition applyUpdate (newTableLocationForSetLocation : option string)
    (newMetadata : TableMetadata) (update : TableUpdate)
  : Outcome TableMetadata :=
  match update with
  | AssignUUIDUpdate uuid => Return (set_tableUuid uuid newMetadata)
  | UpgradeFormatVersionUpdate v =>
      if v >? formatVersion newMetadata
      then Return (set_formatVersion v newMetadata)
      else Raise CommitFailedException
  | AddSchemaUpdate schemaModel lastAssignedFieldId =>
      if existsb (fun s => bool_decide (schemaId s = schemaId schemaModel))
                 (schemas newMetadata)
      then Raise CommitFailedException
      else
        let newMetadata :=
          set_schemas (schemas newMetadata ++ [schemaModel]) newMetadata in
        let maxExistingFieldId := lastColumnId newMetadata in
        let newSchemaMaxFieldId := getMaxFieldIdFromSchema schemaModel in
        let newMetadata :=
          set_lastColumnId (Z.max maxExistingFieldId newSchemaMaxFieldId)
            newMetadata in
        match lastAssignedFieldId with
        | Some lastAssigned =>
            Return (set_lastColumnId
                      (Z.max (lastColumnId newMetadata) lastAssigned)
                      newMetadata)
        | None => Return newMetadata
        end
  | SetCurrentSchemaUpdate id =>
      if negb (existsb (fun s => bool_decide (schemaId s = Some id))
                       (schemas newMetadata))
      then Raise CommitFailedException
      else Return (set_currentSchemaId id newMetadata)
  | AddPartitionSpecUpdate spec =>
      if existsb (fun ps => specId ps =? specId spec)
                 (partitionSpecs newMetadata)
      then Raise CommitFailedException
      else
        let newMetadata :=
          set_partitionSpecs (partitionSpecs newMetadata ++ [spec])
            newMetadata in
        let maxExistingPartitionId := lastPartitionId newMetadata in
        let newSpecMaxFieldId :=
          match specFields spec with
          | [] => 0
          | fields => pyMax (map partitionFieldId fields)
          end in
        Return (set_lastPartitionId
                  (Z.max maxExistingPartitionId newSpecMaxFieldId)
                  newMetadata)
  | SetDefaultSpecUpdate id =>
      if negb (existsb (fun s => specId s =? id) (partitionSpecs newMetadata))
      then Raise CommitFailedException
      else Return (set_defaultSpecId id newMetadata)
  | AddSortOrderUpdate sortOrder =>
      if existsb (fun so => orderId so =? orderId sortOrder)
                 (sortOrders newMetadata)
      then Raise CommitFailedException
      else Return (set_sortOrders (sortOrders newMetadata ++ [sortOrder])
                     newMetadata)
  | SetDefaultSortOrderUpdate id =>
      if negb (existsb (fun s => orderId s =? id) (sortOrders newMetadata))
      then Raise CommitFailedException
      else Return (set_defaultSortOrderId id newMetadata)
  | AddSnapshotUpdate snapshot =>
      let newMetadata :=
        set_snapshots (Some (default [] (snapshots newMetadata) ++ [snapshot]))
          newMetadata in
      let newMetadata :=
        set_currentSnapshotId (Some (snapshotId snapshot)) newMetadata in
      let newMetadata :=
        set_snapshotLog
          (Some (default [] (snapshotLog newMetadata)
                 ++ [mkSnapshotLogEntry (timestampMs snapshot)
                       (snapshotId snapshot)]))
          newMetadata in
      let mainRefName := "main" in
      mainRef ← constructSetSnapshotRefUpdate mainRefName
                  (snapshotId snapshot) branch;
      Return (set_refs
                (Some (<[mainRefName := mainRef]>
                         (default ∅ (refs newMetadata))))
                newMetadata)
  | SetSnapshotRefUpdate refName type snapshotId maxRefAgeMs maxSnapshotAgeMs
      minSnapshotsToKeep =>
      Return (set_refs
                (Some (<[refName :=
                           mkSnapshotReference snapshotId type
                             minSnapshotsToKeep maxSnapshotAgeMs maxRefAgeMs]>
                         (default ∅ (refs newMetadata))))
                newMetadata)
  | SetPropertiesUpdate updates =>
      Return (set_properties
                (Some (updates ∪ default ∅ (properties newMetadata)))
                newMetadata)
  | RemovePropertiesUpdate removals =>
      match properties newMetadata with
      | Some props =>
          if bool_decide (props = ∅) then Return newMetadata
          else Return (set_properties
                         (Some (fold_left (fun p propKey => delete propKey p)
                                          removals props))
                         newMetadata)
      | None => Return newMetadata
      end
  | SetLocationUpdate location =>
      match newTableLocationForSetLocation with
      | Some override =>
          if bool_decide (override = "")
          then Return (set_location location newMetadata)
          else Return (set_location override newMetadata)
      | None => Return (set_location location newMetadata)
      end
  | RemoveSnapshotsUpdate _ | RemoveSnapshotRefUpdate _ =>
      Raise BadRequestException
  end.

(** The loop over the updates, in order; the first exception ends it. *)
Fixpoint applyUpdatesLoop (newTableLocationForSetLocation : option string)
    (updates : list TableUpdate) (newMetadata : TableMetadata)
  : Outcome TableMetadata :=
  match updates with
  | [] => Return newMetadata
  | update :: updates' =>
      newMetadata ← applyUpdate newTableLocationForSetLocation newMetadata
                      update;
      applyUpdatesLoop newTableLocationForSetLocation updates' newMetadata
  end.

(** [applyUpdatesToMetadata], given the time it reads.  The deep copy is the
    value itself. *)
Definition applyUpdatesToMetadata (now : Z) (currentMetadata : TableMetadata)
    (updates : list TableUpdate)
    (newTableLocationForSetLocation : option string)
  : Outcome TableMetadata :=
  let newMetadata := currentMetadata in
  let newMetadata := set_lastUpdatedMs now newMetadata in
  applyUpdatesLoop newTableLocationForSetLocation updates newMetadata.

End MetadataManager.

(** ** Table endpoints ([app/api/v1/table_router.py]) *)

Module TableRouter.

(** [parseNamespace] *)
Definition parseNamespace (namespaceStr : string) : list string :=
  if bool_decide (namespaceStr = "") then [] else PyStr.split "." namespaceStr.

(** The three arms that give [targetSnapshotId] in [loadTableEndpoint]:
    an all-digit string is converted, else a key of [refs] is looked up, else
    the snapshots are searched for one whose id prints as the string. *)
Definition targetSnapshotIdOf (tableMetadata : TableMetadata)
    (snapshotRef : string) : Outcome (option Z) :=
  if PyStr.isdigit snapshotRef
  then match PyStr.int snapshotRef with
       | Some n => Return (Some n)
       | None => Raise (PyError "ValueError")
       end
  else
    match default ∅ (refs tableMetadata) !! snapshotRef with
    | Some reference => Return (Some (refSnapshotId reference))
    | None =>
        Return (snapshotId <$>
                List.find
                  (fun snap =>
                     bool_decide (PyStr.str (snapshotId snap) = snapshotRef))
                  (default [] (snapshots tableMetadata)))
    end.

(** The body of [if snapshotRef:] in [loadTableEndpoint]. *)
Definition selectSnapshot (namespaceLevels : list string) (tableName : string)
    (tableMetadata : TableMetadata) (snapshotRef : string)
  : Outcome TableMetadata :=
  targetSnapshotId ← targetSnapshotIdOf tableMetadata snapshotRef;
  match targetSnapshotId with
  | None =>
      Raise (NoSuchTableException
               (namespaceLevels ++ [tableName; "ref:" +:+ snapshotRef]))
  | Some targetSnapshotId =>
      let currentSnap :=
        List.find (fun s => snapshotId s =? targetSnapshotId)
                  (default [] (snapshots tableMetadata)) in
      match currentSnap with
      | None => Raise CommitFailedException
      | Some currentSnap =>
          let tableMetadata :=
            set_currentSnapshotId (Some targetSnapshotId) tableMetadata in
          match snapshotSchemaId currentSnap with
          | Some schemaId => Return (set_currentSchemaId schemaId tableMetadata)
          | None => Return tableMetadata
          end
      end
  end.

(** The two handlers that close every endpoint but the commit:
    [except BaseIcebergException: raise] and
    [except Exception: raise InternalServerErrorException]. *)
Definition endpointHandlers {A : Type} (e : Exn) : M A :=
  if isBaseIcebergException e then raise e
  else raise InternalServerErrorException.

(** [loadTableEndpoint] *)
Definition loadTableEndpoint (env : Env) (namespaceStr tableName : string)
    (snapshotRef : option string) : M LoadTableResult :=
  let namespaceLevels := parseNamespace namespaceStr in
  let identifier := mkTableIdentifier namespaceLevels tableName in
  tryExcept
    (dbTable <~ CRUDTable.getTableByIdentifier identifier;
     match dbTable with
     | None => raise (NoSuchTableException (namespaceLevels ++ [tableName]))
     | Some dbTable =>
         metadataJson <~ StorageAccessor.readJsonFile env
                           (metadataLocation dbTable);
         tableMetadata <~ liftO (parseTableMetadata metadataJson);
         tableMetadata <~
           match snapshotRef with
           | Some ref =>
               if bool_decide (ref = "") then retM tableMetadata
               else liftO (selectSnapshot namespaceLevels tableName
                             tableMetadata ref)
           | None => retM tableMetadata
           end;
         retM (constructLoadTableResult (metadataLocation dbTable)
                 tableMetadata (tableProperties dbTable))
     end)
    endpointHandlers.

(** [any(isinstance(req, AssertCreate) for req in request.requirements)] *)
Definition isAssertCreate (request : CommitTableRequest) : bool :=
  existsb (fun req => match req with AssertCreate => true | _ => false end)
          (requirements request).

(** The loop over [request.requirements] on the update arm: the only
    requirement looked at is the one of type [assert-table-uuid]. *)
Fixpoint checkRequirements (currentMetadata : TableMetadata)
    (reqs : list TableRequirement) : Outcome unit :=
  match reqs with
  | [] => Return tt
  | req :: reqs' =>
      _ ← match req with
          | AssertTableUUID uuid =>
              if negb (bool_decide (tableUuid currentMetadata = uuid))
              then Raise CommitFailedException
              else Return tt
          | _ => Return tt
          end;
      checkRequirements currentMetadata reqs'
  end.

(** The location of the first [SetLocationUpdate], else [fallback]. *)
Fixpoint firstSetLocation (fallback : string) (updates : list TableUpdate)
  : string :=
  match updates with
  | [] => fallback
  | SetLocationUpdate location :: _ => location
  | _ :: updates' => firstSetLocation fallback updates'
  end.

(** The scan of the updates on the create arm: the last schema added, the
    merged properties, the last location set. *)
Definition scanCreateUpdates (updates : list TableUpdate)
  : option Schema * gmap string string * option string :=
  fold_left
    (fun '(schemaToAdd, props, tableLocation) update_action =>
       match update_action with
       | AddSchemaUpdate schemaModel _ => (Some schemaModel, props, tableLocation)
       | SetPropertiesUpdate updates => (schemaToAdd, updates ∪ props, tableLocation)
       | SetLocationUpdate location => (schemaToAdd, props, Some location)
       | _ => (schemaToAdd, props, tableLocation)
       end)
    updates (None, ∅, None).

(** The request's updates as they read once the schema object of the last
    [AddSchemaUpdate] has become [schemaObj]: that update holds the very
    object that the create arm hands to [buildInitialTableMetadata]. *)
Fixpoint replaceFirstAddSchema (schemaObj : Schema) (updates : list TableUpdate)
  : list TableUpdate :=
  match updates with
  | [] => []
  | AddSchemaUpdate _ lastAssignedFieldId :: updates' =>
      AddSchemaUpdate schemaObj lastAssignedFieldId :: updates'
  | update :: updates' => update :: replaceFirstAddSchema schemaObj updates'
  end.

Definition withSchemaToAdd (schemaObj : Schema) (updates : list TableUpdate)
  : list TableUpdate :=
  rev (replaceFirstAddSchema schemaObj (rev updates)).

(** The arm of [commitTableEndpoint] taken under [AssertCreate]: the
    metadata to write and its location.  The call of
    [buildInitialTableMetadata] stands outside every [try]. *)
Definition commitCreateArm (env : Env) (o : Oracle)
    (namespaceLevels : list string) (tableName : string)
    (request : CommitTableRequest) (currentDbTable : option TableModel)
  : M (TableMetadata * string) :=
  match currentDbTable with
  | Some _ => raise (TableAlreadyExistsException (namespaceLevels ++ [tableName]))
  | None =>
      match updates request with
      | [] => raise BadRequestException
      | _ =>
          let '(schemaToAdd, props, tableLocation) :=
            scanCreateUpdates (updates request) in
          match schemaToAdd with
          | None => raise BadRequestException
          | Some schemaObj =>
              let tableLocation :=
                match tableLocation with
                | Some l =>
                    if bool_decide (l = "")
                    then PosixPath.join
                           (PosixPath.abspath (cwd env) (icebergWarehousePath env))
                           (namespaceLevels ++ [tableName])
                    else l
                | None =>
                    PosixPath.join
                      (PosixPath.abspath (cwd env) (icebergWarehousePath env))
                      (namespaceLevels ++ [tableName])
                end in
              let schemaRef := 1%positive in
              match MetadataManager.buildInitialTableMetadata o tableName
                      schemaRef None None (Some props) tableLocation
                      {[ schemaRef := schemaObj ]} with
              | Some (built, heap) =>
                  built <~ liftO built;
                  let '(initialMetadata, newMetadataFileLocation) := built in
                  match MetadataManager.derefMetadata heap initialMetadata,
                        heap !! schemaRef with
                  | Some currentMetadata, Some schemaObj =>
                      currentMetadata <~
                        tryExcept
                          (liftO (MetadataManager.applyUpdatesToMetadata
                                    (currentTimeMs o) currentMetadata
                                    (withSchemaToAdd schemaObj (updates request))
                                    None))
                          (fun _ => raise CommitFailedException);
                      retM (currentMetadata, newMetadataFileLocation)
                  | _, _ => raise (PyError "ReferenceError")
                  end
              | None => raise (PyError "ReferenceError")
              end
          end
      end
  end.

(** The arm of [commitTableEndpoint] taken otherwise: the table must exist. *)
Definition commitUpdateArm (env : Env) (o : Oracle) (identifier : TableIdentifier)
    (request : CommitTableRequest) (currentDbTable : option TableModel)
  : M (TableMetadata * string) :=
  match currentDbTable with
  | None =>
      raise (NoSuchTableException (namespace identifier ++ [name identifier]))
  | Some currentDbTable =>
      let oldMetadataLocation := metadataLocation currentDbTable in
      currentMetadata <~
        tryExcept
          (currentMetadataJson <~ StorageAccessor.readJsonFile env
                                    oldMetadataLocation;
           liftO (parseTableMetadata currentMetadataJson))
          (fun _ => raise CommitFailedException);
      _ <~ liftO (checkRequirements currentMetadata (requirements request));
      let newTableBaseLocationForSetLocation :=
        firstSetLocation (location currentMetadata) (updates request) in
      currentMetadata <~
        tryExcept
          (liftO (MetadataManager.applyUpdatesToMetadata (currentTimeMs o)
                    currentMetadata (updates request)
                    (Some newTableBaseLocationForSetLocation)))
          (fun e =>
             if isBaseIcebergException e then raise e
             else raise CommitFailedException);
      let newMetadataFileLocation :=
        MetadataManager.generateNewMetadataLocation (uuid4 o)
          (location currentMetadata) (Some oldMetadataLocation) in
      retM (currentMetadata, newMetadataFileLocation)
  end.

(** [crudTable.createTable] as [commitTableEndpoint] calls it, with five
    positional arguments after [db]: the metadata location is bound to the
    parameter [initialMetadata], which the body does not use, and
    [currentMetadata.properties] to [initialMetadataLocation], so that the
    row to insert has the properties where its location is due.  A
    dictionary is no value of the [String] column, and [None] violates its
    NOT NULL: the commit of the insert fails, with an error of the driver in
    the first case and with an integrity error, which [createTable] turns
    into TableAlreadyExists, in the second. *)
Definition createTableWithPropertiesAsLocation (namespaceLevels : list string)
    (tableName : string) (initialMetadata : string)
    (initialMetadataLocation : option (gmap string string)) : M TableModel :=
  namespaceModel <~ CRUDNamespace.getNamespaceByLevels namespaceLevels;
  match namespaceModel with
  | None => raise (NoSuchNamespaceException namespaceLevels)
  | Some _ =>
      existing <~ CRUDTable.getTableByIdentifier
                    (mkTableIdentifier namespaceLevels tableName);
      match existing with
      | Some _ =>
          raise (TableAlreadyExistsException (namespaceLevels ++ [tableName]))
      | None =>
          match initialMetadataLocation with
          | Some _ => raise (PyError "DBAPIError")
          | None =>
              raise (TableAlreadyExistsException
                       (namespaceLevels ++ [tableName]))
          end
      end
  end.

(** [commitTableEndpoint].  [others] is what the other requests do to the
    world while this one is suspended between the row it read at the start
    and its compare-and-swap; [id] when it runs alone.  The row read at the
    start stays in the session of the request, and the compare-and-swap runs
    in that session. *)
Definition commitTableEndpoint (env : Env) (o : Oracle)
    (others : World -> World) (namespaceStr tableName : string)
    (request : CommitTableRequest) : M CommitTableResponse :=
  let namespaceLevels := parseNamespace namespaceStr in
  let identifierFromPath := mkTableIdentifier namespaceLevels tableName in
  if match Models.identifier request with
     | Some given =>
         negb (bool_decide (name given = tableName))
         || negb (bool_decide (namespace given = namespaceLevels))
     | None => false
     end
  then raise BadRequestException
  else
    let identifier := identifierFromPath in
    let isAssertCreate := isAssertCreate request in
    currentDbTable <~ CRUDTable.getTableByIdentifier identifier;
    let session : CRUDTable.Session :=
      match currentDbTable with
      | Some loaded => {[ tableId loaded := loaded ]}
      | None => ∅
      end in
    arm <~
      (if isAssertCreate
       then commitCreateArm env o namespaceLevels tableName request
              currentDbTable
       else commitUpdateArm env o identifier request currentDbTable);
    let '(currentMetadata, newMetadataFileLocation) := arm in
    let currentMetadata :=
      set_metadataLog
        (Some (default [] (metadataLog currentMetadata)
               ++ [mkMetadataLogEntry (lastUpdatedMs currentMetadata)
                     newMetadataFileLocation]))
        currentMetadata in
    _ <~ StorageAccessor.writeJsonFile env newMetadataFileLocation
           (MetadataJson currentMetadata);
    _ <~ yieldTo others;
    _ <~ tryExcept
           (if isAssertCreate
            then _ <~ createTableWithPropertiesAsLocation
                        (namespace identifier) (name identifier)
                        newMetadataFileLocation (properties currentMetadata);
                 retM tt
            else _ <~ CRUDTable.updateTableMetadataLocationIn session
                        identifier newMetadataFileLocation
                        (metadataLocation <$> currentDbTable);
                 retM tt)
           (fun e =>
              _ <~ StorageAccessor.deleteFile env newMetadataFileLocation;
              if isCommitFailedException e then raise e
              else raise CommitFailedException);
    liftO (constructCommitTableResponse newMetadataFileLocation
             currentMetadata).


(** [listTablesEndpoint] *)
Definition listTablesEndpoint (namespaceStr : string)
  : M (list TableIdentifier) :=
  let namespaceLevels := parseNamespace namespaceStr in
  tryExcept
    (known <~ CRUDNamespace.namespaceExists namespaceLevels;
     if negb known then raise (NoSuchNamespaceException namespaceLevels)
     else
       dbTables <~ CRUDTable.listTables namespaceLevels;
       retM (map (fun t => mkTableIdentifier namespaceLevels
                             (WorldModel.tableName t)) dbTables))
    endpointHandlers.

(** [tableExistsEndpoint] *)
Definition tableExistsEndpoint (namespaceStr tableName : string) : M unit :=
  let namespaceLevels := parseNamespace namespaceStr in
  let identifier := mkTableIdentifier namespaceLevels tableName in
  tryExcept
    (known <~ CRUDTable.tableExists identifier;
     if negb known
     then raise (NoSuchTableException (namespace identifier ++ [name identifier]))
     else retM tt)
    endpointHandlers.

(** The location a table gets when the request names none (or an empty
    one): below the warehouse, one directory per namespace label. *)
Definition defaultTableLocation (env : Env) (namespaceLevels : list string)
    (tableName : string) : string :=
  PosixPath.join (PosixPath.abspath (cwd env) (icebergWarehousePath env))
    (namespaceLevels ++ [tableName]).

(** [crudTable.createTable] as [createTableEndpoint] calls it, with four
    positional arguments and [catalogProperties]: the metadata location is
    bound to the parameter [initialMetadata], the parameter
    [initialMetadataLocation] is given no argument, and the call raises
    [TypeError] before the body runs. *)
Definition createTableWithoutLocation (namespaceLevels : list string)
    (tableName : string) (initialMetadata : string)
    (catalogProperties : option (gmap string string)) : M TableModel :=
  raise (PyError "TypeError").

(** [createTableEndpoint].  The request's schema object is the one cell of
    the heap that [buildInitialTableMetadata] works on; the metadata to write
    and return is its value after the call.  The whole body stands in the
    [try] of the endpoint. *)
Definition createTableEndpoint (env : Env) (o : Oracle) (namespaceStr : string)
    (request : CreateTableRequest) : M LoadTableResult :=
  let namespaceLevels := parseNamespace namespaceStr in
  tryExcept
    (dbNamespace <~ CRUDNamespace.getNamespaceByLevels namespaceLevels;
     match dbNamespace with
     | None => raise (NoSuchNamespaceException namespaceLevels)
     | Some _ =>
         let tableBaseLocation :=
           match createLocation request with
           | Some l =>
               if bool_decide (l = "")
               then defaultTableLocation env namespaceLevels (createName request)
               else l
           | None =>
               defaultTableLocation env namespaceLevels (createName request)
           end in
         let schemaRef := 1%positive in
         match MetadataManager.buildInitialTableMetadata o (createName request)
                 schemaRef (createPartitionSpec request) (writeOrder request)
                 (createProperties request) tableBaseLocation
                 {[ schemaRef := createSchema request ]} with
         | Some (built, heap) =>
             built <~ liftO built;
             let '(initialMetadata, metadataFileLocation) := built in
             match MetadataManager.derefMetadata heap initialMetadata with
             | Some initialMetadata =>
                 _ <~ (if default false (stageCreate request) then retM tt
                       else
                         _ <~ StorageAccessor.writeJsonFile env
                                metadataFileLocation
                                (MetadataJson initialMetadata);
                         _ <~ createTableWithoutLocation namespaceLevels
                                (createName request) metadataFileLocation None;
                         retM tt);
                 retM (constructLoadTableResult metadataFileLocation
                         initialMetadata
                         (Some {[ "created-by" := "iceberg-rest-catalog" ]}))
             | None => raise (PyError "ReferenceError")
             end
         | None => raise (PyError "ReferenceError")
         end
     end)
    endpointHandlers.

(** The table name [registerTableEndpoint] infers from the metadata
    location when the request gives none: the directory of the file, or the
    one above when that is called [metadata].  Whatever is raised on the way
    is turned into a validation error. *)
Definition inferTableName (metadataLocation : string) : Outcome string :=
  let baseName := PosixPath.basename (PosixPath.dirname metadataLocation) in
  if negb (bool_decide (baseName = "metadata")) then Return baseName
  else
    let grandparentDir :=
      PosixPath.basename
        (PosixPath.dirname (PosixPath.dirname metadataLocation)) in
    if negb (bool_decide (grandparentDir = "")) then Return grandparentDir
    else Raise ValidationException.

(** [registerTableEndpoint] *)
Definition registerTableEndpoint (env : Env) (namespaceStr : string)
    (request : RegisterTableRequest) : M LoadTableResult :=
  let namespaceLevels := parseNamespace namespaceStr in
  tableName <~
    match registerName request with
    | Some given =>
        if bool_decide (given = "")
        then liftO (inferTableName (registerMetadataLocation request))
        else retM given
    | None => liftO (inferTableName (registerMetadataLocation request))
    end;
  tryExcept
    (dbNamespace <~ CRUDNamespace.getNamespaceByLevels namespaceLevels;
     match dbNamespace with
     | None => raise (NoSuchNamespaceException namespaceLevels)
     | Some _ =>
         dbTableModel <~ CRUDTable.registerTable env namespaceLevels tableName
                           (registerMetadataLocation request) None;
         tableMetadataJson <~ StorageAccessor.readJsonFile env
                                (metadataLocation dbTableModel);
         tableMetadata <~ liftO (parseTableMetadata tableMetadataJson);
         retM (constructLoadTableResult (metadataLocation dbTableModel)
                 tableMetadata
                 (Some {[ "registered-by" := "iceberg-rest-catalog" ]}))
     end)
    endpointHandlers.

(** The loop of the purge: every file deleted in turn, a failure passed
    over. *)
Fixpoint purgeFiles (env : Env) (locations : list string) : M unit :=
  match locations with
  | [] => retM tt
  | mfLocation :: locations' =>
      _ <~ tryExcept (StorageAccessor.deleteFile env mfLocation)
             (fun _ => retM tt);
      purgeFiles env locations'
  end.

(** [dropTableEndpoint].  [iterationOfSet] gives the distinct elements of a
    list in the order in which Python iterates over the set made of them. *)
Definition dropTableEndpoint (env : Env)
    (iterationOfSet : list string -> list string)
    (namespaceStr tableName : string) (purge : option bool) : M unit :=
  let namespaceLevels := parseNamespace namespaceStr in
  let identifier := mkTableIdentifier namespaceLevels tableName in
  tryExcept
    (dbTable <~ CRUDTable.getTableByIdentifier identifier;
     match dbTable with
     | None =>
         raise (NoSuchTableException (namespace identifier ++ [name identifier]))
     | Some dbTable =>
         _ <~ (if default false purge
               then
                 tryExcept
                   (metadataJson <~ StorageAccessor.readJsonFile env
                                      (metadataLocation dbTable);
                    tableMetadata <~ liftO (parseTableMetadata metadataJson);
                    let allMetadataFiles :=
                      map metadataFile
                          (default [] (metadataLog tableMetadata)) in
                    let allMetadataFiles :=
                      if bool_decide
                           (metadataLocation dbTable ∈ allMetadataFiles)
                      then allMetadataFiles
                      else allMetadataFiles ++ [metadataLocation dbTable] in
                    purgeFiles env (iterationOfSet allMetadataFiles))
                   (fun _ => retM tt)
               else retM tt);
         CRUDTable.deleteTable env identifier false
     end)
    endpointHandlers.

(** [renameTableGlobalEndpoint] *)
Definition renameTableGlobalEndpoint (request : RenameTableRequest) : M unit :=
  tryExcept
    (CRUDTable.renameTable (source request) (destination request))
    endpointHandlers.

End TableRouter.

(** ** Vocabulary of the specification *)

Module Spec.

(** The directory components of a path. *)
Definition components (path : string) : list string :=
  List.filter (fun c => negb (bool_decide (c = ""))) (PyStr.split "/" path).

(** [path] is the directory [root] or lies below it. *)
Definition isDescendantOf (root path : string) : bool :=
  bool_decide (components root `prefix_of` components path).

(** The input of [_resolvePath] is relative: no scheme, not absolute. *)
Definition isRelativeInput (path : string) : bool :=
  negb (PyStr.contains "://" path) && negb (PosixPath.isabs path).

(** The canonical resolution of a relative path against the warehouse root. *)
Definition resolution (env : Env) (path : string) : string :=
  PosixPath.abspath (cwd env)
    (PosixPath.join (icebergWarehousePath env) [path]).

Definition canonicalRoot (env : Env) : string :=
  PosixPath.abspath (cwd env) (icebergWarehousePath env).

(** [f] is a field of [fields], descending into the fields of struct-typed
    fields. *)
Inductive FieldOf : list StructField -> StructField -> Prop :=
| FieldOf_here fields f :
    In f fields -> FieldOf fields f
| FieldOf_nested fields g nested f :
    In g fields -> fieldType g = StructType nested -> FieldOf nested f ->
    FieldOf fields f.

(** [last_column_id] is at least every field id of every schema. *)
Definition lastColumnIdBounds (m : TableMetadata) : Prop :=
  forall s f,
    In s (schemas m) -> FieldOf (schemaFields s) f ->
    fieldId f <= lastColumnId m.

(** The two update variants that remove snapshots or refs. *)
Definition isRemoval (u : TableUpdate) : bool :=
  match u with
  | RemoveSnapshotsUpdate _ | RemoveSnapshotRefUpdate _ => true
  | _ => false
  end.

(** A requirement holds of the current metadata, as the specification
    words each kind. *)
Definition requirementHolds (m : TableMetadata) (r : TableRequirement) : bool :=
  match r with
  | AssertCreate => true
  | AssertTableUUID uuid => bool_decide (tableUuid m = uuid)
  | AssertDefaultSpecID id => defaultSpecId m =? id
  | AssertDefaultSortOrderID id => defaultSortOrderId m =? id
  | AssertCurrentSchemaID id => currentSchemaId m =? id
  | AssertLastAssignedFieldID id => lastColumnId m =? id
  | AssertRefSnapshotID ref None =>
      bool_decide (default ∅ (refs m) !! ref = None)
  | AssertRefSnapshotID ref (Some id) =>
      bool_decide (refSnapshotId <$> default ∅ (refs m) !! ref = Some id)
  end.

(** The number a string of decimal digits denotes. *)
Fixpoint decimalValueFrom (acc : Z) (s : string) : Z :=
  match s with
  | EmptyString => acc
  | String c s' => decimalValueFrom (10 * acc + Z.of_nat (PyStr.ord c - 48)) s'
  end.

Definition decimalValue (s : string) : Z := decimalValueFrom 0 s.

(** The snapshot a [snapshot-ref] designates: the number it denotes when
    it is made of decimal digits, else the snapshot of the ref of that name,
    else the snapshot whose id prints as it. *)
Definition snapshotRefTarget (m : TableMetadata) (snapshotRef : string)
  : option Z :=
  if PyStr.allChars PyStr.isDecimalChar snapshotRef
  then Some (decimalValue snapshotRef)
  else match default ∅ (refs m) !! snapshotRef with
       | Some reference => Some (refSnapshotId reference)
       | None =>
           snapshotId <$>
           List.find (fun snap =>
                        bool_decide (PyStr.str (snapshotId snap) = snapshotRef))
                     (default [] (snapshots m))
       end.

(** The metadata that [loadTable] answers with for the table whose file
    holds [m], and a non-empty [snapshot-ref]. *)
Definition loadWithSnapshotRef (namespaceLevels : list string)
    (tableName : string) (m : TableMetadata)
    (snapshotRef : string) : Outcome TableMetadata :=
  match snapshotRefTarget m snapshotRef with
  | None =>
      Raise (NoSuchTableException
               (namespaceLevels ++ [tableName; "ref:" +:+ snapshotRef]))
  | Some target =>
      match List.find (fun s => snapshotId s =? target)
                      (default [] (snapshots m)) with
      | None => Raise CommitFailedException
      | Some snap =>
          let copy := set_currentSnapshotId (Some target) m in
          let copy :=
            match snapshotSchemaId snap with
            | Some schemaId => set_currentSchemaId schemaId copy
            | None => copy
            end in
          Return copy
      end
  end.

(** A namespace is a child of [parent]: its labels extend [parent] by one. *)
Definition isChildOf (parent : list string) (n : NamespaceModel) : bool :=
  bool_decide (parent `prefix_of` levels n)
  && Nat.eqb (length (levels n)) (length parent + 1).


(** [last_partition_id] is at least every field id of every partition
    spec. *)
Definition lastPartitionIdBounds {S : Type} (m : TableMetadataOf S) : Prop :=
  forall spec field,
    In spec (partitionSpecs m) -> In field (specFields spec) ->
    partitionFieldId field <= lastPartitionId m.

(** No two schemas, no two partition specs and no two sort orders of the
    metadata share an id. *)
Definition idsDistinct (m : TableMetadata) : Prop :=
  NoDup (map schemaId (schemas m))
  /\ NoDup (map specId (partitionSpecs m))
  /\ NoDup (map orderId (sortOrders m)).

(** The current schema, the default spec, the default sort order: each id
    names an element of its list. *)
Definition currentSchemaKnown (m : TableMetadata) : Prop :=
  In (Some (currentSchemaId m)) (map schemaId (schemas m)).
Definition defaultSpecKnown (m : TableMetadata) : Prop :=
  In (defaultSpecId m) (map specId (partitionSpecs m)).
Definition defaultSortOrderKnown (m : TableMetadata) : Prop :=
  In (defaultSortOrderId m) (map orderId (sortOrders m)).

(** The constraints of [iceberg_tables]: the primary key is a key, and two
    rows with different keys differ in their metadata location and in
    their namespace and name. *)
Definition constraintsHold (rows : list TableModel) : Prop :=
  NoDup (map tableId rows)
  /\ forall t u,
       In t rows -> In u rows -> tableId t <> tableId u ->
       metadataLocation t <> metadataLocation u
       /\ (namespaceId t, tableName t) <> (namespaceId u, tableName u).

(** Rows in the order of their names. *)
Definition sortedByName (rows : list TableModel) : Prop :=
  Sorted (fun t u => String.compare (tableName t) (tableName u) <> Gt) rows.

End Spec.

(** ** Scenarios: concrete worlds and requests *)

Module Scenario.

(** A service started in [/srv/app] over the warehouse [/data/warehouse]. *)
Definition env : Env :=
  {| icebergWarehousePath := "/data/warehouse"; cwd := "/srv/app" |}.

Definition oracle : Oracle :=
  {| currentTimeMs := 1700000000000; uuid4 := "7d0c"; uuid4' := "91ab" |}.

Definition schema : Schema :=
  {| schemaId := Some 0;
     schemaFields := [mkStructField 1 "x" (PrimitiveType "int") false None];
     identifierFieldIds := None |}.

(** Table [db.t] as [createTable] leaves it, at base location [location]. *)
Definition metadataAt (location : string) : TableMetadata :=
  {| formatVersion := 1; tableUuid := "2f1e"; location := location;
     lastUpdatedMs := 1600000000000; lastColumnId := 1; schemas := [schema];
     currentSchemaId := 0; partitionSpecs := []; defaultSpecId := 0;
     lastPartitionId := 0; properties := Some ∅; currentSnapshotId := None;
     snapshots := Some []; snapshotLog := Some []; metadataLog := Some [];
     sortOrders := []; defaultSortOrderId := 0; refs := Some ∅ |}.

Definition metadata : TableMetadata := metadataAt "/data/warehouse/db/t".

Definition oldLocation : string :=
  "/data/warehouse/db/t/metadata/00000-5c3a.metadata.json".

Definition rowAt (metadataLocation : string) : TableModel :=
  {| tableId := 1; namespaceId := 1; tableName := "t";
     metadataLocation := metadataLocation; tableProperties := None |}.

(** The world holding namespace [db] and table [db.t] with metadata [m]. *)
Definition worldWith (m : TableMetadata) : World :=
  {| files := {[ oldLocation := JsonFile (MetadataJson m) ]};
     namespaces := [mkNamespaceModel 1 ["db"] None];
     tables := [rowAt oldLocation] |}.

Definition world : World := worldWith metadata.

(** What a commit without updates, run by [oracle] on a table whose
    metadata is [m], writes: [m] with the time and the log entry of the
    commit, in a new file below the table's location. *)
Definition newLocationOf (m : TableMetadata) : string :=
  location m +:+ "/metadata/00001-7d0c.metadata.json".

Definition committed (m : TableMetadata) : TableMetadata :=
  set_metadataLog
    (Some (default [] (metadataLog m)
           ++ [mkMetadataLogEntry (currentTimeMs oracle) (newLocationOf m)]))
    (set_lastUpdatedMs (currentTimeMs oracle) m).

(** The world after such a commit on [worldWith m] has succeeded, the file
    being [file] on disk. *)
Definition worldAfterCommit (m : TableMetadata) (file : string) : World :=
  {| files := <[file := JsonFile (MetadataJson (committed m))]>
                (files (worldWith m));
     namespaces := namespaces (worldWith m);
     tables := [rowAt (newLocationOf m)] |}.

(** A concurrent commit that wins the race: it moves the row of [db.t]. *)
Definition rivalLocation : string :=
  "/data/warehouse/db/t/metadata/00001-e44b.metadata.json".

Definition rivalCommit (w : World) : World :=
  set_tables [rowAt rivalLocation] w.

(** A table whose base location is a [file://] URI with a relative
    remainder. *)
Definition uriMetadata : TableMetadata := metadataAt "file://wh/db/t".

(** Metadata with a snapshot [42] and a tag whose name is all digits. *)
Definition snapshot42 : Snapshot :=
  {| snapshotId := 42; parentId := None; timestampMs := 1650000000000;
     summary := None; manifestList := "/data/warehouse/db/t/metadata/snap-42.avro";
     snapshotSchemaId := Some 0 |}.

Definition taggedMetadata : TableMetadata :=
  set_refs (Some {[ "123" := mkSnapshotReference 42 tag None None None ]})
    (set_currentSnapshotId (Some 42)
       (set_snapshots (Some [snapshot42]) metadata)).

(** Metadata with two schemas and two snapshots: snapshot [41] was written
    under schema [1], the current snapshot [42] under schema [0]; the tag
    [before] keeps snapshot [41]. *)
Definition snapshot41 : Snapshot :=
  {| snapshotId := 41; parentId := None; timestampMs := 1640000000000;
     summary := None; manifestList := "/data/warehouse/db/t/metadata/snap-41.avro";
     snapshotSchemaId := Some 1 |}.

Definition historyMetadata : TableMetadata :=
  set_refs (Some {[ "before" := mkSnapshotReference 41 tag None None None ]})
    (set_currentSnapshotId (Some 42)
       (set_snapshots (Some [snapshot41; snapshot42])
          (set_schemas
             [schema;
              {| schemaId := Some 1;
                 schemaFields :=
                   [mkStructField 1 "x" (PrimitiveType "long") false None];
                 identifierFieldIds := None |}]
             metadata))).

(** Metadata whose [last-column-id] is below a field id of its schema, as a
    registered metadata file may hold it. *)
Definition lowColumnIdMetadata : TableMetadata :=
  set_lastColumnId 0
    (set_schemas
       [{| schemaId := Some 0;
           schemaFields := [mkStructField 5 "y" (PrimitiveType "long") true None];
           identifierFieldIds := None |}]
       metadata).

(** A second schema, with a struct-typed field. *)
Definition nestedSchema : Schema :=
  {| schemaId := Some 1;
     schemaFields :=
       [mkStructField 1 "x" (PrimitiveType "int") false None;
        mkStructField 2 "p"
          (StructType [mkStructField 3 "q" (PrimitiveType "string") false None])
          false None];
     identifierFieldIds := None |}.

(** Three namespaces: [a], its child [a.b], and the unrelated [c]. *)
Definition namespacesWorld : World :=
  {| files := ∅;
     namespaces := [mkNamespaceModel 1 ["c"] None;
                    mkNamespaceModel 2 ["a"; "b"] None;
                    mkNamespaceModel 3 ["a"] None];
     tables := [] |}.

(** Two tables of namespace [db], each with its own metadata file. *)
Definition twoTables : World :=
  {| files := ∅;
     namespaces := [mkNamespaceModel 1 ["db"] None];
     tables := [rowAt oldLocation;
                {| tableId := 2; namespaceId := 1; tableName := "u";
                   metadataLocation := rivalLocation;
                   tableProperties := None |}] |}.

End Scenario.

(** * Properties *)

Import Scenario.

(** ** Storage accessor *)

(** C4 (the code departs from the claim).  [_resolvePath] compares the
    resolved path with the warehouse root as strings, so a sibling directory
    whose name extends the root's passes the check: under the warehouse
    [/data/warehouse] the relative path [../warehouse2/x] resolves to
    [/data/warehouse2/x], which is no descendant of the root, and none of
    the four accessor operations fails with Validation; [writeJsonFile]
    writes outside the warehouse. *)
Theorem resolvePath_accepts_sibling_of_root :
  let path := "../warehouse2/x" in
  let outside := "/data/warehouse2/x" in
  Spec.isRelativeInput path = true /\
  Spec.isDescendantOf (Spec.canonicalRoot env) (Spec.resolution env path)
    = false /\
  StorageAccessor._resolvePath env path = Return outside /\
  StorageAccessor.readJsonFile env path world
    = (Raise (NotFoundException "File" outside), world) /\
  StorageAccessor.writeJsonFile env path OtherJson world
    = (Return tt,
       set_files (<[outside := JsonFile OtherJson]> (files world)) world) /\
  StorageAccessor.fileExists env path world = (Return false, world) /\
  StorageAccessor.deleteFile env path world = (Return tt, world).
Proof. repeat split; vm_compute; reflexivity. Qed.

(** The path of the specification's own example is rejected under this
    warehouse. *)
Lemma resolvePath_rejects_parent :
  StorageAccessor._resolvePath env "../x" = Raise ValidationException.
Proof. reflexivity. Qed.

(** ** Catalog store *)

(** C7 (the code departs from the claim).  [listNamespaces] never looks at
    [parent]: whatever it is given, it returns every namespace, ordered by
    levels.  With namespaces [c], [a.b] and [a], asking for the children of
    [a] returns all three, where the claim has [a.b] alone. *)
Theorem listNamespaces_ignores_parent :
  (forall parent w,
     CRUDNamespace.listNamespaces parent w
     = CRUDNamespace.listNamespaces None w) /\
  CRUDNamespace.listNamespaces (Some ["a"]) namespacesWorld
    = (Return [mkNamespaceModel 3 ["a"] None;
               mkNamespaceModel 2 ["a"; "b"] None;
               mkNamespaceModel 1 ["c"] None], namespacesWorld) /\
  List.filter (Spec.isChildOf ["a"]) (namespaces namespacesWorld)
    = [mkNamespaceModel 2 ["a"; "b"] None].
Proof.
  split; [|split; vm_compute; reflexivity].
  intros parent w. unfold CRUDNamespace.listNamespaces.
  destruct parent as [[|label parent]|]; reflexivity.
Qed.

(** ** Metadata manager: single updates *)

(** C6 (the code departs from the claim).  [UpgradeFormatVersion(v)] is
    applied only when [v] is strictly greater than the current format
    version; with [v] equal to it the update raises CommitFailed, where the
    claim has it succeed and leave the version unchanged. *)
Theorem upgrade_to_current_version_fails :
  forall now (m : TableMetadata) override,
    MetadataManager.applyUpdatesToMetadata now m
      [UpgradeFormatVersionUpdate (formatVersion m)] override
    = Raise CommitFailedException.
Proof.
  intros now m override.
  unfold MetadataManager.applyUpdatesToMetadata; simpl.
  rewrite Z.gtb_ltb, Z.ltb_irrefl. reflexivity.
Qed.

(** The two other cases of the comparison, as the claim has them. *)
Lemma upgrade_format_version_cases :
  forall now (m : TableMetadata) v override,
    (formatVersion m < v ->
     MetadataManager.applyUpdatesToMetadata now m
       [UpgradeFormatVersionUpdate v] override
     = Return (set_formatVersion v (set_lastUpdatedMs now m))) /\
    (v < formatVersion m ->
     MetadataManager.applyUpdatesToMetadata now m
       [UpgradeFormatVersionUpdate v] override
     = Raise CommitFailedException).
Proof.
  intros now m v override.
  unfold MetadataManager.applyUpdatesToMetadata; simpl.
  split; intros Hv.
  - destruct (Z.gtb_spec v (formatVersion m)); [reflexivity | lia].
  - destruct (Z.gtb_spec v (formatVersion m)); [lia | reflexivity].
Qed.

(** C3, the claim refuted: removing the ref [123], or the snapshot [42],
    does not succeed; each raises BadRequest. *)
Lemma remove_updates_do_not_succeed :
  MetadataManager.applyUpdatesToMetadata 0 taggedMetadata
    [RemoveSnapshotRefUpdate "123"] None = Raise BadRequestException /\
  MetadataManager.applyUpdatesToMetadata 0 taggedMetadata
    [RemoveSnapshotsUpdate [42]] None = Raise BadRequestException.
Proof. split; reflexivity. Qed.

(** C3 (amended).  For every metadata value, a [RemoveSnapshotRef] or
    [RemoveSnapshots] update makes [applyUpdatesToMetadata] fail with
    BadRequest, and these two variants are exactly the ones on which a
    single update fails with BadRequest. *)
Theorem removal_updates_are_unsupported :
  forall now (m : TableMetadata) u override,
    MetadataManager.applyUpdatesToMetadata now m [u] override
    = Raise BadRequestException
    <-> Spec.isRemoval u = true.
Proof.
  intros now m u override.
  unfold MetadataManager.applyUpdatesToMetadata; simpl.
  destruct u; simpl; try (split; [discriminate | discriminate]);
    try (split; reflexivity).
  all: repeat match goal with
         | |- context [if ?b then _ else _] => destruct b
         | |- context [match ?o with Some _ => _ | None => _ end] => destruct o
         end; simpl; split; discriminate.
Qed.

(** ** Commit pipeline *)

(** C2 (the code departs from the claim).  On the update arm the loop over
    the requirements looks at [assert-table-uuid] only.  Each of the five
    other kinds, mismatched against the current metadata of [db.t], lets the
    commit go through: the new metadata file is written and the catalog row
    advanced.  The exception that the endpoint then ends with is not
    CommitFailed: it is the one that the constructor of the response raises
    at the end of every commit that has taken effect. *)
Theorem mismatched_requirements_do_not_stop_the_commit :
  Forall
    (fun req =>
       Spec.requirementHolds metadata req = false /\
       TableRouter.commitTableEndpoint env oracle id "db" "t"
         (mkCommitTableRequest None [req] []) world
       = (Raise (PyError "ValidationError"),
          worldAfterCommit metadata (newLocationOf metadata)))
    [AssertDefaultSpecID 5; AssertDefaultSortOrderID 5;
     AssertCurrentSchemaID 5; AssertLastAssignedFieldID 99;
     AssertRefSnapshotID "main" (Some 42)] /\
  Spec.requirementHolds taggedMetadata (AssertRefSnapshotID "123" None)
    = false /\
  TableRouter.commitTableEndpoint env oracle id "db" "t"
    (mkCommitTableRequest None [AssertRefSnapshotID "123" None] [])
    (worldWith taggedMetadata)
  = (Raise (PyError "ValidationError"),
     worldAfterCommit taggedMetadata (newLocationOf taggedMetadata)) /\
  tables (worldAfterCommit metadata (newLocationOf metadata))
  = [rowAt (newLocationOf metadata)] /\
  files (worldAfterCommit metadata (newLocationOf metadata))
    !! newLocationOf metadata
  = Some (JsonFile (MetadataJson (committed metadata))).
Proof.
  split; [|split; [reflexivity|split; [|split]]].
  - repeat constructor; vm_compute; reflexivity.
  - vm_compute; reflexivity.
  - reflexivity.
  - vm_compute; reflexivity.
Qed.

(** The one requirement that is checked. *)
Lemma mismatched_table_uuid_fails_the_commit :
  TableRouter.commitTableEndpoint env oracle id "db" "t"
    (mkCommitTableRequest None [AssertTableUUID "wrong-uuid"] []) world
  = (Raise CommitFailedException, world).
Proof. vm_compute. reflexivity. Qed.

(** C1 (the code departs from the claim).  The compare-and-swap looks the
    row up through the session of the request, which hands out the instance
    it loaded at the start of the commit, and compares the location of that
    instance with the location read from it.  A rival commit that has moved
    the stored row of [db.t] in between goes unnoticed: no CommitFailed is
    raised, the row that the rival wrote is overwritten with the location of
    the new file, which stays on disk, and the endpoint ends with the
    exception of the response constructor. *)
Theorem rival_commit_is_overwritten :
  CRUDTable.getTableByIdentifier (mkTableIdentifier ["db"] "t") world
  = (Return (Some (rowAt oldLocation)), world) /\
  CRUDTable.getTableByIdentifier (mkTableIdentifier ["db"] "t")
    (rivalCommit world)
  = (Return (Some (rowAt rivalLocation)), rivalCommit world) /\
  rivalLocation <> oldLocation /\
  TableRouter.commitTableEndpoint env oracle rivalCommit "db" "t"
    (mkCommitTableRequest None [] []) world
  = (Raise (PyError "ValidationError"),
     worldAfterCommit metadata (newLocationOf metadata)) /\
  tables (worldAfterCommit metadata (newLocationOf metadata))
  = [rowAt (newLocationOf metadata)] /\
  files (worldAfterCommit metadata (newLocationOf metadata))
    !! newLocationOf metadata
  = Some (JsonFile (MetadataJson (committed metadata))).
Proof.
  split; [vm_compute; reflexivity|]. split; [vm_compute; reflexivity|].
  split; [discriminate|]. split; [vm_compute; reflexivity|].
  split; [reflexivity | vm_compute; reflexivity].
Qed.

(** The compare-and-swap does notice a table that is gone: when a rival
    request has dropped [db.t] in between, the commit raises CommitFailed
    and removes the file it wrote. *)
Lemma commit_on_dropped_table_is_rolled_back :
  TableRouter.commitTableEndpoint env oracle (set_tables []) "db" "t"
    (mkCommitTableRequest None [] []) world
  = (Raise CommitFailedException, set_tables [] world).
Proof. vm_compute. reflexivity. Qed.

(** That removal misses the file when the path of the file does not resolve
    to itself: [deleteFile] resolves the path, then asks [fileExists] about
    the resolved path, which resolves it once more.  For a table whose base
    location is [file://wh/db/t] the file is written below the working
    directory and looked for below the warehouse root, and stays. *)
Lemma rollback_misses_a_relative_file_uri :
  let written := "/srv/app/wh/db/t/metadata/00001-7d0c.metadata.json" in
  TableRouter.commitTableEndpoint env oracle (set_tables []) "db" "t"
    (mkCommitTableRequest None [] []) (worldWith uriMetadata)
  = (Raise CommitFailedException,
     set_tables [] (worldAfterCommit uriMetadata written)) /\
  files (set_tables [] (worldAfterCommit uriMetadata written)) !! written
  = Some (JsonFile (MetadataJson (committed uriMetadata))).
Proof. split; vm_compute; reflexivity. Qed.

(** ** Loading a table at a snapshot *)

(** [int] on a string of decimal digits. *)

Lemma decimal_is_not_space c :
  PyStr.isDecimalChar c = true -> PyStr.isSpaceChar c = false.
Proof.
  unfold PyStr.isDecimalChar, PyStr.isSpaceChar.
  generalize (PyStr.ord c); intros n Hn.
  apply andb_prop in Hn as [Hlo Hhi].
  apply Nat.leb_le in Hlo, Hhi.
  repeat match goal with
         | |- context [(?a <=? ?b)%nat] => destruct (Nat.leb_spec a b)
         | |- context [Nat.eqb ?a ?b] => destruct (Nat.eqb_spec a b)
         end; simpl; try reflexivity; lia.
Qed.

Lemma lstrip_decimal s :
  PyStr.allChars PyStr.isDecimalChar s = true -> PyStr.lstrip s = s.
Proof.
  destruct s as [|c s]; simpl; [reflexivity|].
  intros H. apply andb_prop in H as [Hc _].
  now rewrite (decimal_is_not_space c Hc).
Qed.

Lemma rstrip_decimal s :
  PyStr.allChars PyStr.isDecimalChar s = true -> PyStr.rstrip s = s.
Proof.
  induction s as [|c s IH]; simpl; [reflexivity|].
  intros H. apply andb_prop in H as [Hc Hs].
  rewrite (IH Hs). destruct s; [|reflexivity].
  now rewrite (decimal_is_not_space c Hc).
Qed.

Lemma intDigits_decimal s :
  forall acc afterDigit,
    PyStr.allChars PyStr.isDecimalChar s = true ->
    s <> "" \/ afterDigit = true ->
    PyStr.intDigits s acc afterDigit = Some (Spec.decimalValueFrom acc s).
Proof.
  induction s as [|c s IH]; intros acc afterDigit Hall Hne; simpl.
  - destruct Hne as [Hne| ->]; [congruence | reflexivity].
  - simpl in Hall. apply andb_prop in Hall as [Hc Hs].
    rewrite Hc. apply IH; auto.
Qed.

Lemma countDigits_le_length s :
  (PyStr.countDigits s <= String.length s)%nat.
Proof.
  induction s as [|c s IH]; simpl; [lia|].
  destruct (PyStr.isDecimalChar c); lia.
Qed.

Lemma int_decimal s :
  PyStr.allChars PyStr.isDecimalChar s = true -> s <> "" ->
  (String.length s <= PyStr.maxStrDigits)%nat ->
  PyStr.int s = Some (Spec.decimalValue s).
Proof.
  intros Hall Hne Hshort. unfold PyStr.int.
  rewrite (lstrip_decimal s Hall), (rstrip_decimal s Hall).
  destruct s as [|c s]; [congruence|].
  assert (Hbound : (PyStr.maxStrDigits <? PyStr.countDigits (String c s))%nat
                   = false).
  { apply Nat.ltb_ge. pose proof (countDigits_le_length (String c s)). lia. }
  rewrite Hbound.
  pose proof Hall as Hc. simpl in Hc. apply andb_prop in Hc as [Hc _].
  destruct (Ascii.eqb_spec c "-"%char) as [->|_]; [discriminate Hc|].
  destruct (Ascii.eqb_spec c "+"%char) as [->|_]; [discriminate Hc|].
  apply intDigits_decimal; auto.
Qed.

(** A literal of more than [maxStrDigits] digits is refused. *)
Lemma int_long_decimal s :
  PyStr.allChars PyStr.isDecimalChar s = true ->
  (PyStr.maxStrDigits < String.length s)%nat ->
  PyStr.int s = None.
Proof.
  intros Hall Hlong. unfold PyStr.int.
  rewrite (lstrip_decimal s Hall), (rstrip_decimal s Hall).
  destruct s as [|c s]; [reflexivity|].
  assert (Hcount : PyStr.countDigits (String c s) = String.length (String c s)).
  { clear Hlong. revert Hall. generalize (String c s). clear c s.
    induction s as [|c s IH]; simpl; [reflexivity|].
    intros Hall. apply andb_prop in Hall as [-> Hs]. now rewrite (IH Hs). }
  rewrite Hcount. now rewrite (proj2 (Nat.ltb_lt _ _) Hlong).
Qed.

Lemma decimal_chars_are_digits s :
  PyStr.allChars PyStr.isDecimalChar s = true ->
  PyStr.allChars PyStr.isDigitChar s = true.
Proof.
  induction s as [|c s IH]; simpl; [reflexivity|].
  intros H. apply andb_prop in H as [Hc Hs].
  rewrite (IH Hs). unfold PyStr.isDigitChar. rewrite Hc. reflexivity.
Qed.

Lemma isdigit_decimal s :
  PyStr.allChars PyStr.isDecimalChar s = true -> s <> "" ->
  PyStr.isdigit s = true.
Proof.
  intros Hall Hne. destruct s as [|c s]; [congruence|].
  unfold PyStr.isdigit. now apply decimal_chars_are_digits.
Qed.

(** C5, the claim refuted.  The table has a tag named [123] on snapshot
    [42], which is in [snapshots]; the claim resolves [snapshot-ref=123] as
    that ref and answers with snapshot [42] current.  The code takes the
    all-digit string for the snapshot id [123], which no snapshot has, and
    raises CommitFailed. *)
Lemma digits_are_not_looked_up_as_ref_name :
  default ∅ (refs taggedMetadata) !! "123"
    = Some (mkSnapshotReference 42 tag None None None) /\
  In snapshot42 (default [] (snapshots taggedMetadata)) /\
  TableRouter.loadTableEndpoint env "db" "t" (Some "123")
    (worldWith taggedMetadata)
  = (Raise CommitFailedException, worldWith taggedMetadata).
Proof.
  split; [reflexivity|]. split; [left; reflexivity|].
  vm_compute. reflexivity.
Qed.

(** C5 (amended).  When [loadTable] is given a non-empty [snapshotRef], none
    of whose digits lies outside [0-9], and the table's row and metadata
    file are there: a string of decimal digits, at most [maxStrDigits] of
    them, is taken for the snapshot id it denotes; any other string is
    looked up as a ref name in [refs], else as the printed form of the id of
    a snapshot, else the call fails NoSuchTable with a [ref:] qualifier.
    Once an id is resolved, the call fails CommitFailed if no snapshot has
    it, and otherwise answers with a copy of the metadata with
    [current_snapshot_id] set to it and [current_schema_id] replaced by the
    snapshot's [schema_id] when that is not null (config is the row's
    properties; the answer's metadata location is null, as in every answer
    of this endpoint).  The world, and so the persisted metadata, is
    unchanged. *)
Theorem loadTable_snapshotRef_resolution :
  forall env namespaceStr tableName snapshotRef w row m,
    CRUDTable.getTableByIdentifier
      (mkTableIdentifier (TableRouter.parseNamespace namespaceStr) tableName) w
    = (Return (Some row), w) ->
    StorageAccessor.readJsonFile env (metadataLocation row) w
    = (Return (MetadataJson m), w) ->
    snapshotRef <> "" ->
    (PyStr.isdigit snapshotRef = true ->
     PyStr.allChars PyStr.isDecimalChar snapshotRef = true /\
     (String.length snapshotRef <= PyStr.maxStrDigits)%nat) ->
    TableRouter.loadTableEndpoint env namespaceStr tableName
      (Some snapshotRef) w
    = (copy ← Spec.loadWithSnapshotRef
                (TableRouter.parseNamespace namespaceStr) tableName m
                snapshotRef;
       Return {| loadMetadataLocation := None; loadMetadata := copy;
                 config := tableProperties row |},
       w).
Proof.
  intros env namespaceStr tableName snapshotRef w row m Hrow Hfile Hne Hdigits.
  unfold TableRouter.loadTableEndpoint, tryExcept, bindM.
  rewrite Hrow, Hfile. simpl.
  rewrite bool_decide_eq_false_2 by assumption.
  unfold liftO, TableRouter.selectSnapshot, TableRouter.targetSnapshotIdOf,
    Spec.loadWithSnapshotRef, Spec.snapshotRefTarget.
  destruct (PyStr.allChars PyStr.isDecimalChar snapshotRef) eqn:Hdec.
  - rewrite (isdigit_decimal _ Hdec Hne) in *.
    destruct (Hdigits eq_refl) as [_ Hshort].
    rewrite (int_decimal _ Hdec Hne Hshort). simpl.
    destruct (List.find _ _) as [snap|]; simpl; [|reflexivity].
    destruct (snapshotSchemaId snap); reflexivity.
  - destruct (PyStr.isdigit snapshotRef) eqn:Hisdigit.
    { destruct (Hdigits eq_refl) as [Hall _]. discriminate Hall. }
    destruct (default ∅ (refs m) !! snapshotRef) as [reference|]; simpl.
    + destruct (List.find _ _) as [snap|]; simpl; [|reflexivity].
      destruct (snapshotSchemaId snap); reflexivity.
    + destruct (List.find _ _) as [named|]; simpl; [|reflexivity].
      destruct (List.find _ _) as [snap|]; simpl; [|reflexivity].
      destruct (snapshotSchemaId snap); reflexivity.
Qed.

(** The theorem at a table with two snapshots: [snapshot-ref=41] answers
    with the metadata in which snapshot [41] has replaced [42] as the
    current one, and its schema [1] the schema [0]. *)
Lemma loadTable_snapshotRef_resolution_witness :
  currentSnapshotId historyMetadata = Some 42 /\
  currentSchemaId historyMetadata = 0 /\
  TableRouter.loadTableEndpoint env "db" "t" (Some "41")
    (worldWith historyMetadata)
  = (Return {| loadMetadataLocation := None;
               loadMetadata :=
                 set_currentSchemaId 1
                   (set_currentSnapshotId (Some 41) historyMetadata);
               config := None |}, worldWith historyMetadata).
Proof.
  split; [reflexivity|]. split; [reflexivity|].
  rewrite (loadTable_snapshotRef_resolution env "db" "t" "41"
             (worldWith historyMetadata) (rowAt oldLocation) historyMetadata).
  - vm_compute. reflexivity.
  - vm_compute. reflexivity.
  - vm_compute. reflexivity.
  - discriminate.
  - intros _. split; [reflexivity|]. unfold PyStr.maxStrDigits. simpl. lia.
Defined.

(** ** The optimistic lock of the catalog *)


(** [getTableByIdentifier] only reads: it returns, and leaves the world. *)
Lemma getTableByIdentifier_reads identifier w :
  exists found,
    CRUDTable.getTableByIdentifier identifier w = (Return found, w) /\
    forall row, found = Some row -> In row (tables w).
Proof.
  unfold CRUDTable.getTableByIdentifier, bindM,
    CRUDNamespace.getNamespaceByLevels.
  destruct (List.find _ (namespaces w)) as [namespaceModel|].
  - eexists; split; [reflexivity|].
    intros row Hfound. now apply List.find_some in Hfound.
  - exists None; split; [reflexivity | discriminate].
Qed.

(** Rewriting the rows that carry the key of [row], then reading that key
    again, gives the rewritten row. *)
Lemma refresh_after_rewrite (row row' : TableModel) (stored : list TableModel) :
  tableId row' = tableId row -> In row stored ->
  List.find (fun t => tableId t =? tableId row')
    (map (fun t => if tableId t =? tableId row then row' else t) stored)
  = Some row'.
Proof.
  intros Hkey. induction stored as [|t stored IH]; intros Hin; [destruct Hin|].
  simpl. destruct (Z.eqb_spec (tableId t) (tableId row)) as [Heq|Hneq].
  - now rewrite Z.eqb_refl.
  - destruct (Z.eqb_spec (tableId t) (tableId row')); [congruence|].
    apply IH. destruct Hin as [->|Hin]; [congruence | assumption].
Qed.



(** ** Building the initial metadata *)

(** How [buildInitialTableMetadata] ends: the caller's schema object gets
    the id [0] when it had none, and then the constructor of the metadata
    raises. *)
Lemma buildInitialTableMetadata_raises o tableName schema partitionSpec
    sortOrder properties tableLocation (heap : MetadataManager.Heap) schemaObj :
  heap !! schema = Some schemaObj ->
  MetadataManager.buildInitialTableMetadata o tableName schema partitionSpec
    sortOrder properties tableLocation heap
  = Some (Raise (PyError "ValidationError"),
          match schemaId schemaObj with
          | None => <[schema := set_schemaId (Some 0) schemaObj]> heap
          | Some _ => heap
          end).
Proof.
  intros Hobj. unfold MetadataManager.buildInitialTableMetadata.
  rewrite Hobj. destruct (schemaId schemaObj); reflexivity.
Qed.

(** C10 (the code departs from the claim).  [buildInitialTableMetadata]
    does work on the caller's schema object: an object whose [schemaId] is
    [None] on entry has the id [0] after the call, and an object whose id is
    set is left as it is.  But no metadata is returned that could hold the
    object: the call that builds the metadata from field names raises, here
    for a request whose schema has no id and for one whose schema has the
    id [3]. *)
Theorem buildInitialTableMetadata_returns_no_metadata :
  MetadataManager.buildInitialTableMetadata oracle "t" 7%positive None None
    None "/data/warehouse/db/t" {[ 7%positive := set_schemaId None schema ]}
  = Some (Raise (PyError "ValidationError"),
          {[ 7%positive := set_schemaId (Some 0) schema ]}) /\
  MetadataManager.buildInitialTableMetadata oracle "t" 7%positive None None
    None "/data/warehouse/db/t" {[ 7%positive := set_schemaId (Some 3) schema ]}
  = Some (Raise (PyError "ValidationError"),
          {[ 7%positive := set_schemaId (Some 3) schema ]}).
Proof.
  split.
  - rewrite (buildInitialTableMetadata_raises _ _ _ _ _ _ _ _
               (set_schemaId None schema)) by apply lookup_singleton_eq.
    simpl. now rewrite insert_singleton_eq.
  - now rewrite (buildInitialTableMetadata_raises _ _ _ _ _ _ _ _
                   (set_schemaId (Some 3) schema))
      by apply lookup_singleton_eq.
Qed.

(** ** The bound on field ids *)

(** The two helpers that compute the largest field id are one function. *)
Lemma getMaxFieldIdFromFields_eq fields :
  MetadataManager.getMaxFieldIdFromFields fields
  = MetadataManager.getMaxIdRecursive fields.
Proof. reflexivity. Qed.

Lemma getMaxIdStep_unfold f currentMax :
  MetadataManager.getMaxIdStep f currentMax
  = match fieldType f with
    | StructType ((_ :: _) as fields) =>
        Z.max (Z.max currentMax (fieldId f))
              (MetadataManager.getMaxIdRecursive fields)
    | _ => Z.max currentMax (fieldId f)
    end.
Proof. destruct f as [id name [| [|g fields] | |] required doc]; reflexivity. Qed.

Lemma getMaxIdStep_ge_acc f currentMax :
  currentMax <= MetadataManager.getMaxIdStep f currentMax.
Proof.
  rewrite getMaxIdStep_unfold.
  destruct (fieldType f) as [| [|g fields] | |]; lia.
Qed.

Lemma getMaxIdStep_ge_id f currentMax :
  fieldId f <= MetadataManager.getMaxIdStep f currentMax.
Proof.
  rewrite getMaxIdStep_unfold.
  destruct (fieldType f) as [| [|g fields] | |]; lia.
Qed.

Lemma getMaxIdStep_ge_nested f nested currentMax :
  fieldType f = StructType nested -> nested <> [] ->
  MetadataManager.getMaxIdRecursive nested
  <= MetadataManager.getMaxIdStep f currentMax.
Proof.
  intros Htype Hne. rewrite getMaxIdStep_unfold, Htype.
  destruct nested; [congruence | lia].
Qed.

(** The loop only grows its accumulator, so what one round guarantees
    survives the later rounds. *)
Lemma getMaxId_loop_ge_acc fields :
  forall acc,
    acc <= fold_left (fun currentMax f =>
                        MetadataManager.getMaxIdStep f currentMax) fields acc.
Proof.
  induction fields as [|g fields IH]; intros acc; simpl; [lia|].
  pose proof (getMaxIdStep_ge_acc g acc). pose proof (IH (MetadataManager.getMaxIdStep g acc)).
  lia.
Qed.

Lemma getMaxId_loop_bound fields g bound :
  In g fields ->
  (forall acc, bound <= MetadataManager.getMaxIdStep g acc) ->
  forall acc,
    bound <= fold_left (fun currentMax f =>
                          MetadataManager.getMaxIdStep f currentMax) fields acc.
Proof.
  intros Hin Hstep.
  induction fields as [|h fields IH]; intros acc; [destruct Hin|].
  simpl. destruct Hin as [->|Hin].
  - pose proof (Hstep acc).
    pose proof (getMaxId_loop_ge_acc fields (MetadataManager.getMaxIdStep g acc)).
    lia.
  - now apply IH.
Qed.

Lemma FieldOf_nonempty fields f : Spec.FieldOf fields f -> fields <> [].
Proof. intros [fields' f' Hin | fields' g nested f' Hin _ _]; now destruct fields'. Qed.

Lemma getMaxIdRecursive_bounds fields f :
  Spec.FieldOf fields f ->
  fieldId f <= MetadataManager.getMaxIdRecursive fields.
Proof.
  induction 1 as [fields f Hin | fields g nested f Hin Htype Hnested IH].
  - apply (getMaxId_loop_bound fields f); [assumption|].
    intros acc. apply getMaxIdStep_ge_id.
  - apply (getMaxId_loop_bound fields g); [assumption|].
    intros acc.
    pose proof (getMaxIdStep_ge_nested g nested acc Htype
                  (FieldOf_nonempty _ _ Hnested)).
    lia.
Qed.

(** The bound speaks of [schemas] and [last_column_id] only. *)
Lemma lastColumnIdBounds_ext (m m' : TableMetadata) :
  schemas m' = schemas m -> lastColumnId m' = lastColumnId m ->
  Spec.lastColumnIdBounds m -> Spec.lastColumnIdBounds m'.
Proof.
  unfold Spec.lastColumnIdBounds. intros -> ->. auto.
Qed.

Lemma applyUpdate_keeps_bound override (m m' : TableMetadata) u :
  Spec.lastColumnIdBounds m ->
  MetadataManager.applyUpdate override m u = Return m' ->
  Spec.lastColumnIdBounds m'.
Proof.
  intros Hm Hrun.
  destruct u; simpl in Hrun;
    repeat match type of Hrun with
           | (if ?b then _ else _) = _ => destruct b eqn:?
           | match ?o with Some _ => _ | None => _ end = _ => destruct o eqn:?
           end;
    try discriminate;
    try (injection Hrun as <-;
         apply (lastColumnIdBounds_ext m); [reflexivity | reflexivity | exact Hm]).
  (* AddSchemaUpdate, with and without lastAssignedFieldId *)
  all: injection Hrun as <-; intros s f Hs Hf; simpl in *;
    apply in_app_or in Hs as [Hs | [<- | []]];
    [ pose proof (Hm s f Hs Hf)
    | pose proof (getMaxIdRecursive_bounds _ _ Hf) ];
    unfold MetadataManager.getMaxFieldIdFromSchema;
    rewrite ?getMaxFieldIdFromFields_eq; lia.
Qed.

Lemma applyUpdatesLoop_keeps_bound override updates :
  forall m m' : TableMetadata,
    Spec.lastColumnIdBounds m ->
    MetadataManager.applyUpdatesLoop override updates m = Return m' ->
    Spec.lastColumnIdBounds m'.
Proof.
  induction updates as [|u updates IH]; intros m m' Hm Hrun; simpl in Hrun.
  - now injection Hrun as <-.
  - destruct (MetadataManager.applyUpdate override m u) as [m1|e] eqn:Hstep;
      [|discriminate].
    exact (IH m1 m' (applyUpdate_keeps_bound override m m1 u Hm Hstep) Hrun).
Qed.

(** C8, the claim refuted.  [applyUpdatesToMetadata] does not establish the
    bound: it succeeds on metadata whose [last_column_id] is [0] while a
    schema has a field with id [5] (with no update at all), and what it
    produces has the same defect. *)
Lemma apply_does_not_establish_bound :
  exists m',
    MetadataManager.applyUpdatesToMetadata 0 lowColumnIdMetadata [] None
    = Return m' /\
    ~ Spec.lastColumnIdBounds m'.
Proof.
  eexists. split; [reflexivity|].
  intros Hbound.
  pose (y := mkStructField 5 "y" (PrimitiveType "long") true None).
  assert (fieldId y <= 0) as Hy.
  { apply (Hbound (mkSchema (Some 0) [y] None) y).
    - left; reflexivity.
    - apply Spec.FieldOf_here. left; reflexivity. }
  simpl in Hy. lia.
Qed.

(** C8 (amended).  A successful [applyUpdatesToMetadata] keeps the bound:
    whenever [last_column_id] is at least every field id of every schema
    (descending into struct fields) in the metadata it is given, the same
    holds of the metadata it produces. *)
Theorem last_column_id_bounds_field_ids :
  forall now (m : TableMetadata) updates override m',
    Spec.lastColumnIdBounds m ->
    MetadataManager.applyUpdatesToMetadata now m updates override = Return m' ->
    Spec.lastColumnIdBounds m'.
Proof.
  intros now m updates override m' Hm Hrun.
  unfold MetadataManager.applyUpdatesToMetadata in Hrun.
  refine (applyUpdatesLoop_keeps_bound override updates _ m' _ Hrun).
  now apply (lastColumnIdBounds_ext m).
Qed.

(** The metadata of the scenario satisfies the bound. *)
Lemma metadata_lastColumnIdBounds : Spec.lastColumnIdBounds metadata.
Proof.
  intros s f [<-|[]] Hf.
  exact (getMaxIdRecursive_bounds _ _ Hf).
Qed.

(** The theorem at the table of the scenario: its metadata, with field [1]
    and [last_column_id] [1], satisfies the bound, and so does the metadata
    obtained from it by adding a schema whose nested field has id [3]. *)
Lemma last_column_id_bounds_field_ids_witness :
  exists m' : TableMetadata,
    MetadataManager.applyUpdatesToMetadata 0 metadata
      [AddSchemaUpdate nestedSchema None] None = Return m' /\
    lastColumnId metadata = 1 /\ lastColumnId m' = 3 /\
    Spec.lastColumnIdBounds metadata /\ Spec.lastColumnIdBounds m'.
Proof.
  eexists. split; [vm_compute; reflexivity|].
  split; [reflexivity|]. split; [reflexivity|].
  split; [exact metadata_lastColumnIdBounds|].
  apply (last_column_id_bounds_field_ids 0 metadata
           [AddSchemaUpdate nestedSchema None] None);
    [exact metadata_lastColumnIdBounds | vm_compute; reflexivity].
Defined.

(** * Further properties of the code *)

(** ** Applying updates *)

(** What one update leaves alone. *)

Lemma applyUpdate_lastUpdatedMs override (m m' : TableMetadata) u :
  MetadataManager.applyUpdate override m u = Return m' ->
  lastUpdatedMs m' = lastUpdatedMs m.
Proof.
  intros Hrun.
  destruct u; simpl in Hrun;
    repeat match type of Hrun with
           | (if ?b then _ else _) = _ => destruct b eqn:?
           | match ?o with Some _ => _ | None => _ end = _ => destruct o eqn:?
           end;
    try discriminate; injection Hrun as <-; reflexivity.
Qed.

Lemma applyUpdatesLoop_lastUpdatedMs override updates :
  forall m m' : TableMetadata,
    MetadataManager.applyUpdatesLoop override updates m = Return m' ->
    lastUpdatedMs m' = lastUpdatedMs m.
Proof.
  induction updates as [|u updates IH]; intros m m' Hrun; simpl in Hrun.
  - now injection Hrun as <-.
  - destruct (MetadataManager.applyUpdate override m u) as [m1|e] eqn:Hstep;
      [|discriminate].
    rewrite (IH m1 m' Hrun). exact (applyUpdate_lastUpdatedMs _ _ _ _ Hstep).
Qed.

Lemma set_lastUpdatedMs_same (m : TableMetadata) :
  set_lastUpdatedMs (lastUpdatedMs m) m = m.
Proof. destruct m; reflexivity. Qed.

Lemma applyUpdatesLoop_app override updates1 updates2 :
  forall m : TableMetadata,
    MetadataManager.applyUpdatesLoop override (updates1 ++ updates2) m
    = (m1 ← MetadataManager.applyUpdatesLoop override updates1 m;
       MetadataManager.applyUpdatesLoop override updates2 m1).
Proof.
  induction updates1 as [|u updates1 IH]; intros m; simpl; [reflexivity|].
  destruct (MetadataManager.applyUpdate override m u) as [m1|e]; simpl;
    [apply IH | reflexivity].
Qed.

(** X1.  Updates compose: applying the list [updates1 ++ updates2] at some
    time is applying [updates1], then [updates2] to what that gave, at the
    same time; and when [updates1] fails, the whole list fails the same
    way. *)
Theorem applyUpdatesToMetadata_app :
  forall now (m : TableMetadata) updates1 updates2 override,
    MetadataManager.applyUpdatesToMetadata now m (updates1 ++ updates2)
      override
    = (m1 ← MetadataManager.applyUpdatesToMetadata now m updates1 override;
       MetadataManager.applyUpdatesToMetadata now m1 updates2 override).
Proof.
  intros now m updates1 updates2 override.
  unfold MetadataManager.applyUpdatesToMetadata.
  rewrite applyUpdatesLoop_app.
  destruct (MetadataManager.applyUpdatesLoop override updates1 _)
    as [m1|e] eqn:Hfirst; simpl; [|reflexivity].
  apply applyUpdatesLoop_lastUpdatedMs in Hfirst. simpl in Hfirst.
  rewrite <- Hfirst, set_lastUpdatedMs_same. reflexivity.
Qed.

(** X2.  The format version never decreases: whatever the updates, the
    metadata a successful [applyUpdatesToMetadata] produces has a format
    version at least that of the metadata it was given. *)
Theorem format_version_never_decreases :
  forall now (m : TableMetadata) updates override m',
    MetadataManager.applyUpdatesToMetadata now m updates override = Return m' ->
    formatVersion m <= formatVersion m'.
Proof.
  intros now m updates override m'.
  unfold MetadataManager.applyUpdatesToMetadata.
  change (formatVersion m) with (formatVersion (set_lastUpdatedMs now m)).
  generalize (set_lastUpdatedMs now m). clear m.
  induction updates as [|u updates IH]; intros m Hrun; simpl in Hrun.
  - injection Hrun as <-. lia.
  - destruct (MetadataManager.applyUpdate override m u) as [m1|e] eqn:Hstep;
      [|discriminate].
    specialize (IH m1 Hrun).
    assert (formatVersion m <= formatVersion m1); [|lia].
    clear IH Hrun.
    destruct u; simpl in Hstep;
      repeat match type of Hstep with
             | (if ?b then _ else _) = _ => destruct b eqn:?
             | match ?o with Some _ => _ | None => _ end = _ => destruct o eqn:?
             end;
      try discriminate; injection Hstep as <-; simpl; lia.
Qed.

(** The theorem at an upgrade of the table of the scenario to version 2. *)
Lemma format_version_never_decreases_witness :
  formatVersion metadata
  <= formatVersion
       (set_formatVersion 2 (set_tableUuid "9c1d" (set_lastUpdatedMs 7 metadata))).
Proof.
  apply (format_version_never_decreases 7 metadata
           [AssignUUIDUpdate "9c1d"; UpgradeFormatVersionUpdate 2] None).
  reflexivity.
Defined.

(** Case analysis on one successful update: every arm of [applyUpdate] that
    returns, with the tests it passed. *)
Ltac applyUpdate_cases Hstep :=
  simpl in Hstep;
  repeat match type of Hstep with
         | (if ?b then _ else _) = _ => destruct b eqn:?
         | match ?o with Some _ => _ | None => _ end = _ => destruct o eqn:?
         end;
  try discriminate; injection Hstep as <-.

(** An invariant of single updates is an invariant of
    [applyUpdatesToMetadata], provided it does not look at the time. *)
Lemma applyUpdatesToMetadata_invariant (P : TableMetadata -> Prop) :
  (forall now m, P m -> P (set_lastUpdatedMs now m)) ->
  (forall override m u m',
     P m -> MetadataManager.applyUpdate override m u = Return m' -> P m') ->
  forall now m updates override m',
    P m ->
    MetadataManager.applyUpdatesToMetadata now m updates override = Return m' ->
    P m'.
Proof.
  intros Htime Hstep now m updates override m' Hm.
  unfold MetadataManager.applyUpdatesToMetadata.
  specialize (Htime now m Hm). revert Htime.
  generalize (set_lastUpdatedMs now m). clear m Hm.
  induction updates as [|u updates IH]; intros m Hm Hrun; simpl in Hrun.
  - now injection Hrun as <-.
  - destruct (MetadataManager.applyUpdate override m u) as [m1|e] eqn:Hu;
      [|discriminate].
    exact (IH m1 (Hstep override m u m1 Hm Hu) Hrun).
Qed.

Lemma fold_left_max_ge l :
  forall a, a <= fold_left Z.max l a
            /\ forall x, In x l -> x <= fold_left Z.max l a.
Proof.
  induction l as [|y l IH]; intros a; simpl.
  - split; [lia | intros x []].
  - destruct (IH (Z.max a y)) as [Hacc Hin]. split; [lia|].
    intros x [<-|Hx]; [lia | auto].
Qed.

Lemma pyMax_ge l x : In x l -> x <= MetadataManager.pyMax l.
Proof.
  destruct l as [|y l]; [intros []|]. simpl.
  destruct (fold_left_max_ge l y) as [Hacc Hin].
  intros [<-|Hx]; auto.
Qed.

Lemma specFields_bound (spec : PartitionSpec) field :
  In field (specFields spec) ->
  partitionFieldId field
  <= match specFields spec with
     | [] => 0
     | fields => MetadataManager.pyMax (map partitionFieldId fields)
     end.
Proof.
  intros Hin.
  assert (partitionFieldId field
          <= MetadataManager.pyMax (map partitionFieldId (specFields spec)))
    by (apply pyMax_ge, in_map, Hin).
  destruct (specFields spec); [destruct Hin | assumption].
Qed.

(** X3.  [last_partition_id] keeps bounding the partition field ids: when
    it is at least the field id of every field of every partition spec in
    the metadata given, a successful [applyUpdatesToMetadata] produces
    metadata of which the same holds. *)
Theorem last_partition_id_bounds_field_ids :
  forall now (m : TableMetadata) updates override m',
    Spec.lastPartitionIdBounds m ->
    MetadataManager.applyUpdatesToMetadata now m updates override = Return m' ->
    Spec.lastPartitionIdBounds m'.
Proof.
  apply (applyUpdatesToMetadata_invariant Spec.lastPartitionIdBounds).
  - intros now m Hm. exact Hm.
  - intros override m u m' Hm Hstep.
    destruct u; applyUpdate_cases Hstep; try exact Hm.
    intros ps field Hps Hfield.
    cbn [set_lastPartitionId set_partitionSpecs partitionSpecs
         lastPartitionId] in *.
    apply Z.max_le_iff.
    apply in_app_or in Hps as [Hps | [<- | []]].
    + left. exact (Hm ps field Hps Hfield).
    + right. exact (specFields_bound _ _ Hfield).
Qed.

(** The theorem at a table with a partition spec whose field has id
    [1000], to which a spec with a field of id [1001] is added. *)
Lemma last_partition_id_bounds_field_ids_witness :
  let partitioned :=
    set_lastPartitionId 1000
      (set_partitionSpecs
         [mkPartitionSpec 0 [mkPartitionField 1 1000 "x" "identity"]]
         metadata) in
  exists m' : TableMetadata,
    MetadataManager.applyUpdatesToMetadata 0 partitioned
      [AddPartitionSpecUpdate
         (mkPartitionSpec 1 [mkPartitionField 1 1001 "x_bucket" "bucket[4]"])]
      None = Return m' /\
    lastPartitionId m' = 1001 /\
    Spec.lastPartitionIdBounds partitioned /\
    Spec.lastPartitionIdBounds m'.
Proof.
  intros partitioned.
  assert (Hbounded : Spec.lastPartitionIdBounds partitioned).
  { intros spec field [<-|[]] [<-|[]]. simpl. lia. }
  eexists. split; [reflexivity|]. split; [reflexivity|].
  split; [exact Hbounded|].
  apply (last_partition_id_bounds_field_ids 0 partitioned
           [AddPartitionSpecUpdate
              (mkPartitionSpec 1
                 [mkPartitionField 1 1001 "x_bucket" "bucket[4]"])] None);
    [exact Hbounded | reflexivity].
Defined.

Lemma existsb_false_not_in {A B : Type} (key : A -> B) (test : A -> bool)
    (b : B) (l : list A) :
  (forall a, key a = b -> test a = true) ->
  existsb test l = false -> ~ In b (map key l).
Proof.
  intros Htest Hnone Hin. apply in_map_iff in Hin as (a & Hkey & Ha).
  assert (existsb test l = true) by (apply existsb_exists; eauto).
  congruence.
Qed.

Lemma NoDup_snoc {A : Type} (l : list A) (x : A) :
  NoDup l -> ~ In x l -> NoDup (l ++ [x]).
Proof.
  intros Hl Hx. apply NoDup_app. split; [assumption|]. split.
  - intros y Hy Hyx. apply list_elem_of_In in Hy.
    apply list_elem_of_singleton in Hyx as ->. contradiction.
  - apply NoDup_singleton.
Qed.

(** X4.  Ids stay distinct: when no two schemas, no two partition specs
    and no two sort orders of the metadata given share an id, the same holds
    of the metadata that a successful [applyUpdatesToMetadata] produces,
    since each of the three additions refuses an id that is taken. *)
Theorem ids_stay_distinct :
  forall now (m : TableMetadata) updates override m',
    Spec.idsDistinct m ->
    MetadataManager.applyUpdatesToMetadata now m updates override = Return m' ->
    Spec.idsDistinct m'.
Proof.
  apply (applyUpdatesToMetadata_invariant Spec.idsDistinct).
  - intros now m Hm. exact Hm.
  - intros override m u m' (Hschemas & Hspecs & Horders) Hstep.
    destruct u; applyUpdate_cases Hstep;
      try (repeat split; assumption);
      unfold Spec.idsDistinct; simpl; rewrite map_app; simpl;
      repeat split; try assumption; apply NoDup_snoc; try assumption.
    all: match goal with
         | H : existsb _ _ = false |- _ =>
             refine (existsb_false_not_in _ _ _ _ _ H)
         end.
    all: intros a Ha; rewrite Ha;
      first [apply bool_decide_eq_true_2; reflexivity | apply Z.eqb_refl].
Qed.

(** The theorem at the table of the scenario, to which the schema with id
    [1] is added. *)
Lemma ids_stay_distinct_witness :
  Spec.idsDistinct metadata /\
  MetadataManager.applyUpdatesToMetadata 0 metadata
    [AddSchemaUpdate nestedSchema None] None
  = Return (set_lastColumnId 3
              (set_schemas [schema; nestedSchema]
                 (set_lastUpdatedMs 0 metadata))) /\
  Spec.idsDistinct
    (set_lastColumnId 3
       (set_schemas [schema; nestedSchema] (set_lastUpdatedMs 0 metadata))).
Proof.
  assert (Hdistinct : Spec.idsDistinct metadata).
  { repeat split; simpl; [apply NoDup_singleton | apply NoDup_nil_2 ..]. }
  split; [exact Hdistinct|]. split; [reflexivity|].
  apply (ids_stay_distinct 0 metadata [AddSchemaUpdate nestedSchema None] None);
    [exact Hdistinct | reflexivity].
Defined.

Lemma existsb_true_in {A B : Type} (key : A -> B) (test : A -> bool)
    (b : B) (l : list A) :
  (forall a, test a = true -> key a = b) ->
  existsb test l = true -> In b (map key l).
Proof.
  intros Htest Hsome. apply existsb_exists in Hsome as (a & Ha & Hkey).
  apply in_map_iff. exists a. auto.
Qed.

(** X5.  The current and default ids stay resolvable: a successful
    [applyUpdatesToMetadata] keeps each of three facts that held of the
    metadata given, that the current schema id, the default spec id, the
    default sort order id names an element of its list. *)
Theorem current_ids_stay_known :
  forall now (m : TableMetadata) updates override m',
    MetadataManager.applyUpdatesToMetadata now m updates override = Return m' ->
    (Spec.currentSchemaKnown m -> Spec.currentSchemaKnown m') /\
    (Spec.defaultSpecKnown m -> Spec.defaultSpecKnown m') /\
    (Spec.defaultSortOrderKnown m -> Spec.defaultSortOrderKnown m').
Proof.
  intros now m updates override m' Hrun.
  assert (Hstep :
            forall (P : TableMetadata -> Prop),
              (forall now m, P m -> P (set_lastUpdatedMs now m)) ->
              (forall override m u m',
                 P m ->
                 MetadataManager.applyUpdate override m u = Return m' ->
                 P m') ->
              P m -> P m').
  { intros P Htime Hupdate Hm.
    exact (applyUpdatesToMetadata_invariant P Htime Hupdate now m updates
             override m' Hm Hrun). }
  split; [|split]; apply Hstep; clear; try (intros now m Hm; exact Hm);
    intros override m u m' Hm Hstep;
    destruct u; applyUpdate_cases Hstep; try exact Hm.
  - (* AddSchemaUpdate, with a last assigned field id *)
    unfold Spec.currentSchemaKnown in *. simpl.
    rewrite map_app. apply in_or_app. now left.
  - unfold Spec.currentSchemaKnown in *. simpl.
    rewrite map_app. apply in_or_app. now left.
  - (* SetCurrentSchemaUpdate *)
    unfold Spec.currentSchemaKnown. simpl.
    apply negb_false_iff in Heqb.
    refine (existsb_true_in _ _ _ _ _ Heqb).
    intros a Ha. now apply bool_decide_eq_true_1 in Ha.
  - (* AddPartitionSpecUpdate *)
    unfold Spec.defaultSpecKnown in *. simpl.
    rewrite map_app. apply in_or_app. now left.
  - (* SetDefaultSpecUpdate *)
    unfold Spec.defaultSpecKnown. simpl.
    apply negb_false_iff in Heqb.
    refine (existsb_true_in _ _ _ _ _ Heqb).
    intros a Ha. now apply Z.eqb_eq in Ha.
  - (* AddSortOrderUpdate *)
    unfold Spec.defaultSortOrderKnown in *. simpl.
    rewrite map_app. apply in_or_app. now left.
  - (* SetDefaultSortOrderUpdate *)
    unfold Spec.defaultSortOrderKnown. simpl.
    apply negb_false_iff in Heqb.
    refine (existsb_true_in _ _ _ _ _ Heqb).
    intros a Ha. now apply Z.eqb_eq in Ha.
Qed.

(** The theorem at the table of the scenario, whose current schema id [0]
    names its schema, and at a commit that adds the schema with id [1] and
    makes it current. *)
Lemma current_ids_stay_known_witness :
  Spec.currentSchemaKnown metadata /\
  MetadataManager.applyUpdatesToMetadata 0 metadata
    [AddSchemaUpdate nestedSchema None; SetCurrentSchemaUpdate 1] None
  = Return (set_currentSchemaId 1
              (set_lastColumnId 3
                 (set_schemas [schema; nestedSchema]
                    (set_lastUpdatedMs 0 metadata)))) /\
  Spec.currentSchemaKnown
    (set_currentSchemaId 1
       (set_lastColumnId 3
          (set_schemas [schema; nestedSchema] (set_lastUpdatedMs 0 metadata)))).
Proof.
  assert (Hknown : Spec.currentSchemaKnown metadata) by (left; reflexivity).
  split; [exact Hknown|]. split; [reflexivity|].
  exact (proj1 (current_ids_stay_known 0 metadata
                  [AddSchemaUpdate nestedSchema None;
                   SetCurrentSchemaUpdate 1] None _ eq_refl) Hknown).
Defined.

Lemma not_in_existsb_false {A B : Type} (key : A -> B) (test : A -> bool)
    (b : B) (l : list A) :
  (forall a, test a = true -> key a = b) ->
  ~ In b (map key l) -> existsb test l = false.
Proof.
  intros Htest Hnot. destruct (existsb test l) eqn:Hsome; [|reflexivity].
  destruct Hnot. exact (existsb_true_in key test b l Htest Hsome).
Qed.

(** X6.  The order of the updates matters: a schema whose id is new to the
    table can be added and made current in one list of updates, in that
    order; with the two updates swapped the list fails with CommitFailed,
    the schema not being there yet. *)
Theorem schema_is_added_before_it_is_made_current :
  forall now (m : TableMetadata) s lastAssigned id override,
    schemaId s = Some id ->
    ~ In (Some id) (map schemaId (schemas m)) ->
    (exists m',
       MetadataManager.applyUpdatesToMetadata now m
         [AddSchemaUpdate s lastAssigned; SetCurrentSchemaUpdate id] override
       = Return m' /\
       currentSchemaId m' = id /\ schemas m' = schemas m ++ [s]) /\
    MetadataManager.applyUpdatesToMetadata now m
      [SetCurrentSchemaUpdate id; AddSchemaUpdate s lastAssigned] override
    = Raise CommitFailedException.
Proof.
  intros now m s lastAssigned id override Hid Hnew.
  assert (Habsent :
            existsb (fun s0 => bool_decide (schemaId s0 = Some id)) (schemas m)
            = false).
  { refine (not_in_existsb_false schemaId _ _ _ _ Hnew).
    intros a Ha. now apply bool_decide_eq_true_1 in Ha. }
  unfold MetadataManager.applyUpdatesToMetadata. simpl. rewrite Hid, Habsent.
  split; [|reflexivity].
  destruct lastAssigned as [last|]; simpl;
    rewrite existsb_app; simpl; rewrite Hid, bool_decide_eq_true_2 by reflexivity;
    rewrite orb_true_r; simpl; eexists; repeat split; reflexivity.
Qed.

(** The theorem at the table of the scenario and the schema with id [1]. *)
Lemma schema_is_added_before_it_is_made_current_witness :
  MetadataManager.applyUpdatesToMetadata 0 metadata
    [SetCurrentSchemaUpdate 1; AddSchemaUpdate nestedSchema None] None
  = Raise CommitFailedException.
Proof.
  refine (proj2 (schema_is_added_before_it_is_made_current 0 metadata
                   nestedSchema None 1 None eq_refl _)).
  simpl. intros [Hsame|[]]. discriminate Hsame.
Defined.

(** X7.  An [add-snapshot] update is never applied.  Its arm builds the
    entry of the ref [main] by a constructor call with field names, which
    raises on every input: alone, the update ends [applyUpdatesToMetadata]
    with that exception, and a list of updates that holds one does not
    apply, whatever comes before or after it. *)
Theorem add_snapshot_is_never_applied :
  (forall now (m : TableMetadata) snapshot override,
     MetadataManager.applyUpdatesToMetadata now m [AddSnapshotUpdate snapshot]
       override = Raise (PyError "ValidationError")) /\
  (forall now (m : TableMetadata) updates override snapshot,
     In (AddSnapshotUpdate snapshot) updates ->
     exists e,
       MetadataManager.applyUpdatesToMetadata now m updates override
       = Raise e).
Proof.
  split; [reflexivity|].
  intros now m updates override snapshot.
  unfold MetadataManager.applyUpdatesToMetadata.
  generalize (set_lastUpdatedMs now m). clear m.
  induction updates as [|u updates IH]; intros m Hin; [destruct Hin|].
  simpl.
  destruct (MetadataManager.applyUpdate override m u) as [m1|e] eqn:Hstep;
    [|eauto].
  destruct Hin as [->|Hin]; [discriminate Hstep|].
  exact (IH m1 Hin).
Qed.

(** The theorem at a commit that sets a property and then adds a
    snapshot. *)
Lemma add_snapshot_is_never_applied_witness :
  exists e,
    MetadataManager.applyUpdatesToMetadata 0 metadata
      [SetPropertiesUpdate {[ "owner" := "ana" ]}; AddSnapshotUpdate snapshot42]
      None = Raise e.
Proof.
  apply (proj2 add_snapshot_is_never_applied 0 metadata
           [SetPropertiesUpdate {[ "owner" := "ana" ]};
            AddSnapshotUpdate snapshot42] None snapshot42).
  right. left. reflexivity.
Defined.





(** ** Storage accessor, further *)

(** X9.  What was written is read back: after [writeJsonFile] has
    succeeded on a path, [readJsonFile] on the same path returns the
    document written and [fileExists] answers true, the world being left
    as the write made it. *)
Theorem written_file_is_read_back :
  forall env path data w w',
    StorageAccessor.writeJsonFile env path data w = (Return tt, w') ->
    StorageAccessor.readJsonFile env path w' = (Return data, w') /\
    StorageAccessor.fileExists env path w' = (Return true, w').
Proof.
  intros env path data w w' Hwrite.
  unfold StorageAccessor.writeJsonFile, StorageAccessor.readJsonFile,
    StorageAccessor.fileExists, StorageAccessor.osExists, bindM, liftO,
    tryExcept in *.
  destruct (StorageAccessor._resolvePath env path) as [resolved|e];
    [|discriminate].
  destruct (StorageAccessor.osFile env resolved) as [file|]; [|discriminate].
  injection Hwrite as <-. simpl. rewrite lookup_insert_eq. split; [reflexivity|].
  rewrite bool_decide_eq_true_2 by eauto. reflexivity.
Qed.

(** The theorem at a file written below the warehouse of the scenario. *)
Lemma written_file_is_read_back_witness :
  StorageAccessor.readJsonFile env "db/t/metadata/v1.json"
    (set_files (<["/data/warehouse/db/t/metadata/v1.json"
                  := JsonFile (MetadataJson metadata)]> (files world)) world)
  = (Return (MetadataJson metadata),
     set_files (<["/data/warehouse/db/t/metadata/v1.json"
                  := JsonFile (MetadataJson metadata)]> (files world)) world).
Proof.
  refine (proj1 (written_file_is_read_back env "db/t/metadata/v1.json"
                   (MetadataJson metadata) world _ _)).
  vm_compute. reflexivity.
Defined.

(** What [deleteFile] can do to the world, and how it can end. *)
Lemma deleteFile_effect env path w :
  exists outcome w',
    StorageAccessor.deleteFile env path w = (outcome, w') /\
    namespaces w' = namespaces w /\ tables w' = tables w /\
    files w' ⊆ files w /\
    (outcome = Return tt \/ outcome = Raise ValidationException
     \/ outcome = Raise InternalServerErrorException).
Proof.
  unfold StorageAccessor.deleteFile, StorageAccessor.fileExists,
    StorageAccessor.osExists, StorageAccessor.osRemove, bindM, liftO,
    tryExcept, raise, retM.
  destruct (StorageAccessor._resolvePath env path) as [resolved|e] eqn:Hfirst.
  - destruct (StorageAccessor._resolvePath env resolved) as [again|e];
      [|eexists _, _; split; [reflexivity|]; auto 10].
    destruct (StorageAccessor.osFile env again) as [probed|]; simpl.
    + destruct (bool_decide (is_Some (files w !! probed))); simpl;
        [|eexists _, _; split; [reflexivity|]; auto 10].
      destruct (StorageAccessor.osFile env resolved) as [file|];
        [|eexists _, _; split; [reflexivity|]; auto 10].
      destruct (files w !! file);
        eexists _, _; (split; [reflexivity|]); simpl; auto 10.
      repeat split; auto. apply delete_subseteq.
    + eexists _, _; split; [reflexivity|]; auto 10.
  - eexists _, _; split; [reflexivity|].
    repeat split; auto.
    unfold StorageAccessor._resolvePath in Hfirst.
    repeat match type of Hfirst with
           | (if ?b then _ else _) = _ => destruct b
           end; try discriminate.
    injection Hfirst as <-. auto.
Qed.

(** X10.  [deleteFile] only ever removes: however it ends (normally, with a
    validation error for the path, or with an internal server error), the
    catalog is untouched and every file of the warehouse afterwards was
    there before, with the same content. *)
Theorem deleteFile_only_removes :
  forall env path w,
    let '(outcome, w') := StorageAccessor.deleteFile env path w in
    namespaces w' = namespaces w /\ tables w' = tables w /\
    (forall file content,
       files w' !! file = Some content -> files w !! file = Some content) /\
    (outcome = Return tt \/ outcome = Raise ValidationException
     \/ outcome = Raise InternalServerErrorException).
Proof.
  intros env path w.
  destruct (deleteFile_effect env path w)
    as (outcome & w' & -> & Hns & Htables & Hfiles & Hend).
  repeat split; auto.
  intros file content Hthere.
  exact (lookup_weaken _ _ _ _ Hthere Hfiles).
Qed.



(** ** Namespace strings *)

Lemma split_nonempty sep s : PyStr.split sep s <> [].
Proof.
  destruct s as [|c s]; simpl; [discriminate|].
  destruct (Ascii.eqb c sep); [discriminate|].
  destruct (PyStr.split sep s); discriminate.
Qed.

Lemma join_split sep s :
  PyStr.join (String sep EmptyString) (PyStr.split sep s) = s.
Proof.
  induction s as [|c s IH]; simpl; [reflexivity|].
  destruct (Ascii.eqb_spec c sep) as [->|Hc].
  - pose proof (split_nonempty sep s).
    destruct (PyStr.split sep s) as [|part parts]; [congruence|].
    simpl in *. now rewrite IH.
  - pose proof (split_nonempty sep s).
    destruct (PyStr.split sep s) as [|part parts]; [congruence|].
    destruct parts as [|part' parts]; simpl in *; now rewrite <- IH.
Qed.

Lemma split_parts_lack_separator sep s :
  Forall (fun part =>
            PyStr.allChars (fun c => negb (Ascii.eqb c sep)) part = true)
         (PyStr.split sep s).
Proof.
  induction s as [|c s IH]; simpl; [repeat constructor|].
  destruct (Ascii.eqb c sep) eqn:Hc.
  - constructor; [reflexivity | exact IH].
  - pose proof (split_nonempty sep s).
    destruct (PyStr.split sep s) as [|part parts]; [congruence|].
    inversion IH as [|? ? Hpart Hparts]; subst.
    constructor; [|assumption]. simpl. now rewrite Hc, Hpart.
Qed.

(** X12.  [parseNamespace] is inverted by joining with dots: for every
    namespace string of a path, the labels it is parsed into, joined with
    ["."], give the string back; and no label contains a dot. *)
Theorem parseNamespace_is_inverted_by_join :
  forall namespaceStr,
    PyStr.join "." (TableRouter.parseNamespace namespaceStr) = namespaceStr /\
    Forall (fun label =>
              PyStr.allChars (fun c => negb (Ascii.eqb c "."%char)) label = true)
           (TableRouter.parseNamespace namespaceStr).
Proof.
  intros namespaceStr. unfold TableRouter.parseNamespace.
  case_bool_decide as Hempty.
  - subst. split; [reflexivity | constructor].
  - split; [apply join_split | apply split_parts_lack_separator].
Qed.

(** ** Catalog store, further *)

(** The lookups as searches of the two tables. *)

Lemma getNamespaceByLevels_find levels w :
  CRUDNamespace.getNamespaceByLevels levels w
  = (Return (List.find (fun n => bool_decide (WorldModel.levels n = levels))
                       (namespaces w)), w).
Proof. reflexivity. Qed.

Lemma getTableByIdentifier_find identifier w :
  CRUDTable.getTableByIdentifier identifier w
  = (Return
       (match List.find
                (fun n => bool_decide (levels n = namespace identifier))
                (namespaces w) with
        | Some namespaceModel =>
            List.find
              (fun t => (namespaceId t =? nsId namespaceModel)
                        && bool_decide (tableName t = name identifier))
              (tables w)
        | None => None
        end), w).
Proof.
  unfold CRUDTable.getTableByIdentifier, bindM.
  rewrite getNamespaceByLevels_find.
  destruct (List.find _ (namespaces w)); reflexivity.
Qed.

Lemma find_app_none {A : Type} (test : A -> bool) (l k : list A) :
  List.find test l = None -> List.find test (l ++ k) = List.find test k.
Proof.
  induction l as [|a l IH]; simpl; [reflexivity|].
  destruct (test a); [discriminate | exact IH].
Qed.

Lemma find_all_false {A : Type} (test : A -> bool) (l : list A) :
  (forall a, In a l -> test a = false) -> List.find test l = None.
Proof.
  induction l as [|a l IH]; intros Hall; simpl; [reflexivity|].
  rewrite (Hall a (or_introl eq_refl)). apply IH. intros b Hb. apply Hall. now right.
Qed.

(** The key that the sequence gives a new row is above every stored key. *)
Lemma stored_keys_below_next (stored : list TableModel) t :
  In t stored -> tableId t < 1 + fold_right Z.max 0 (map tableId stored).
Proof.
  induction stored as [|u stored IH]; intros Hin; [destruct Hin|].
  simpl. destruct Hin as [->|Hin]; [lia|]. specialize (IH Hin). lia.
Qed.

(** What [violatesUnique] says when it answers false. *)
Lemma violatesUnique_false row stored :
  CRUDTable.violatesUnique row stored = false ->
  forall t, In t stored -> tableId t <> tableId row ->
            metadataLocation t <> metadataLocation row
            /\ (namespaceId t, tableName t) <> (namespaceId row, tableName row).
Proof.
  intros Hfree t Hin Hkey.
  unfold CRUDTable.violatesUnique in Hfree.
  match type of Hfree with
  | existsb ?test _ = false =>
      assert (Htest : test t = false)
        by (destruct (test t) eqn:Hclash; [|reflexivity];
            rewrite <- Hfree; symmetry; apply existsb_exists; eauto)
  end.
  simpl in Htest.
  destruct (Z.eqb_spec (tableId t) (tableId row)); [contradiction|].
  simpl in Htest. apply orb_false_elim in Htest as [Hloc Hname].
  apply bool_decide_eq_false_1 in Hloc. split; [assumption|].
  intros Hsame. injection Hsame as Hns Hsame.
  rewrite Hns, Z.eqb_refl, (bool_decide_eq_true_2 _ Hsame) in Hname.
  discriminate.
Qed.

(** The insertion at the heart of [createTable] and [registerTable]: the
    row gets the next key; it is stored unless a constraint rejects it. *)
Lemma insert_then_refresh dbTable w :
  let row :=
    {| tableId := 1 + fold_right Z.max 0 (map tableId (tables w));
       namespaceId := namespaceId dbTable; tableName := tableName dbTable;
       metadataLocation := metadataLocation dbTable;
       tableProperties := tableProperties dbTable |} in
  bindM (CRUDTable.commitInsert dbTable) (fun stored => CRUDTable.refresh stored) w
  = if CRUDTable.violatesUnique row (tables w)
    then (Raise IntegrityError, w)
    else (Return row, set_tables (tables w ++ [row]) w).
Proof.
  intros row. unfold bindM, CRUDTable.commitInsert. fold row.
  destruct (CRUDTable.violatesUnique row (tables w)); [reflexivity|].
  unfold CRUDTable.refresh. simpl.
  rewrite find_app_none.
  - simpl. rewrite Z.eqb_refl. reflexivity.
  - apply find_all_false. intros t Ht.
    pose proof (stored_keys_below_next _ _ Ht). simpl.
    apply Z.eqb_neq. lia.
Qed.

(** How [createTable] can end. *)
Lemma createTable_cases namespaceLevels tableName location properties w
    outcome w' :
  CRUDTable.createTable namespaceLevels tableName location properties w
  = (outcome, w') ->
  (w' = w /\ exists e, outcome = Raise e)
  \/ exists namespaceModel row,
       outcome = Return row /\
       w' = set_tables (tables w ++ [row]) w /\
       CRUDNamespace.getNamespaceByLevels namespaceLevels w
       = (Return (Some namespaceModel), w) /\
       CRUDTable.getTableByIdentifier
         (mkTableIdentifier namespaceLevels tableName) w = (Return None, w) /\
       row = {| tableId := 1 + fold_right Z.max 0 (map tableId (tables w));
                namespaceId := nsId namespaceModel; tableName := tableName;
                metadataLocation := location;
                tableProperties := properties |} /\
       CRUDTable.violatesUnique row (tables w) = false.
Proof.
  unfold CRUDTable.createTable. unfold bindM at 1.
  rewrite getNamespaceByLevels_find.
  destruct (List.find _ (namespaces w)) as [namespaceModel|] eqn:Hns.
  - unfold bindM at 1.
    destruct (getTableByIdentifier_reads
                (mkTableIdentifier namespaceLevels tableName) w)
      as (found & Hget & _).
    rewrite Hget. destruct found as [existing|].
    + intros Hrun. injection Hrun as <- <-. left. eauto.
    + unfold tryExcept.
      rewrite (insert_then_refresh
                 {| tableId := 0; namespaceId := nsId namespaceModel;
                    tableName := tableName; metadataLocation := location;
                    tableProperties := properties |} w).
      simpl.
      destruct (CRUDTable.violatesUnique _ (tables w)) eqn:Hfree;
        intros Hrun; injection Hrun as <- <-.
      * left. eauto.
      * right. exists namespaceModel. eexists. repeat split; auto.
  - intros Hrun. injection Hrun as <- <-. left. eauto.
Qed.

(** X13.  A created table is found: when [createTable] returns a row, that
    row carries the name, the location and the properties given, it was
    appended to the table rows (the others being as they were), and looking
    the identifier up afterwards finds it. *)
Theorem created_table_is_found :
  forall namespaceLevels tableName location properties w row w',
    CRUDTable.createTable namespaceLevels tableName location properties w
    = (Return row, w') ->
    CRUDTable.getTableByIdentifier
      (mkTableIdentifier namespaceLevels tableName) w'
    = (Return (Some row), w') /\
    WorldModel.tableName row = tableName /\
    metadataLocation row = location /\
    tableProperties row = properties /\
    tables w' = tables w ++ [row] /\
    files w' = files w /\ namespaces w' = namespaces w.
Proof.
  intros namespaceLevels tableName location properties w row w' Hrun.
  apply createTable_cases in Hrun
    as [[_ [e He]] | (namespaceModel & row0 & Hrow & -> & Hns & Habsent
                      & Hshape & _)]; [discriminate|].
  injection Hrow as <-.
  rewrite getNamespaceByLevels_find in Hns. injection Hns as Hns.
  rewrite getTableByIdentifier_find in Habsent. simpl in Habsent.
  rewrite Hns in Habsent. injection Habsent as Habsent.
  split; [|subst row; repeat split; reflexivity].
  rewrite getTableByIdentifier_find. simpl. rewrite Hns.
  rewrite (find_app_none _ _ _ Habsent). subst row. simpl.
  rewrite Z.eqb_refl, (bool_decide_eq_true_2 _ eq_refl). reflexivity.
Qed.

(** The theorem at the creation of [db.u] beside [db.t]. *)
Lemma created_table_is_found_witness :
  CRUDTable.getTableByIdentifier (mkTableIdentifier ["db"] "u") twoTables
  = (Return (Some {| tableId := 2; namespaceId := 1; tableName := "u";
                     metadataLocation := rivalLocation;
                     tableProperties := None |}), twoTables).
Proof.
  refine (proj1 (created_table_is_found ["db"] "u" rivalLocation None
                   (set_tables [rowAt oldLocation] twoTables) _ twoTables _)).
  vm_compute. reflexivity.
Defined.

Lemma fileExists_reads env path w outcome w' :
  StorageAccessor.fileExists env path w = (outcome, w') -> w' = w.
Proof.
  unfold StorageAccessor.fileExists, StorageAccessor.osExists, bindM, liftO,
    tryExcept.
  destruct (StorageAccessor._resolvePath env path); intros Hrun;
    now injection Hrun as _ <-.
Qed.

(** How [registerTable] can end. *)
Lemma registerTable_cases env namespaceLevels tableName location properties w
    outcome w' :
  CRUDTable.registerTable env namespaceLevels tableName location properties w
  = (outcome, w') ->
  (w' = w /\ exists e, outcome = Raise e)
  \/ exists namespaceModel row,
       outcome = Return row /\
       w' = set_tables (tables w ++ [row]) w /\
       CRUDNamespace.getNamespaceByLevels namespaceLevels w
       = (Return (Some namespaceModel), w) /\
       CRUDTable.getTableByIdentifier
         (mkTableIdentifier namespaceLevels tableName) w = (Return None, w) /\
       StorageAccessor.fileExists env location w = (Return true, w) /\
       row = {| tableId := 1 + fold_right Z.max 0 (map tableId (tables w));
                namespaceId := nsId namespaceModel; tableName := tableName;
                metadataLocation := location;
                tableProperties := properties |} /\
       CRUDTable.violatesUnique row (tables w) = false.
Proof.
  unfold CRUDTable.registerTable. unfold bindM at 1.
  rewrite getNamespaceByLevels_find.
  destruct (List.find _ (namespaces w)) as [namespaceModel|] eqn:Hns.
  - unfold bindM at 1.
    destruct (getTableByIdentifier_reads
                (mkTableIdentifier namespaceLevels tableName) w)
      as (found & Hget & _).
    rewrite Hget. destruct found as [existing|].
    + intros Hrun. injection Hrun as <- <-. left. eauto.
    + unfold bindM at 1.
      destruct (StorageAccessor.fileExists env location w)
        as [[present|e] w1] eqn:Hexists;
        pose proof (fileExists_reads _ _ _ _ _ Hexists) as ->.
      * destruct present; simpl.
        -- unfold tryExcept.
           rewrite (insert_then_refresh
                      {| tableId := 0; namespaceId := nsId namespaceModel;
                         tableName := tableName; metadataLocation := location;
                         tableProperties := properties |} w).
           simpl.
           destruct (CRUDTable.violatesUnique _ (tables w)) eqn:Hfree;
             intros Hrun; injection Hrun as <- <-.
           ++ left. eauto.
           ++ right. exists namespaceModel. eexists. repeat split; auto.
        -- intros Hrun. injection Hrun as <- <-. left. eauto.
      * intros Hrun. injection Hrun as <- <-. left. eauto.
  - intros Hrun. injection Hrun as <- <-. left. eauto.
Qed.

(** How [updateTableMetadataLocation] can end. *)
Lemma updateTableMetadataLocation_cases identifier newLocation expected w
    outcome w' :
  CRUDTable.updateTableMetadataLocation identifier newLocation expected w
  = (outcome, w') ->
  (w' = w /\ exists e, outcome = Raise e)
  \/ exists row,
       CRUDTable.getTableByIdentifier identifier w = (Return (Some row), w) /\
       outcome = Return (set_metadataLocation newLocation row) /\
       w' = set_tables
              (map (fun t => if tableId t =? tableId row
                             then set_metadataLocation newLocation row else t)
                   (tables w)) w /\
       CRUDTable.violatesUnique (set_metadataLocation newLocation row)
         (tables w) = false /\
       (forall e, expected = Some e -> e = "" \/ metadataLocation row = e).
Proof.
  unfold CRUDTable.updateTableMetadataLocation, bindM.
  destruct (getTableByIdentifier_reads identifier w) as (found & Hget & Hin).
  rewrite Hget. destruct found as [row|];
    [|intros Hrun; injection Hrun as <- <-; left; eauto].
  match goal with
  | |- (if ?guard then _ else _) _ = _ -> _ => destruct guard eqn:Hguard
  end; [intros Hrun; injection Hrun as <- <-; left; eauto|].
  unfold CRUDTable.commitUpdate.
  destruct (CRUDTable.violatesUnique _ (tables w)) eqn:Hfree;
    [intros Hrun; injection Hrun as <- <-; left; eauto|].
  unfold CRUDTable.refresh. simpl.
  rewrite (refresh_after_rewrite row (set_metadataLocation newLocation row))
    by (auto; reflexivity).
  simpl. intros Hrun. injection Hrun as <- <-. right. exists row.
  repeat split; auto.
  intros e ->. apply andb_false_iff in Hguard as [Hempty|Hsame].
  - left. apply negb_false_iff in Hempty. now apply bool_decide_eq_true_1 in Hempty.
  - right. apply negb_false_iff in Hsame. now apply bool_decide_eq_true_1 in Hsame.
Qed.

(** How [renameTable] can end. *)
Lemma renameTable_cases source destination w outcome w' :
  CRUDTable.renameTable source destination w = (outcome, w') ->
  (w' = w /\ exists e, outcome = Raise e)
  \/ exists row destNamespace,
       CRUDTable.getTableByIdentifier source w = (Return (Some row), w) /\
       CRUDTable.getTableByIdentifier destination w = (Return None, w) /\
       CRUDNamespace.getNamespaceByLevels (namespace destination) w
       = (Return (Some destNamespace), w) /\
       let renamed :=
         {| tableId := tableId row; namespaceId := nsId destNamespace;
            tableName := name destination;
            metadataLocation := metadataLocation row;
            tableProperties := tableProperties row |} in
       outcome = Return tt /\
       w' = set_tables
              (map (fun t => if tableId t =? tableId row then renamed else t)
                   (tables w)) w /\
       CRUDTable.violatesUnique renamed (tables w) = false.
Proof.
  unfold CRUDTable.renameTable. unfold bindM at 1.
  destruct (getTableByIdentifier_reads source w) as (found & Hsource & _).
  rewrite Hsource. destruct found as [row|];
    [|intros Hrun; injection Hrun as <- <-; left; eauto].
  unfold bindM at 1.
  destruct (getTableByIdentifier_reads destination w) as (taken & Hdest & _).
  rewrite Hdest. destruct taken as [existing|];
    [intros Hrun; injection Hrun as <- <-; left; eauto|].
  unfold bindM at 1. rewrite getNamespaceByLevels_find.
  destruct (List.find _ (namespaces w)) as [destNamespace|] eqn:Hns;
    [|intros Hrun; injection Hrun as <- <-; left; eauto].
  unfold tryExcept, CRUDTable.commitUpdate. simpl.
  destruct (CRUDTable.violatesUnique _ (tables w)) eqn:Hfree;
    intros Hrun; injection Hrun as <- <-; [left; eauto|].
  right. exists row, destNamespace. repeat split; auto.
Qed.

(** How [deleteTable] can end. *)
Lemma deleteTable_cases env identifier purge w outcome w' :
  CRUDTable.deleteTable env identifier purge w = (outcome, w') ->
  (w' = w /\ exists e, outcome = Raise e)
  \/ exists row,
       CRUDTable.getTableByIdentifier identifier w = (Return (Some row), w) /\
       outcome = Return tt /\
       tables w'
       = List.filter (fun t => negb (tableId t =? tableId row)) (tables w) /\
       namespaces w' = namespaces w /\
       files w' ⊆ files w /\
       (purge = false -> files w' = files w).
Proof.
  unfold CRUDTable.deleteTable. unfold bindM at 1.
  destruct (getTableByIdentifier_reads identifier w) as (found & Hget & _).
  rewrite Hget. destruct found as [row|];
    [|intros Hrun; injection Hrun as <- <-; left; eauto].
  destruct purge.
  - unfold bindM, tryExcept.
    destruct (deleteFile_effect env (metadataLocation row) w)
      as (ended & w1 & -> & Hns & Htables & Hfiles & _).
    destruct ended as [[]|e]; unfold retM, CRUDTable.commitDelete; simpl;
      intros Hrun; injection Hrun as <- <-; right; exists row;
      simpl; rewrite Htables; repeat split; auto; discriminate.
  - unfold bindM, retM, CRUDTable.commitDelete.
    intros Hrun. injection Hrun as <- <-. right. exists row.
    repeat split; auto.
Qed.

(** The constraints under an insertion, a rewriting and a deletion that
    the store accepted. *)

Lemma constraintsHold_insert stored row :
  Spec.constraintsHold stored ->
  CRUDTable.violatesUnique row stored = false ->
  (forall t, In t stored -> tableId t <> tableId row) ->
  Spec.constraintsHold (stored ++ [row]).
Proof.
  intros [Hkeys Hpairs] Hfree Hfresh. split.
  - rewrite map_app. apply NoDup_snoc; [assumption|].
    intros Hin. apply in_map_iff in Hin as (t & Hkey & Ht).
    exact (Hfresh t Ht Hkey).
  - intros t u Ht Hu Hdiff.
    apply in_app_or in Ht as [Ht | [<- | []]];
      apply in_app_or in Hu as [Hu | [<- | []]].
    + exact (Hpairs t u Ht Hu Hdiff).
    + exact (violatesUnique_false row stored Hfree t Ht Hdiff).
    + destruct (violatesUnique_false row stored Hfree u Hu
                  (fun Heq => Hdiff (eq_sym Heq))) as [Hloc Hname].
      split; congruence.
    + congruence.
Qed.

Lemma constraintsHold_rewrite stored key row :
  Spec.constraintsHold stored ->
  tableId row = key ->
  CRUDTable.violatesUnique row stored = false ->
  Spec.constraintsHold
    (map (fun t => if tableId t =? key then row else t) stored).
Proof.
  intros [Hkeys Hpairs] Hkey Hfree.
  assert (Hshape :
            forall t,
              In t (map (fun t => if tableId t =? key then row else t) stored) ->
              (t = row /\ exists t0, In t0 stored)
              \/ (In t stored /\ tableId t <> key)).
  { intros t Ht. apply in_map_iff in Ht as (t0 & Heq & Ht0).
    destruct (Z.eqb_spec (tableId t0) key); subst; eauto. }
  split.
  - rewrite map_map.
    replace (map (fun t => tableId (if tableId t =? key then row else t)) stored)
      with (map tableId stored); [assumption|].
    apply map_ext. intros t.
    destruct (Z.eqb_spec (tableId t) key); congruence.
  - intros t u Ht Hu Hdiff.
    destruct (Hshape t Ht) as [[-> _] | [Ht0 Htk]];
      destruct (Hshape u Hu) as [[-> _] | [Hu0 Huk]].
    + congruence.
    + destruct (violatesUnique_false row stored Hfree u Hu0
                  (fun Heq => Hdiff (eq_sym Heq))) as [Hloc Hname].
      split; congruence.
    + exact (violatesUnique_false row stored Hfree t Ht0 Hdiff).
    + exact (Hpairs t u Ht0 Hu0 Hdiff).
Qed.

Lemma constraintsHold_filter stored (keep : TableModel -> bool) :
  Spec.constraintsHold stored ->
  Spec.constraintsHold (List.filter keep stored).
Proof.
  intros [Hkeys Hpairs]. split.
  - clear Hpairs. induction stored as [|t stored IH]; simpl; [constructor|].
    apply NoDup_cons in Hkeys as [Hfresh Hkeys].
    destruct (keep t); [|auto]. simpl. apply NoDup_cons. split; [|auto].
    intros Hin. apply Hfresh. apply list_elem_of_In.
    apply list_elem_of_In in Hin.
    apply in_map_iff in Hin as (u & Hkey & Hu).
    apply filter_In in Hu as [Hu _]. apply in_map_iff. eauto.
  - intros t u Ht Hu. apply filter_In in Ht as [Ht _].
    apply filter_In in Hu as [Hu _]. auto.
Qed.

(** X14.  The table operations of the catalog keep its constraints: if
    the primary key is a key and no two rows share a metadata location or
    a namespace and name, the same holds after [createTable],
    [registerTable], [updateTableMetadataLocation], [renameTable] and
    [deleteTable], however they end. *)
Theorem table_operations_keep_constraints :
  forall env w,
    Spec.constraintsHold (tables w) ->
    (forall namespaceLevels tableName location properties,
       Spec.constraintsHold
         (tables (snd (CRUDTable.createTable namespaceLevels tableName
                         location properties w)))) /\
    (forall namespaceLevels tableName location properties,
       Spec.constraintsHold
         (tables (snd (CRUDTable.registerTable env namespaceLevels tableName
                         location properties w)))) /\
    (forall identifier newLocation expected,
       Spec.constraintsHold
         (tables (snd (CRUDTable.updateTableMetadataLocation identifier
                         newLocation expected w)))) /\
    (forall source destination,
       Spec.constraintsHold
         (tables (snd (CRUDTable.renameTable source destination w)))) /\
    (forall identifier purge,
       Spec.constraintsHold
         (tables (snd (CRUDTable.deleteTable env identifier purge w)))).
Proof.
  intros env w Hw.
  assert (Hfresh :
            forall key, key = 1 + fold_right Z.max 0 (map tableId (tables w)) ->
                        forall t, In t (tables w) -> tableId t <> key).
  { intros key -> t Ht. pose proof (stored_keys_below_next _ _ Ht). lia. }
  split; [|split; [|split; [|split]]].
  - intros namespaceLevels tableName location properties.
    destruct (CRUDTable.createTable _ _ _ _ w) as [outcome w'] eqn:Hrun.
    apply createTable_cases in Hrun
      as [[-> _] | (ns & row & _ & -> & _ & _ & Hrow & Hfree)];
      [assumption|].
    simpl. apply constraintsHold_insert; auto.
    apply Hfresh. now rewrite Hrow.
  - intros namespaceLevels tableName location properties.
    destruct (CRUDTable.registerTable _ _ _ _ _ w) as [outcome w'] eqn:Hrun.
    apply registerTable_cases in Hrun
      as [[-> _] | (ns & row & _ & -> & _ & _ & _ & Hrow & Hfree)];
      [assumption|].
    simpl. apply constraintsHold_insert; auto.
    apply Hfresh. now rewrite Hrow.
  - intros identifier newLocation expected.
    destruct (CRUDTable.updateTableMetadataLocation _ _ _ w)
      as [outcome w'] eqn:Hrun.
    apply updateTableMetadataLocation_cases in Hrun
      as [[-> _] | (row & _ & _ & -> & Hfree & _)]; [assumption|].
    simpl. now apply constraintsHold_rewrite.
  - intros source destination.
    destruct (CRUDTable.renameTable _ _ w) as [outcome w'] eqn:Hrun.
    apply renameTable_cases in Hrun
      as [[-> _] | (row & ns & _ & _ & _ & _ & -> & Hfree)]; [assumption|].
    simpl. now apply constraintsHold_rewrite.
  - intros identifier purge.
    destruct (CRUDTable.deleteTable _ _ _ w) as [outcome w'] eqn:Hrun.
    apply deleteTable_cases in Hrun
      as [[-> _] | (row & _ & _ & Htables & _)]; [assumption|].
    simpl. rewrite Htables. now apply constraintsHold_filter.
Qed.

(** The two rows of the scenario satisfy the constraints. *)
Lemma twoTables_constraints : Spec.constraintsHold (tables twoTables).
Proof.
  split.
  - simpl. apply NoDup_cons. split; [|apply NoDup_singleton].
    intros Hin. apply list_elem_of_In in Hin as [Hin|[]]. discriminate Hin.
  - intros t u [<-|[<-|[]]] [<-|[<-|[]]] Hdiff; simpl in *;
      try congruence; split; discriminate.
Qed.

(** The theorem at the catalog of the two tables, one of which is renamed. *)
Lemma table_operations_keep_constraints_witness :
  Spec.constraintsHold
    [rowAt oldLocation;
     {| tableId := 2; namespaceId := 1; tableName := "v";
        metadataLocation := rivalLocation; tableProperties := None |}].
Proof.
  destruct (table_operations_keep_constraints env twoTables
              twoTables_constraints) as (_ & _ & _ & Hrename & _).
  exact (Hrename (mkTableIdentifier ["db"] "u") (mkTableIdentifier ["db"] "v")).
Defined.

(** X15.  The table operations that raise change nothing: when
    [createTable], [registerTable], [updateTableMetadataLocation] or
    [renameTable] ends with an exception, the world is as it was before
    the call. *)
Theorem failed_table_operations_change_nothing :
  forall env w,
    (forall namespaceLevels tableName location properties e w',
       CRUDTable.createTable namespaceLevels tableName location properties w
       = (Raise e, w') -> w' = w) /\
    (forall namespaceLevels tableName location properties e w',
       CRUDTable.registerTable env namespaceLevels tableName location
         properties w = (Raise e, w') -> w' = w) /\
    (forall identifier newLocation expected e w',
       CRUDTable.updateTableMetadataLocation identifier newLocation expected w
       = (Raise e, w') -> w' = w) /\
    (forall source destination e w',
       CRUDTable.renameTable source destination w = (Raise e, w') -> w' = w).
Proof.
  intros env w. split; [|split; [|split]].
  - intros namespaceLevels tableName location properties e w' Hrun.
    apply createTable_cases in Hrun as [[-> _] | (? & ? & Hrow & _)];
      [reflexivity | discriminate].
  - intros namespaceLevels tableName location properties e w' Hrun.
    apply registerTable_cases in Hrun as [[-> _] | (? & ? & Hrow & _)];
      [reflexivity | discriminate].
  - intros identifier newLocation expected e w' Hrun.
    apply updateTableMetadataLocation_cases in Hrun
      as [[-> _] | (? & _ & Hrow & _)]; [reflexivity | discriminate].
  - intros source destination e w' Hrun.
    apply renameTable_cases in Hrun
      as [[-> _] | (? & ? & _ & _ & _ & Hrow & _)]; [reflexivity | discriminate].
Qed.

(** The theorem at the renaming of [db.t] onto the existing [db.u]. *)
Lemma failed_table_operations_change_nothing_witness :
  snd (CRUDTable.renameTable (mkTableIdentifier ["db"] "t")
         (mkTableIdentifier ["db"] "u") twoTables) = twoTables.
Proof.
  destruct (failed_table_operations_change_nothing env twoTables)
    as (_ & _ & _ & Hrename).
  apply (Hrename (mkTableIdentifier ["db"] "t") (mkTableIdentifier ["db"] "u")
           (TableAlreadyExistsException ["db"; "u"])).
  vm_compute. reflexivity.
Defined.

(** X16.  Only a file that is there is registered: when [registerTable]
    returns a row, [fileExists] answered true for the metadata location in
    the world before the call, the row carries that location, and looking
    the identifier up afterwards finds the row. *)
Theorem registered_table_has_its_file :
  forall env namespaceLevels tableName location properties w row w',
    CRUDTable.registerTable env namespaceLevels tableName location properties
      w = (Return row, w') ->
    StorageAccessor.fileExists env location w = (Return true, w) /\
    metadataLocation row = location /\
    CRUDTable.getTableByIdentifier
      (mkTableIdentifier namespaceLevels tableName) w'
    = (Return (Some row), w').
Proof.
  intros env namespaceLevels tableName location properties w row w' Hrun.
  apply registerTable_cases in Hrun
    as [[_ [e He]] | (namespaceModel & row0 & Hrow & -> & Hns & Habsent
                      & Hexists & Hshape & _)]; [discriminate|].
  injection Hrow as <-.
  rewrite getNamespaceByLevels_find in Hns. injection Hns as Hns.
  rewrite getTableByIdentifier_find in Habsent. simpl in Habsent.
  rewrite Hns in Habsent. injection Habsent as Habsent.
  split; [exact Hexists|]. split; [now subst row|].
  rewrite getTableByIdentifier_find. simpl. rewrite Hns.
  rewrite (find_app_none _ _ _ Habsent). subst row. simpl.
  rewrite Z.eqb_refl, (bool_decide_eq_true_2 _ eq_refl). reflexivity.
Qed.

(** The theorem at the registration of the metadata file of the scenario
    under the name [r]. *)
Lemma registered_table_has_its_file_witness :
  StorageAccessor.fileExists env oldLocation (set_tables [] world)
  = (Return true, set_tables [] world).
Proof.
  refine (proj1 (registered_table_has_its_file env ["db"] "r" oldLocation None
                   (set_tables [] world) _ _ _)).
  vm_compute. reflexivity.
Defined.

(** In a catalog whose primary key is a key, two stored rows with the same
    key are the same row. *)
Lemma key_determines_row (stored : list TableModel) t u :
  NoDup (map tableId stored) -> In t stored -> In u stored ->
  tableId t = tableId u -> t = u.
Proof.
  induction stored as [|v stored IH]; intros Hkeys Ht Hu Hsame; [destruct Ht|].
  simpl in Hkeys. apply NoDup_cons in Hkeys as [Hfresh Hkeys].
  assert (Hold : forall x, In x stored -> tableId x <> tableId v).
  { intros x Hx Heq. apply Hfresh. apply list_elem_of_In, in_map_iff. eauto. }
  destruct Ht as [->|Ht], Hu as [->|Hu]; auto.
  - destruct (Hold u Hu). congruence.
  - destruct (Hold t Ht). congruence.
Qed.

(** Where the primary key is a key, writing one column of the rows that
    carry the key of [stored] is rewriting [stored]. *)
Lemma map_by_key (rows : list TableModel) stored (f : TableModel -> TableModel) :
  NoDup (map tableId rows) -> In stored rows ->
  map (fun t => if tableId t =? tableId stored then f t else t) rows
  = map (fun t => if tableId t =? tableId stored then f stored else t) rows.
Proof.
  intros Hkeys Hin. apply map_ext_in. intros t Ht.
  destruct (Z.eqb_spec (tableId t) (tableId stored)) as [Hsame|]; [|reflexivity].
  now rewrite (key_determines_row rows t stored Hkeys Ht Hin Hsame).
Qed.

Lemma existsb_by_key (rows : list TableModel) stored (test : TableModel -> bool) :
  NoDup (map tableId rows) -> In stored rows ->
  existsb (fun t => (tableId t =? tableId stored) && test t) rows
  = test stored.
Proof.
  intros Hkeys Hin. destruct (test stored) eqn:Htest.
  - apply existsb_exists. exists stored. now rewrite Z.eqb_refl.
  - apply not_true_is_false. intros Hsome.
    apply existsb_exists in Hsome as (t & Ht & Hboth).
    apply andb_prop in Hboth as [Hsame Ht'].
    apply Z.eqb_eq in Hsame.
    rewrite (key_determines_row rows t stored Hkeys Ht Hin Hsame) in Ht'.
    congruence.
Qed.

(** [updateTableMetadataLocationIn] once the lookup has found a row and the
    comparison has let it pass, in a catalog whose primary key is a key. *)
Lemma commitLocation_then_refresh loaded newLocation w stored :
  NoDup (map tableId (tables w)) -> In stored (tables w) ->
  tableId loaded = tableId stored ->
  newLocation <> metadataLocation loaded ->
  bindM (CRUDTable.commitLocation loaded newLocation)
    (fun _ => CRUDTable.refresh (set_metadataLocation newLocation loaded)) w
  = if CRUDTable.violatesUnique (set_metadataLocation newLocation stored)
         (tables w)
    then (Raise IntegrityError, w)
    else (Return (set_metadataLocation newLocation stored),
          set_tables
            (map (fun t => if tableId t =? tableId stored
                           then set_metadataLocation newLocation stored
                           else t)
                 (tables w)) w).
Proof.
  intros Hkeys Hin Hkey Hnew.
  unfold bindM, CRUDTable.commitLocation.
  rewrite (bool_decide_eq_false_2 _ Hnew), Hkey.
  rewrite (existsb_by_key (tables w) stored
             (fun t => CRUDTable.violatesUnique
                         (set_metadataLocation newLocation t) (tables w)))
    by assumption.
  destruct (CRUDTable.violatesUnique _ (tables w)); [reflexivity|].
  rewrite (map_by_key (tables w) stored (set_metadataLocation newLocation))
    by assumption.
  unfold CRUDTable.refresh. simpl. rewrite Hkey.
  rewrite (refresh_after_rewrite stored
             (set_metadataLocation newLocation stored)) by (auto; reflexivity).
  reflexivity.
Qed.

(** A stored row does not clash with the rows it is stored with. *)
Lemma stored_row_does_not_clash (rows : list TableModel) stored :
  Spec.constraintsHold rows -> In stored rows ->
  CRUDTable.violatesUnique stored rows = false.
Proof.
  intros [_ Hpairs] Hin. apply not_true_is_false. intros Hclash.
  apply existsb_exists in Hclash as (t & Ht & Hboth).
  apply andb_prop in Hboth as [Hkey Hsame].
  destruct (Z.eqb_spec (tableId t) (tableId stored)) as [|Hdiff];
    [discriminate|].
  destruct (Hpairs t stored Ht Hin Hdiff) as [Hloc Hname].
  apply orb_prop in Hsame as [Hsame|Hsame].
  - now apply bool_decide_eq_true_1 in Hsame.
  - apply andb_prop in Hsame as [Hns Hsame].
    apply Z.eqb_eq in Hns. apply bool_decide_eq_true_1 in Hsame.
    apply Hname. congruence.
Qed.

(** The catalog after the rival commit satisfies its constraints. *)
Lemma rivalCommit_constraints :
  Spec.constraintsHold (tables (rivalCommit world)).
Proof.
  split; [apply NoDup_singleton|].
  intros t u [<-|[]] [<-|[]] Hdiff. now destruct Hdiff.
Qed.

(** X24.  A session that has loaded no table row makes no difference: in a
    catalog that satisfies its constraints, [updateTableMetadataLocationIn]
    in the empty session is [updateTableMetadataLocation], for every
    identifier, new location and expected location, in what it returns or
    raises and in the world it leaves. *)
Theorem updateTableMetadataLocationIn_fresh_session
    identifier newLocation expected w :
  Spec.constraintsHold (tables w) ->
  CRUDTable.updateTableMetadataLocationIn ∅ identifier newLocation expected w
  = CRUDTable.updateTableMetadataLocation identifier newLocation expected w.
Proof.
  intros Hconstraints.
  destruct (getTableByIdentifier_reads identifier w) as (found & Hget & Hin).
  unfold CRUDTable.updateTableMetadataLocationIn,
    CRUDTable.getTableByIdentifierIn, CRUDTable.updateTableMetadataLocation.
  unfold bindM at 1 2. unfold bindM at 2. rewrite Hget. unfold retM.
  cbv beta iota.
  destruct found as [stored|]; [|reflexivity].
  specialize (Hin stored eq_refl). rewrite lookup_empty. cbn [default].
  match goal with
  | |- (if ?check then _ else _) w = _ => destruct check; [reflexivity|]
  end.
  destruct (decide (newLocation = metadataLocation stored)) as [Hsame|Hnew].
  - assert (Hrow : set_metadataLocation newLocation stored = stored)
      by (subst newLocation; now destruct stored).
    rewrite Hrow. unfold bindM, CRUDTable.commitLocation, CRUDTable.commitUpdate.
    rewrite (bool_decide_eq_true_2 _ Hsame).
    rewrite (stored_row_does_not_clash _ _ Hconstraints Hin).
    assert (Hrows : map (fun t => if tableId t =? tableId stored
                                  then stored else t) (tables w) = tables w).
    { rewrite <- (map_id (tables w)) at 2. apply map_ext_in. intros t Ht.
      destruct (Z.eqb_spec (tableId t) (tableId stored)) as [Hkey|];
        [|reflexivity].
      symmetry.
      exact (key_determines_row _ _ _ (proj1 Hconstraints) Ht Hin Hkey). }
    rewrite Hrows. now destruct w.
  - rewrite (commitLocation_then_refresh stored newLocation w stored)
      by (auto; apply Hconstraints).
    unfold bindM, CRUDTable.commitUpdate.
    destruct (CRUDTable.violatesUnique _ (tables w)); [reflexivity|].
    unfold CRUDTable.refresh. simpl.
    rewrite (refresh_after_rewrite stored
               (set_metadataLocation newLocation stored))
      by (auto; reflexivity).
    reflexivity.
Qed.

(** The theorem at the row of [db.t] after a rival commit. *)
Lemma updateTableMetadataLocationIn_fresh_session_witness :
  CRUDTable.updateTableMetadataLocationIn ∅ (mkTableIdentifier ["db"] "t")
    (newLocationOf metadata) (Some oldLocation) (rivalCommit world)
  = CRUDTable.updateTableMetadataLocation (mkTableIdentifier ["db"] "t")
      (newLocationOf metadata) (Some oldLocation) (rivalCommit world).
Proof.
  apply updateTableMetadataLocationIn_fresh_session.
  exact rivalCommit_constraints.
Defined.



(** A row that the constraints tell apart from all the others is the only
    one found under its namespace and name. *)
Lemma find_after_rewrite (stored : list TableModel) row renamed
    (test : TableModel -> bool) :
  Spec.constraintsHold stored ->
  In row stored ->
  tableId renamed = tableId row ->
  (forall t, In t stored -> test t = true ->
             (namespaceId t, tableName t) = (namespaceId row, tableName row)) ->
  test renamed = false ->
  List.find test
    (map (fun t => if tableId t =? tableId row then renamed else t) stored)
  = None.
Proof.
  intros [_ Hpairs] Hrow Hkey Htest Hrenamed.
  apply find_all_false. intros t Ht.
  apply in_map_iff in Ht as (t0 & Heq & Ht0).
  destruct (Z.eqb_spec (tableId t0) (tableId row)) as [Hsame|Hdiff];
    [now subst t|].
  subst t. destruct (test t0) eqn:Hfound; [|reflexivity].
  destruct (Hpairs t0 row Ht0 Hrow Hdiff) as [_ Hname].
  destruct Hname. now apply Htest.
Qed.

Lemma find_rewritten (stored : list TableModel) row renamed
    (test : TableModel -> bool) :
  In row stored ->
  test renamed = true ->
  (forall t, In t stored -> tableId t <> tableId row -> test t = false) ->
  List.find test
    (map (fun t => if tableId t =? tableId row then renamed else t) stored)
  = Some renamed.
Proof.
  intros Hrow Hrenamed Hothers.
  induction stored as [|t stored IH]; [destruct Hrow|]. simpl.
  destruct (Z.eqb_spec (tableId t) (tableId row)) as [Hsame|Hdiff].
  - now rewrite Hrenamed.
  - rewrite (Hothers t (or_introl eq_refl) Hdiff).
    apply IH.
    + destruct Hrow as [->|Hrow]; [congruence | assumption].
    + intros u Hu. apply Hothers. now right.
Qed.

(** X18.  Renaming moves the row and nothing else: in a catalog that
    satisfies its constraints, when [renameTable] succeeds, looking the
    destination up finds a row with the key, the metadata location and the
    properties of the row that the source named, and looking the source up
    finds nothing; files and namespaces are untouched. *)
Theorem renamed_table_moves :
  forall source destination w w',
    Spec.constraintsHold (tables w) ->
    CRUDTable.renameTable source destination w = (Return tt, w') ->
    exists row renamed,
      CRUDTable.getTableByIdentifier source w = (Return (Some row), w) /\
      CRUDTable.getTableByIdentifier destination w'
      = (Return (Some renamed), w') /\
      tableId renamed = tableId row /\
      metadataLocation renamed = metadataLocation row /\
      tableProperties renamed = tableProperties row /\
      tableName renamed = name destination /\
      CRUDTable.getTableByIdentifier source w' = (Return None, w') /\
      files w' = files w /\ namespaces w' = namespaces w.
Proof.
  intros source destination w w' Hw Hrun.
  apply renameTable_cases in Hrun
    as [[_ [e He]] | (row & destNamespace & Hsource & Hdest & Hns & Hrest)];
    [discriminate|].
  cbv zeta in Hrest. destruct Hrest as (_ & -> & Hfree).
  set (renamed := {| tableId := tableId row; namespaceId := nsId destNamespace;
                     tableName := name destination;
                     metadataLocation := metadataLocation row;
                     tableProperties := tableProperties row |}) in *.
  exists row, renamed.
  split; [exact Hsource|].
  destruct (getTableByIdentifier_reads source w) as (found & Hget & Hin).
  rewrite Hsource in Hget. injection Hget as <-.
  specialize (Hin row eq_refl).
  rewrite getNamespaceByLevels_find in Hns. injection Hns as Hns.
  rewrite getTableByIdentifier_find in Hdest. rewrite Hns in Hdest.
  injection Hdest as Hdest.
  rewrite getTableByIdentifier_find in Hsource.
  destruct (List.find _ (namespaces w)) as [sourceNamespace|] eqn:Hsns;
    [|discriminate].
  injection Hsource as Hsource.
  apply List.find_some in Hsource as [_ Hrowtest].
  apply andb_prop in Hrowtest as [Hrowns Hrowname].
  apply Z.eqb_eq in Hrowns. apply bool_decide_eq_true_1 in Hrowname.
  repeat split; try reflexivity.
  - rewrite getTableByIdentifier_find. simpl. rewrite Hns.
    rewrite (find_rewritten (tables w) row renamed); [reflexivity|assumption| |].
    + simpl. now rewrite Z.eqb_refl, (bool_decide_eq_true_2 _ eq_refl).
    + intros t Ht _. exact (List.find_none _ _ Hdest t Ht).
  - rewrite getTableByIdentifier_find. simpl. rewrite Hsns.
    rewrite (find_after_rewrite (tables w) row renamed);
      [reflexivity | assumption | assumption | reflexivity | |].
    + intros t Ht Htest. apply andb_prop in Htest as [Htns Htname].
      apply Z.eqb_eq in Htns. apply bool_decide_eq_true_1 in Htname.
      congruence.
    + destruct ((namespaceId renamed =? nsId sourceNamespace)
                && bool_decide (tableName renamed = name source)) eqn:Hclash;
        [|reflexivity].
      apply andb_prop in Hclash as [Hcns Hcname].
      apply Z.eqb_eq in Hcns. apply bool_decide_eq_true_1 in Hcname.
      simpl in Hcns, Hcname.
      pose proof (List.find_none _ _ Hdest row Hin) as Hnot.
      simpl in Hnot.
      rewrite Hrowns, <- Hcns, Z.eqb_refl in Hnot.
      rewrite Hrowname, <- Hcname, (bool_decide_eq_true_2 _ eq_refl) in Hnot.
      discriminate.
Qed.

(** The theorem at the renaming of [db.u] to [db.v]. *)
Lemma renamed_table_moves_witness :
  exists row renamed w',
    CRUDTable.renameTable (mkTableIdentifier ["db"] "u")
      (mkTableIdentifier ["db"] "v") twoTables = (Return tt, w') /\
    CRUDTable.getTableByIdentifier (mkTableIdentifier ["db"] "v") w'
    = (Return (Some renamed), w') /\
    metadataLocation renamed = metadataLocation row /\
    CRUDTable.getTableByIdentifier (mkTableIdentifier ["db"] "u") w'
    = (Return None, w').
Proof.
  destruct (CRUDTable.renameTable (mkTableIdentifier ["db"] "u")
              (mkTableIdentifier ["db"] "v") twoTables)
    as [[[]|e] w'] eqn:Hrun; [|vm_compute in Hrun; discriminate Hrun].
  destruct (renamed_table_moves _ _ _ _ twoTables_constraints Hrun)
    as (row & renamed & _ & Hfound & _ & Hlocation & _ & _ & Hgone & _).
  exists row, renamed, w'. auto.
Defined.

(** Looking a row up among the rows that a filter keeps. *)
Lemma find_filter_some {A : Type} (test keep : A -> bool) (l : list A) a :
  List.find test l = Some a -> keep a = true ->
  List.find test (List.filter keep l) = Some a.
Proof.
  induction l as [|b l IH]; simpl; [discriminate|].
  destruct (test b) eqn:Htest.
  - intros Hfound Hkeep. injection Hfound as ->. rewrite Hkeep. simpl.
    now rewrite Htest.
  - intros Hfound Hkeep. destruct (keep b); simpl; [rewrite Htest|]; auto.
Qed.

Lemma find_filter_none {A : Type} (test keep : A -> bool) (l : list A) :
  List.find test l = None -> List.find test (List.filter keep l) = None.
Proof.
  intros Hnone. apply find_all_false. intros a Ha.
  apply filter_In in Ha as [Ha _]. exact (List.find_none _ _ Hnone a Ha).
Qed.

(** X19.  Dropping a row removes that row only: in a catalog that satisfies
    its constraints, after [deleteTable] succeeds the identifier is not
    found, every other identifier is answered as before, the namespaces are
    as before, and without [purge] so are the files. *)
Theorem deleted_table_is_gone :
  forall env identifier purge w w',
    Spec.constraintsHold (tables w) ->
    CRUDTable.deleteTable env identifier purge w = (Return tt, w') ->
    exists row,
      CRUDTable.getTableByIdentifier identifier w = (Return (Some row), w) /\
      CRUDTable.getTableByIdentifier identifier w' = (Return None, w') /\
      (forall other found,
          CRUDTable.getTableByIdentifier other w = (Return found, w) ->
          found <> Some row ->
          CRUDTable.getTableByIdentifier other w' = (Return found, w')) /\
      namespaces w' = namespaces w /\
      (purge = false -> files w' = files w).
Proof.
  intros env identifier purge w w' Hw Hrun.
  apply deleteTable_cases in Hrun
    as [[_ [e He]] | (row & Hrow & _ & Htables & Hns & _ & Hfiles)];
    [discriminate|].
  exists row. split; [exact Hrow|].
  destruct (getTableByIdentifier_reads identifier w) as (found & Hget & Hin).
  rewrite Hrow in Hget. injection Hget as <-. specialize (Hin row eq_refl).
  rewrite getTableByIdentifier_find in Hrow.
  split; [|split; [|split; [exact Hns | exact Hfiles]]].
  - rewrite getTableByIdentifier_find, Hns, Htables.
    destruct (List.find _ (namespaces w)) as [namespaceModel|];
      [|reflexivity].
    injection Hrow as Hrow. apply List.find_some in Hrow as [_ Htest].
    apply andb_prop in Htest as [Hrowns Hrowname].
    apply Z.eqb_eq in Hrowns. apply bool_decide_eq_true_1 in Hrowname.
    rewrite find_all_false; [reflexivity|].
    intros t Ht. apply filter_In in Ht as [Ht Hkept].
    apply negb_true_iff, Z.eqb_neq in Hkept.
    destruct Hw as [_ Hpairs].
    destruct (Hpairs t row Ht Hin Hkept) as [_ Hname].
    destruct ((namespaceId t =? nsId namespaceModel)
              && bool_decide (tableName t = name identifier)) eqn:Hclash;
      [|reflexivity].
    apply andb_prop in Hclash as [Htns Htname].
    apply Z.eqb_eq in Htns. apply bool_decide_eq_true_1 in Htname.
    destruct Hname. congruence.
  - clear Hrow. intros other found Hother Hdiff.
    rewrite getTableByIdentifier_find in Hother.
    rewrite getTableByIdentifier_find, Hns, Htables.
    destruct (List.find _ (namespaces w)) as [otherNamespace|];
      [|now injection Hother as <-].
    injection Hother as Hother. destruct found as [kept|].
    + rewrite (find_filter_some _ _ _ kept Hother); [reflexivity|].
      apply negb_true_iff, Z.eqb_neq. intros Hsame. apply Hdiff. f_equal.
      apply List.find_some in Hother as [Hkept _].
      destruct Hw as [Hkeys _].
      exact (key_determines_row _ _ _ Hkeys Hkept Hin Hsame).
    + now rewrite (find_filter_none _ _ _ Hother).
Qed.

(** The theorem at the catalog of the two tables, of which [db.u] is
    dropped: [db.t] is still found. *)
Lemma deleted_table_is_gone_witness :
  exists w',
    CRUDTable.deleteTable env (mkTableIdentifier ["db"] "u") false twoTables
    = (Return tt, w') /\
    CRUDTable.getTableByIdentifier (mkTableIdentifier ["db"] "u") w'
    = (Return None, w') /\
    CRUDTable.getTableByIdentifier (mkTableIdentifier ["db"] "t") w'
    = (Return (Some (rowAt oldLocation)), w') /\
    files w' = files twoTables.
Proof.
  destruct (CRUDTable.deleteTable env (mkTableIdentifier ["db"] "u") false
              twoTables) as [[[]|e] w'] eqn:Hrun;
    [|vm_compute in Hrun; discriminate Hrun].
  destruct (deleted_table_is_gone _ _ _ _ _ twoTables_constraints Hrun)
    as (row & Hrow & Hgone & Hothers & _ & Hfiles).
  exists w'. split; [reflexivity|]. split; [exact Hgone|].
  split; [|auto].
  apply Hothers; [vm_compute; reflexivity|].
  vm_compute in Hrow. injection Hrow as <-. discriminate.
Defined.

(** Insertion by name keeps the rows and their order. *)
Lemma insertByName_Permutation t l :
  Permutation (CRUDTable.insertByName t l) (t :: l).
Proof.
  induction l as [|u l IH]; simpl; [reflexivity|].
  destruct (String.compare (tableName t) (tableName u)); try reflexivity.
  rewrite IH. apply perm_swap.
Qed.

Lemma insertByName_Sorted t l :
  Spec.sortedByName l -> Spec.sortedByName (CRUDTable.insertByName t l).
Proof.
  unfold Spec.sortedByName.
  induction l as [|u l IH]; intros Hsorted; simpl.
  - repeat constructor.
  - destruct (String.compare (tableName t) (tableName u)) eqn:Horder.
    + constructor; [assumption|]. constructor. congruence.
    + constructor; [assumption|]. constructor. congruence.
    + apply Sorted_inv in Hsorted as [Hsorted Hhead].
      constructor; [auto|].
      assert (Hut : String.compare (tableName u) (tableName t) <> Gt).
      { rewrite String.compare_antisym, Horder. discriminate. }
      destruct l as [|v l]; simpl; [now constructor|].
      destruct (String.compare (tableName t) (tableName v));
        constructor; auto.
      now apply HdRel_inv in Hhead.
Qed.

(** X20.  [listTables] of a namespace that exists answers with the rows of
    that namespace, each once, in the order of their names, and changes
    nothing; of a namespace that does not exist it raises NoSuchNamespace. *)
Theorem listTables_sorts_the_rows_of_the_namespace :
  forall namespaceLevels w,
    match CRUDNamespace.getNamespaceByLevels namespaceLevels w with
    | (Return (Some namespaceModel), _) =>
        exists rows,
          CRUDTable.listTables namespaceLevels w = (Return rows, w) /\
          Spec.sortedByName rows /\
          Permutation rows
            (List.filter (fun t => namespaceId t =? nsId namespaceModel)
                         (tables w))
    | _ =>
        CRUDTable.listTables namespaceLevels w
        = (Raise (NoSuchNamespaceException namespaceLevels), w)
    end.
Proof.
  intros namespaceLevels w.
  unfold CRUDTable.listTables, bindM.
  rewrite getNamespaceByLevels_find.
  destruct (List.find _ (namespaces w)) as [namespaceModel|]; [|reflexivity].
  eexists. split; [reflexivity|].
  generalize (List.filter (fun t => namespaceId t =? nsId namespaceModel)
                          (tables w)).
  intros rows. unfold CRUDTable.orderByName.
  induction rows as [|t rows [Hsorted Hperm]]; simpl.
  - split; [constructor | reflexivity].
  - split; [now apply insertByName_Sorted|].
    rewrite insertByName_Permutation. now constructor.
Qed.

(** ** Table endpoints, further *)

(** X21.  Two endpoints that cannot answer: [listTablesEndpoint] and
    [tableExistsEndpoint] call [namespaceExists] and [tableExists], which
    the CRUD classes do not define, so for every namespace, table and
    catalog they end in InternalServerError (never in a listing, a
    confirmation, NoSuchNamespace or NoSuchTable) and change nothing. *)
Theorem listing_and_existence_endpoints_never_answer :
  forall namespaceStr tableName w,
    TableRouter.listTablesEndpoint namespaceStr w
    = (Raise InternalServerErrorException, w) /\
    TableRouter.tableExistsEndpoint namespaceStr tableName w
    = (Raise InternalServerErrorException, w).
Proof. intros namespaceStr tableName w. split; reflexivity. Qed.

(** Running a bind. *)
Lemma bindM_return {A B : Type} (c : M A) (k : A -> M B) w a w' :
  c w = (Return a, w') -> bindM c k w = k a w'.
Proof. unfold bindM. now intros ->. Qed.

Lemma bindM_raise {A B : Type} (c : M A) (k : A -> M B) w e w' :
  c w = (Raise e, w') -> bindM c k w = (Raise e, w').
Proof. unfold bindM. now intros ->. Qed.

(** How the create arm of the commit ends: with TableAlreadyExists when the
    lookup has found a row, with BadRequest when no update adds a schema, and
    otherwise where [buildInitialTableMetadata] ends. *)
Lemma commitCreateArm_raises env o namespaceLevels tableName request
    currentDbTable w :
  TableRouter.commitCreateArm env o namespaceLevels tableName request
    currentDbTable w
  = (Raise
       match currentDbTable with
       | Some _ => TableAlreadyExistsException (namespaceLevels ++ [tableName])
       | None =>
           match (TableRouter.scanCreateUpdates (updates request)).1.1 with
           | None => BadRequestException
           | Some _ => PyError "ValidationError"
           end
       end, w).
Proof.
  unfold TableRouter.commitCreateArm.
  destruct currentDbTable as [existing|]; [reflexivity|].
  destruct (updates request) as [|first rest] eqn:Hupdates; [reflexivity|].
  rewrite <- Hupdates. clear first rest Hupdates.
  destruct (TableRouter.scanCreateUpdates (updates request))
    as [[schemaToAdd props] tableLocation].
  destruct schemaToAdd as [schemaObj|]; [|reflexivity].
  rewrite (buildInitialTableMetadata_raises _ _ _ _ _ _ _ _ schemaObj)
    by apply lookup_singleton_eq.
  reflexivity.
Qed.

(** X22.  A commit that requires the table not to exist never creates it.
    For every request with an [AssertCreate] requirement, whatever the other
    requests do, [commitTableEndpoint] raises and leaves the files and the
    catalog as they were: BadRequest when the identifier of the body is not
    the one of the path, else TableAlreadyExists when the table exists, else
    BadRequest when no update adds a schema, and else the validation error
    of the metadata constructor, which [buildInitialTableMetadata] calls by
    field name outside every [try].  It never raises CommitFailed. *)
Theorem commit_with_assert_create_never_succeeds :
  forall env o others namespaceStr tableName request w,
    TableRouter.isAssertCreate request = true ->
    let namespaceLevels := TableRouter.parseNamespace namespaceStr in
    TableRouter.commitTableEndpoint env o others namespaceStr tableName
      request w
    = (Raise
         (if match Models.identifier request with
             | Some given =>
                 negb (bool_decide (name given = tableName))
                 || negb (bool_decide (namespace given = namespaceLevels))
             | None => false
             end
          then BadRequestException
          else
            match (CRUDTable.getTableByIdentifier
                     (mkTableIdentifier namespaceLevels tableName) w).1 with
            | Return (Some _) =>
                TableAlreadyExistsException (namespaceLevels ++ [tableName])
            | _ =>
                match (TableRouter.scanCreateUpdates (updates request)).1.1
                with
                | None => BadRequestException
                | Some _ => PyError "ValidationError"
                end
            end), w).
Proof.
  intros env o others namespaceStr tableName request w Hcreate namespaceLevels.
  unfold TableRouter.commitTableEndpoint. fold namespaceLevels.
  match goal with
  | |- context [if ?guard then raise BadRequestException else _] =>
      destruct guard
  end; [reflexivity|].
  rewrite Hcreate.
  destruct (getTableByIdentifier_reads
              (mkTableIdentifier namespaceLevels tableName) w)
    as (found & Hfound & _).
  rewrite (bindM_return _ _ _ _ _ Hfound), Hfound.
  rewrite (bindM_raise _ _ _ _ _
             (commitCreateArm_raises env o namespaceLevels tableName request
                found w)).
  now destruct found.
Qed.

(** The theorem in the catalog of the scenario: the creation of [db.new]
    with a schema, the creation of [db.t], which exists, and a creation
    without a schema. *)
Lemma commit_with_assert_create_never_succeeds_witness :
  TableRouter.commitTableEndpoint env oracle (fun w => w) "db" "new"
    (mkCommitTableRequest None [AssertCreate] [AddSchemaUpdate schema None])
    world
  = (Raise (PyError "ValidationError"), world) /\
  TableRouter.commitTableEndpoint env oracle (fun w => w) "db" "t"
    (mkCommitTableRequest None [AssertCreate] [AddSchemaUpdate schema None])
    world
  = (Raise (TableAlreadyExistsException ["db"; "t"]), world) /\
  TableRouter.commitTableEndpoint env oracle (fun w => w) "db" "new"
    (mkCommitTableRequest None [AssertCreate]
       [SetPropertiesUpdate {[ "owner" := "a" ]}])
    world
  = (Raise BadRequestException, world).
Proof.
  split; [|split];
    (rewrite commit_with_assert_create_never_succeeds by reflexivity;
     vm_compute; reflexivity).
Defined.

(** [readJsonFile] looks at the files only, and leaves the world alone. *)
Lemma readJsonFile_files env path w w2 :
  files w2 = files w ->
  StorageAccessor.readJsonFile env path w2
  = ((StorageAccessor.readJsonFile env path w).1, w2).
Proof.
  intros Hfiles. unfold StorageAccessor.readJsonFile, bindM, liftO.
  destruct (StorageAccessor._resolvePath env path) as [resolved|e];
    [|reflexivity].
  rewrite Hfiles.
  destruct (StorageAccessor.osFile env resolved ≫= (files w !!.))
    as [[j|]|]; reflexivity.
Qed.

(** How [writeJsonFile] can end: refused with the world as it was, or done
    with the document in place. *)
Lemma writeJsonFile_cases env path data w outcome w' :
  StorageAccessor.writeJsonFile env path data w = (outcome, w') ->
  (w' = w /\ (outcome = Raise ValidationException
               \/ outcome = Raise InternalServerErrorException))
  \/ (outcome = Return tt /\
      namespaces w' = namespaces w /\ tables w' = tables w /\
      (exists file, files w' = <[file := JsonFile data]> (files w)) /\
      StorageAccessor.readJsonFile env path w' = (Return data, w')).
Proof.
  unfold StorageAccessor.writeJsonFile, StorageAccessor.readJsonFile, bindM,
    liftO.
  destruct (StorageAccessor._resolvePath env path) as [resolved|e] eqn:Hpath.
  - destruct (StorageAccessor.osFile env resolved) as [file|];
      intros Hrun; injection Hrun as <- <-; [right | left; eauto].
    repeat split; eauto. simpl. now rewrite lookup_insert_eq.
  - intros Hrun; injection Hrun as <- <-. left. split; [reflexivity|]. left.
    unfold StorageAccessor._resolvePath in Hpath.
    repeat match type of Hpath with
           | (if ?b then _ else _) = _ => destruct b
           end; congruence.
Qed.

(** The handlers that close an endpoint re-raise. *)
Lemma endpointHandlers_raises {A : Type} e w :
  exists e', @TableRouter.endpointHandlers A e w = (Raise e', w)
             /\ (isBaseIcebergException e = true -> e' = e)
             /\ (isBaseIcebergException e = false ->
                 e' = InternalServerErrorException).
Proof.
  unfold TableRouter.endpointHandlers.
  destruct (isBaseIcebergException e); eexists; (split; [reflexivity|]);
    split; congruence.
Qed.

(** [loadTableEndpoint] without a snapshot reference answers with the row
    it finds and the metadata it reads. *)
Lemma loadTableEndpoint_reads env namespaceStr tableName w row m :
  CRUDTable.getTableByIdentifier
    (mkTableIdentifier (TableRouter.parseNamespace namespaceStr) tableName) w
  = (Return (Some row), w) ->
  StorageAccessor.readJsonFile env (metadataLocation row) w
  = (Return (MetadataJson m), w) ->
  TableRouter.loadTableEndpoint env namespaceStr tableName None w
  = (Return (mkLoadTableResult None m (tableProperties row)), w).
Proof.
  intros Hrow Hfile.
  unfold TableRouter.loadTableEndpoint, tryExcept, bindM.
  rewrite Hrow, Hfile. reflexivity.
Qed.

(** X23.  [createTableEndpoint] never answers and changes nothing: for
    every request, staged or not, it raises NoSuchNamespace when the
    namespace does not exist and InternalServerError when it does, whether
    or not the table exists, and the files, the namespaces and the table
    rows are as before.  The metadata constructor, called by field name,
    raises inside the [try] of the endpoint before anything is written. *)
Theorem create_endpoint_never_answers :
  forall env o namespaceStr request w,
    let namespaceLevels := TableRouter.parseNamespace namespaceStr in
    TableRouter.createTableEndpoint env o namespaceStr request w
    = (Raise
         match (CRUDNamespace.getNamespaceByLevels namespaceLevels w).1 with
         | Return (Some _) => InternalServerErrorException
         | _ => NoSuchNamespaceException namespaceLevels
         end, w).
Proof.
  intros env o namespaceStr request w namespaceLevels.
  unfold TableRouter.createTableEndpoint, tryExcept. fold namespaceLevels.
  unfold bindM at 1. rewrite getNamespaceByLevels_find. cbn [fst].
  destruct (List.find _ (namespaces w)) as [namespaceModel|]; [|reflexivity].
  rewrite (buildInitialTableMetadata_raises _ _ _ _ _ _ _ _
             (createSchema request)) by apply lookup_singleton_eq.
  reflexivity.
Qed.

(** The loop of the purge always ends well; it can only remove files. *)
Lemma purgeFiles_effect env locations :
  forall w, exists w',
    TableRouter.purgeFiles env locations w = (Return tt, w') /\
    namespaces w' = namespaces w /\ tables w' = tables w /\
    files w' ⊆ files w.
Proof.
  induction locations as [|mfLocation locations IH]; intros w; simpl.
  - exists w. repeat split; reflexivity.
  - unfold bindM, tryExcept.
    destruct (deleteFile_effect env mfLocation w)
      as (ended & w1 & -> & Hns & Htables & Hfiles & _).
    destruct (IH w1) as (w2 & Hrest & Hns2 & Htables2 & Hfiles2).
    exists w2.
    destruct ended as [[]|e]; unfold retM; rewrite Hrest;
      (split; [reflexivity|]); (repeat split; try congruence);
      now transitivity (files w1).
Qed.

(** X25.  A table that exists is dropped, whatever happens to the purge:
    for every [purge] flag, every order of iteration over the set of files
    and every state of the files, [dropTableEndpoint] on a table that the
    lookup finds returns, its row (and no other) is gone, the namespaces are
    as before and files have at most been removed, none without [purge];
    on a table that the lookup does not find it raises NoSuchTable and
    changes nothing. *)
Theorem existing_table_is_always_dropped :
  forall env iterationOfSet namespaceStr tableName purge w,
    match CRUDTable.getTableByIdentifier
            (mkTableIdentifier (TableRouter.parseNamespace namespaceStr)
                               tableName) w with
    | (Return (Some row), _) =>
        exists w',
          TableRouter.dropTableEndpoint env iterationOfSet namespaceStr
            tableName purge w = (Return tt, w') /\
          tables w'
          = List.filter (fun t => negb (tableId t =? tableId row)) (tables w) /\
          namespaces w' = namespaces w /\
          files w' ⊆ files w /\
          (default false purge = false -> files w' = files w)
    | _ =>
        TableRouter.dropTableEndpoint env iterationOfSet namespaceStr
          tableName purge w
        = (Raise (NoSuchTableException
                    (TableRouter.parseNamespace namespaceStr ++ [tableName])),
           w)
    end.
Proof.
  intros env iterationOfSet namespaceStr tableName purge w.
  unfold TableRouter.dropTableEndpoint, tryExcept.
  destruct (getTableByIdentifier_reads
              (mkTableIdentifier (TableRouter.parseNamespace namespaceStr)
                                 tableName) w) as (found & Hget & _).
  rewrite (bindM_return _ _ _ _ _ Hget), Hget.
  destruct found as [row|]; [|reflexivity].
  assert (Hpurge : exists w1,
             (if default false purge
              then
                tryExcept
                  (metadataJson <~ StorageAccessor.readJsonFile env
                                     (metadataLocation row);
                   tableMetadata <~ liftO (parseTableMetadata metadataJson);
                   TableRouter.purgeFiles env
                     (iterationOfSet
                        (if bool_decide
                              (metadataLocation row
                                 ∈ map metadataFile
                                     (default [] (metadataLog tableMetadata)))
                         then map metadataFile
                                  (default [] (metadataLog tableMetadata))
                         else map metadataFile
                                  (default [] (metadataLog tableMetadata))
                                ++ [metadataLocation row])))
                  (fun _ => retM tt)
              else retM tt) w = (Return tt, w1) /\
             namespaces w1 = namespaces w /\ tables w1 = tables w /\
             files w1 ⊆ files w /\
             (default false purge = false -> w1 = w)).
  { destruct (default false purge).
    - unfold tryExcept, bindM at 1.
      destruct (StorageAccessor.readJsonFile env (metadataLocation row) w)
        as [[j|e] w0] eqn:Hread.
      + assert (w0 = w) as ->.
        { pose proof (readJsonFile_files env (metadataLocation row) w w
                        eq_refl) as Hsame.
          rewrite Hread in Hsame. now injection Hsame. }
        unfold bindM, liftO.
        destruct (parseTableMetadata j) as [m|e].
        * match goal with
          | |- context [TableRouter.purgeFiles env ?locations w] =>
              destruct (purgeFiles_effect env locations w)
                as (w1 & -> & Hns & Htables & Hfiles)
          end.
          exists w1. repeat split; auto; discriminate.
        * exists w. repeat split; auto; discriminate.
      + assert (w0 = w) as ->.
        { pose proof (readJsonFile_files env (metadataLocation row) w w
                        eq_refl) as Hsame.
          rewrite Hread in Hsame. now injection Hsame. }
        exists w. repeat split; auto; discriminate.
    - exists w. repeat split; auto. }
  destruct Hpurge as (w1 & Hpurge & Hns & Htables & Hfiles & Hnone).
  rewrite (bindM_return _ _ _ _ _ Hpurge).
  unfold CRUDTable.deleteTable, bindM, retM, CRUDTable.commitDelete.
  assert (Hget1 : CRUDTable.getTableByIdentifier
                    (mkTableIdentifier
                       (TableRouter.parseNamespace namespaceStr) tableName) w1
                  = (Return (Some row), w1)).
  { rewrite getTableByIdentifier_find in Hget |- *. rewrite Hns, Htables.
    injection Hget as Hget. do 2 f_equal. exact Hget. }
  rewrite Hget1. eexists. split; [reflexivity|]. simpl.
  rewrite Htables. repeat split; auto.
  intros Hoff. now rewrite (Hnone Hoff).
Qed.

(** X26.  A registration is not undone when the metadata cannot be read:
    if [registerTable] accepts the table that a request names but the file
    at the metadata location does not hold table metadata,
    [registerTableEndpoint] ends in an exception, and yet the row is in the
    catalog afterwards and the lookup finds it. *)
Theorem registration_outlives_a_failed_read :
  forall env namespaceStr request tableName w row w1,
    registerName request = Some tableName -> tableName <> "" ->
    CRUDTable.registerTable env (TableRouter.parseNamespace namespaceStr)
      tableName (registerMetadataLocation request) None w = (Return row, w1) ->
    (forall m,
        StorageAccessor.readJsonFile env (registerMetadataLocation request) w
        <> (Return (MetadataJson m), w)) ->
    exists e,
      TableRouter.registerTableEndpoint env namespaceStr request w
      = (Raise e, w1) /\
      tables w1 = tables w ++ [row] /\
      CRUDTable.getTableByIdentifier
        (mkTableIdentifier (TableRouter.parseNamespace namespaceStr) tableName)
        w1 = (Return (Some row), w1).
Proof.
  intros env namespaceStr request tableName w row w1 Hname Hnonempty Hregister
    Hfile.
  unfold TableRouter.registerTableEndpoint. rewrite Hname.
  rewrite (bool_decide_eq_false_2 _ Hnonempty).
  rewrite (bindM_return _ _ w tableName w eq_refl).
  unfold tryExcept.
  pose proof Hregister as Hcases.
  apply registerTable_cases in Hcases
    as [[_ [e He]] | (namespaceModel & row0 & Hrow & -> & Hns & Habsent
                      & _ & Hshape & _)]; [discriminate|].
  injection Hrow as <-.
  rewrite (bindM_return _ _ _ _ _ Hns).
  rewrite (bindM_return _ _ _ _ _ Hregister).
  assert (Hlocation : metadataLocation row = registerMetadataLocation request)
    by now subst row.
  rewrite Hlocation.
  assert (Hfound : CRUDTable.getTableByIdentifier
                     (mkTableIdentifier
                        (TableRouter.parseNamespace namespaceStr) tableName)
                     (set_tables (tables w ++ [row]) w)
                   = (Return (Some row), set_tables (tables w ++ [row]) w)).
  { rewrite getNamespaceByLevels_find in Hns. injection Hns as Hns.
    rewrite getTableByIdentifier_find in Habsent. simpl in Habsent.
    rewrite Hns in Habsent. injection Habsent as Habsent.
    rewrite getTableByIdentifier_find. simpl. rewrite Hns.
    rewrite (find_app_none _ _ _ Habsent). subst row. simpl.
    rewrite Z.eqb_refl, (bool_decide_eq_true_2 _ eq_refl). reflexivity. }
  pose proof (readJsonFile_files env (registerMetadataLocation request) w
                (set_tables (tables w ++ [row]) w) eq_refl) as Hread.
  pose proof (readJsonFile_files env (registerMetadataLocation request) w
                w eq_refl) as Hread0.
  destruct (StorageAccessor.readJsonFile env
              (registerMetadataLocation request) w) as [[[m|]|e] w0];
    simpl in Hread, Hread0.
  - destruct (Hfile m). now rewrite Hread0.
  - rewrite (bindM_return _ _ _ _ _ Hread). unfold bindM, liftO. simpl.
    eexists. split; [reflexivity|]. split; [reflexivity | exact Hfound].
  - rewrite (bindM_raise _ _ _ _ _ Hread).
    destruct (@endpointHandlers_raises LoadTableResult e
                (set_tables (tables w ++ [row]) w)) as (e' & -> & _).
    eexists. split; [reflexivity|]. split; [reflexivity | exact Hfound].
Qed.

(** The theorem at the registration of a file that holds some other JSON
    document. *)
Lemma registration_outlives_a_failed_read_witness :
  exists e w1,
    TableRouter.registerTableEndpoint env "db"
      (mkRegisterTableRequest (Some "r") oldLocation)
      (set_tables [] (set_files {[ oldLocation := JsonFile OtherJson ]} world))
    = (Raise e, w1) /\
    CRUDTable.getTableByIdentifier (mkTableIdentifier ["db"] "r") w1
    = (Return (Some {| tableId := 1; namespaceId := 1; tableName := "r";
                       metadataLocation := oldLocation;
                       tableProperties := None |}), w1).
Proof.
  destruct (registration_outlives_a_failed_read env "db"
              (mkRegisterTableRequest (Some "r") oldLocation) "r"
              (set_tables []
                 (set_files {[ oldLocation := JsonFile OtherJson ]} world))
              {| tableId := 1; namespaceId := 1; tableName := "r";
                 metadataLocation := oldLocation; tableProperties := None |}
              (set_tables
                 [{| tableId := 1; namespaceId := 1; tableName := "r";
                     metadataLocation := oldLocation;
                     tableProperties := None |}]
                 (set_files {[ oldLocation := JsonFile OtherJson ]} world)))
    as (e & Hrun & _ & Hfound).
  - reflexivity.
  - discriminate.
  - vm_compute. reflexivity.
  - intros m Hread. vm_compute in Hread. discriminate Hread.
  - exists e. eexists. split; [exact Hrun | exact Hfound].
Defined.

(** Under [AssertCreate] the commit raises and changes nothing. *)
Lemma commitTableEndpoint_create_raises env o others namespaceStr tableName
    request w :
  TableRouter.isAssertCreate request = true ->
  exists e,
    TableRouter.commitTableEndpoint env o others namespaceStr tableName
      request w = (Raise e, w).
Proof.
  intros Hcreate. unfold TableRouter.commitTableEndpoint.
  match goal with
  | |- context [if ?guard then raise BadRequestException else _] =>
      destruct guard
  end; [eexists; reflexivity|].
  rewrite Hcreate.
  destruct (getTableByIdentifier_reads
              (mkTableIdentifier (TableRouter.parseNamespace namespaceStr)
                                 tableName) w) as (found & Hfound & _).
  rewrite (bindM_return _ _ _ _ _ Hfound).
  rewrite (bindM_raise _ _ _ _ _
             (commitCreateArm_raises env o _ tableName request found w)).
  eexists; reflexivity.
Qed.

(** A rewriting of the rows that the test cannot see commutes with the
    search. *)
Lemma find_map_invariant {A : Type} (test : A -> bool) (f : A -> A)
    (l : list A) :
  (forall a, test (f a) = test a) ->
  List.find test (map f l) = f <$> List.find test l.
Proof.
  intros Htest. induction l as [|a l IH]; [reflexivity|]. simpl.
  rewrite Htest. now destruct (test a).
Qed.

Lemma readJsonFile_world env path w outcome w' :
  StorageAccessor.readJsonFile env path w = (outcome, w') -> w' = w.
Proof.
  intros Hread.
  pose proof (readJsonFile_files env path w w eq_refl) as Hsame.
  rewrite Hread in Hsame. now injection Hsame.
Qed.

(** How [updateTableMetadataLocationIn] can end: with an exception and the
    world as it was, or with a row, the location written on the rows that
    carry the key of the instance that the session handed out (on none when
    the instance had that location already). *)
Lemma updateTableMetadataLocationIn_cases session identifier newLocation
    expected w outcome w' :
  CRUDTable.updateTableMetadataLocationIn session identifier newLocation
    expected w = (outcome, w') ->
  (w' = w /\ exists e, outcome = Raise e)
  \/ exists stored returned,
       CRUDTable.getTableByIdentifier identifier w = (Return (Some stored), w)
       /\ outcome = Return returned
       /\ files w' = files w /\ namespaces w' = namespaces w
       /\ let loaded := default stored (session !! tableId stored) in
          tables w'
          = if bool_decide (newLocation = metadataLocation loaded)
            then tables w
            else map (fun t => if tableId t =? tableId loaded
                               then set_metadataLocation newLocation t
                               else t) (tables w).
Proof.
  destruct (getTableByIdentifier_reads identifier w) as (found & Hget & _).
  unfold CRUDTable.updateTableMetadataLocationIn,
    CRUDTable.getTableByIdentifierIn.
  unfold bindM at 1 2. rewrite Hget. unfold retM. cbv beta iota.
  destruct found as [stored|];
    [|intros Hrun; injection Hrun as <- <-; left; eauto].
  match goal with
  | |- (if ?check then _ else _) w = _ -> _ => destruct check
  end; [intros Hrun; injection Hrun as <- <-; left; eauto|].
  unfold bindM, CRUDTable.commitLocation, CRUDTable.refresh.
  destruct (bool_decide (newLocation = metadataLocation _)) eqn:Hsame.
  - intros Hrun; injection Hrun as <- <-. right.
    eexists stored, _. cbv zeta. rewrite Hsame. auto.
  - destruct (existsb _ (tables w)).
    + intros Hrun; injection Hrun as <- <-; left; eauto.
    + intros Hrun; injection Hrun as <- <-. right.
      eexists stored, _. cbv zeta. rewrite Hsame. auto.
Qed.

Lemma checkRequirements_raises m reqs e :
  TableRouter.checkRequirements m reqs = Raise e -> e = CommitFailedException.
Proof.
  induction reqs as [|req reqs IH]; [discriminate|]. simpl.
  destruct req; simpl; auto.
  destruct (negb (bool_decide _)); simpl; [congruence | auto].
Qed.

(** The update arm of the commit only reads, and what it raises is an
    exception of the catalog. *)
Lemma commitUpdateArm_cases env o identifier request currentDbTable w
    outcome w' :
  TableRouter.commitUpdateArm env o identifier request currentDbTable w
  = (outcome, w') ->
  w' = w /\
  forall e, outcome = Raise e -> isBaseIcebergException e = true.
Proof.
  unfold TableRouter.commitUpdateArm.
  destruct currentDbTable as [row|];
    [|intros Hrun; injection Hrun as <- <-; split; [reflexivity|];
      now intros e [= <-]].
  unfold bindM at 1. unfold tryExcept at 1. unfold bindM at 1.
  destruct (StorageAccessor.readJsonFile env (metadataLocation row) w)
    as [[j|e] w0] eqn:Hread; apply readJsonFile_world in Hread as ->;
    [|intros Hrun; injection Hrun as <- <-; split; [reflexivity|];
      now intros e' [= <-]].
  unfold liftO at 1.
  destruct (parseTableMetadata j) as [m|e];
    [|intros Hrun; injection Hrun as <- <-; split; [reflexivity|];
      now intros e' [= <-]].
  unfold bindM at 1, liftO at 1.
  destruct (TableRouter.checkRequirements m (requirements request))
    as [[]|e] eqn:Hreqs;
    [|intros Hrun; injection Hrun as <- <-; split; [reflexivity|];
      intros e' [= <-]; now rewrite (checkRequirements_raises _ _ _ Hreqs)].
  unfold bindM, tryExcept, liftO.
  destruct (MetadataManager.applyUpdatesToMetadata _ _ _ _) as [m'|e].
  - intros Hrun; injection Hrun as <- <-. split; [reflexivity | discriminate].
  - destruct (isBaseIcebergException e) eqn:Hclass; intros Hrun;
      injection Hrun as <- <-; (split; [reflexivity|]); intros e' [= <-];
      auto.
Qed.

(** [commitTableEndpoint] without [AssertCreate], run alone.  Either it ends
    in an exception of the catalog with the rows and the namespaces as they
    were, or the new file is in place, the location is written on the row,
    and the constructor of the response raises. *)
Lemma commitTableEndpoint_update_alone env o namespaceStr tableName request
    w outcome w' :
  TableRouter.isAssertCreate request = false ->
  TableRouter.commitTableEndpoint env o (fun w => w) namespaceStr tableName
    request w = (outcome, w') ->
  let identifier :=
    mkTableIdentifier (TableRouter.parseNamespace namespaceStr) tableName in
  (exists e, outcome = Raise e /\ isBaseIcebergException e = true /\
             tables w' = tables w /\ namespaces w' = namespaces w)
  \/ (outcome = Raise (PyError "ValidationError") /\
      exists row m location,
        CRUDTable.getTableByIdentifier identifier w = (Return (Some row), w)
        /\ TableRouter.commitUpdateArm env o identifier request (Some row) w
           = (Return (m, location), w)
        /\ namespaces w' = namespaces w
        /\ tables w'
           = (if bool_decide (location = metadataLocation row)
              then tables w
              else map (fun t => if tableId t =? tableId row
                                 then set_metadataLocation location t
                                 else t) (tables w))
        /\ StorageAccessor.readJsonFile env location w'
           = (Return
                (MetadataJson
                   (set_metadataLog
                      (Some (default [] (metadataLog m)
                             ++ [mkMetadataLogEntry (lastUpdatedMs m)
                                   location])) m)), w')).
Proof.
  intros Hcreate Hrun identifier.
  unfold TableRouter.commitTableEndpoint in Hrun. fold identifier in Hrun.
  match type of Hrun with
  | (if ?guard then _ else _) w = _ => destruct guard
  end; [injection Hrun as <- <-; left; eauto|].
  rewrite Hcreate in Hrun.
  destruct (getTableByIdentifier_reads identifier w) as (found & Hget & _).
  rewrite (bindM_return _ _ _ _ _ Hget) in Hrun.
  destruct (TableRouter.commitUpdateArm env o identifier request found w)
    as [[[m location]|e0] w0] eqn:Harm;
    destruct (commitUpdateArm_cases _ _ _ _ _ _ _ _ Harm) as [-> Hclass];
    [|rewrite (bindM_raise _ _ _ _ _ Harm) in Hrun;
      injection Hrun as <- <-; left; exists e0; repeat split; auto].
  rewrite (bindM_return _ _ _ _ _ Harm) in Hrun.
  destruct found as [row|]; [|discriminate].
  match type of Hrun with
  | bindM (StorageAccessor.writeJsonFile env location ?doc) _ w = _ =>
      destruct (StorageAccessor.writeJsonFile env location doc w)
        as [written w2] eqn:Hwrite
  end.
  pose proof Hwrite as Hwritten.
  apply writeJsonFile_cases in Hwritten
    as [[-> [-> | ->]] | (-> & Hns & Htables & _ & Hread)];
    try (rewrite (bindM_raise _ _ _ _ _ Hwrite) in Hrun;
         injection Hrun as <- <-; left; eauto; fail).
  rewrite (bindM_return _ _ _ _ _ Hwrite) in Hrun.
  rewrite (bindM_return _ _ w2 tt w2 eq_refl) in Hrun.
  unfold tryExcept in Hrun. unfold bindM at 1 2 in Hrun.
  cbn [fmap option_fmap option_map] in Hrun.
  destruct (CRUDTable.updateTableMetadataLocationIn _ identifier location
              (Some (metadataLocation row)) w2) as [updated w3] eqn:Hupdate.
  apply updateTableMetadataLocationIn_cases in Hupdate
    as [[-> [e1 ->]]
       | (stored & returned & Hget2 & -> & Hfiles3 & Hns3 & Htables3)].
  - unfold bindM in Hrun.
    destruct (deleteFile_effect env location w2)
      as (ended & w4 & Hdelete & Hns4 & Htables4 & _ & Hended).
    rewrite Hdelete in Hrun. left.
    destruct Hended as [-> | [-> | ->]];
      [destruct (isCommitFailedException e1) eqn:Hcf;
       [destruct e1; try discriminate|] |..];
      injection Hrun as <- <-; eexists; (split; [reflexivity|]);
      (split; [reflexivity|]); split; congruence.
  - assert (stored = row) as ->.
    { rewrite getTableByIdentifier_find in Hget, Hget2.
      rewrite Hns, Htables in Hget2. congruence. }
    cbv zeta in Htables3. rewrite lookup_singleton_eq in Htables3.
    cbn [default from_option id] in Htables3.
    injection Hrun as <- <-. right. split; [reflexivity|].
    exists row, m, location. split; [exact Hget|]. split; [exact Harm|].
    split; [congruence|]. split; [now rewrite Htables3, Htables|].
    rewrite (readJsonFile_files env _ w2) by exact Hfiles3.
    now rewrite Hread.
Qed.

(** X27.  Commit, then load.  [commitTableEndpoint] never gets to answer
    (the constructor of its response, called by field name, raises), but
    without [AssertCreate] and run alone, a commit that ends in that
    validation error has taken effect: the table existed, the row now
    carries the location that the update arm chose, and [loadTableEndpoint]
    on the same namespace and name answers with the metadata of the update
    arm extended by the log entry of the commit, with the properties of the
    row, and with no metadata location. *)
Theorem committed_metadata_is_loaded :
  forall env o namespaceStr tableName request w w',
    TableRouter.isAssertCreate request = false ->
    TableRouter.commitTableEndpoint env o (fun w => w) namespaceStr tableName
      request w = (Raise (PyError "ValidationError"), w') ->
    let identifier :=
      mkTableIdentifier (TableRouter.parseNamespace namespaceStr) tableName in
    exists row m location,
      CRUDTable.getTableByIdentifier identifier w = (Return (Some row), w) /\
      TableRouter.commitUpdateArm env o identifier request (Some row) w
      = (Return (m, location), w) /\
      CRUDTable.getTableByIdentifier identifier w'
      = (Return (Some (set_metadataLocation location row)), w') /\
      TableRouter.loadTableEndpoint env namespaceStr tableName None w'
      = (Return
           (mkLoadTableResult None
              (set_metadataLog
                 (Some (default [] (metadataLog m)
                        ++ [mkMetadataLogEntry (lastUpdatedMs m) location]))
                 m)
              (tableProperties row)), w').
Proof.
  intros env o namespaceStr tableName request w w' Hcreate Hrun identifier.
  destruct (commitTableEndpoint_update_alone _ _ _ _ _ _ _ _ Hcreate Hrun)
    as [(e & [= <-] & Hclass & _)
       | (_ & row & m & location & Hget & Harm & Hns & Htables & Hread)];
    [discriminate|].
  exists row, m, location. split; [exact Hget|]. split; [exact Harm|].
  assert (Hfound : CRUDTable.getTableByIdentifier identifier w'
                   = (Return (Some (set_metadataLocation location row)), w')).
  { rewrite getTableByIdentifier_find in Hget |- *. rewrite Hns.
    unfold identifier in *. cbn [name namespace] in *.
    injection Hget as Hget.
    destruct (List.find _ (namespaces w)) as [namespaceModel|];
      [|discriminate].
    rewrite Htables. do 2 f_equal.
    destruct (bool_decide_reflect (location = metadataLocation row))
      as [->|_].
    - rewrite Hget. now destruct row.
    - rewrite find_map_invariant, Hget by (intros t; now destruct (tableId t =? tableId row)).
      simpl. now rewrite Z.eqb_refl. }
  split; [exact Hfound|].
  now rewrite (loadTableEndpoint_reads env namespaceStr tableName w'
                 (set_metadataLocation location row) _ Hfound Hread).
Qed.

(** The theorem at a commit without updates on [db.t]. *)
Lemma committed_metadata_is_loaded_witness :
  let w' := worldAfterCommit metadata (newLocationOf metadata) in
  TableRouter.commitTableEndpoint env oracle (fun w => w) "db" "t"
    (mkCommitTableRequest None [] []) world
  = (Raise (PyError "ValidationError"), w') /\
  TableRouter.loadTableEndpoint env "db" "t" None w'
  = (Return (mkLoadTableResult None (committed metadata) None), w').
Proof.
  intros w'.
  assert (Hrun : TableRouter.commitTableEndpoint env oracle (fun w => w)
                   "db" "t" (mkCommitTableRequest None [] []) world
                 = (Raise (PyError "ValidationError"), w'))
    by (vm_compute; reflexivity).
  split; [exact Hrun|].
  destruct (committed_metadata_is_loaded env oracle "db" "t"
              (mkCommitTableRequest None [] []) world w' eq_refl Hrun)
    as (row & m & location & Hget & Harm & _ & Hload).
  assert (Hrow : CRUDTable.getTableByIdentifier
                   (mkTableIdentifier (TableRouter.parseNamespace "db") "t")
                   world = (Return (Some (rowAt oldLocation)), world))
    by (vm_compute; reflexivity).
  rewrite Hrow in Hget. injection Hget as <-.
  assert (Hm : TableRouter.commitUpdateArm env oracle
                 (mkTableIdentifier (TableRouter.parseNamespace "db") "t")
                 (mkCommitTableRequest None [] []) (Some (rowAt oldLocation))
                 world
               = (Return (set_lastUpdatedMs (currentTimeMs oracle) metadata,
                          newLocationOf metadata), world))
    by (vm_compute; reflexivity).
  rewrite Hm in Harm. injection Harm as <- <-.
  exact Hload.
Defined.

(** X28.  [commitTableEndpoint] never answers: for every request and
    whatever the other requests do, it ends in an exception.  Run alone, it
    leaves the namespaces as they were, and the table rows too unless the
    exception is the validation error of a constructor called by field
    name. *)
Theorem commit_never_answers :
  forall env o namespaceStr tableName request w,
    (forall others, exists e w',
        TableRouter.commitTableEndpoint env o others namespaceStr tableName
          request w = (Raise e, w')) /\
    (exists e w',
        TableRouter.commitTableEndpoint env o (fun w => w) namespaceStr
          tableName request w = (Raise e, w') /\
        namespaces w' = namespaces w /\
        (e <> PyError "ValidationError" -> tables w' = tables w)).
Proof.
  intros env o namespaceStr tableName request w.
  assert (Hraises : forall others, exists e w',
             TableRouter.commitTableEndpoint env o others namespaceStr
               tableName request w = (Raise e, w')).
  { intros others. unfold TableRouter.commitTableEndpoint.
    match goal with
    | |- context [if ?guard then raise BadRequestException else _] =>
        destruct guard
    end; [eexists _, _; reflexivity|].
    destruct (getTableByIdentifier_reads
                (mkTableIdentifier (TableRouter.parseNamespace namespaceStr)
                                   tableName) w) as (found & Hget & _).
    rewrite (bindM_return _ _ _ _ _ Hget).
    match goal with
    | |- context [bindM ?arm _ w] =>
        destruct (arm w) as [[[m location]|e] w1] eqn:Harm;
          [rewrite (bindM_return _ _ _ _ _ Harm)
          |rewrite (bindM_raise _ _ _ _ _ Harm); eauto]
    end.
    match goal with
    | |- context [bindM ?write _ w1] =>
        destruct (write w1) as [[[]|e] w2] eqn:Hwrite;
          [rewrite (bindM_return _ _ _ _ _ Hwrite)
          |rewrite (bindM_raise _ _ _ _ _ Hwrite); eauto]
    end.
    rewrite (bindM_return _ _ w2 tt (others w2) eq_refl).
    match goal with
    | |- context [bindM ?swap _ (others w2)] =>
        destruct (swap (others w2)) as [[[]|e] w3] eqn:Hswap;
          [rewrite (bindM_return _ _ _ _ _ Hswap)
          |rewrite (bindM_raise _ _ _ _ _ Hswap); eauto]
    end.
    eexists _, _; reflexivity. }
  split; [exact Hraises|].
  destruct (Hraises (fun w => w)) as (e & w' & Hrun).
  exists e, w'. split; [exact Hrun|].
  destruct (TableRouter.isAssertCreate request) eqn:Hcreate.
  - destruct (commitTableEndpoint_create_raises env o (fun w => w)
                namespaceStr tableName request w Hcreate) as [e' Hcreated].
    rewrite Hcreated in Hrun. injection Hrun as _ <-. auto.
  - destruct (commitTableEndpoint_update_alone _ _ _ _ _ _ _ _ Hcreate Hrun)
      as [(e' & _ & _ & Htables & Hns)
         | ([= ->] & _ & _ & _ & _ & _ & Hns & _)].
    + auto.
    + split; [exact Hns | now intros []].
Qed.

(** The theorem at a commit without updates on [db.t] that a rival commit
    overtakes. *)
Lemma commit_never_answers_witness :
  exists e w',
    TableRouter.commitTableEndpoint env oracle rivalCommit "db" "t"
      (mkCommitTableRequest None [] []) world = (Raise e, w').
Proof.
  exact (proj1 (commit_never_answers env oracle "db" "t"
                  (mkCommitTableRequest None [] []) world) rivalCommit).
Defined.
